(** * BiblioDrift: the library manager, its local store and its sync

    A shallow embedding of [LibraryManager] and of the progress-slider
    handler of [BookRenderer.createBookElement] (the second, complete
    version of both classes in the bundled script), with the theorems
    about them.

    Conventions.
    - A JavaScript object holding shelves is an association list in
      enumeration order; [JS.get] is a property read, with the names
      every object inherits from [Object.prototype].
    - An operation runs in the monad [M]: it threads the state and may
      throw; the state reached when it throws is kept, as in JavaScript.
      A throw inside an [async] method stands for its promise being
      rejected.
    - What the network answers is a parameter of the operation
      ([get_reply], [post_reply], [delete_reply]); the requests issued are
      logged in the state.
    - [localStorage] is seen through [JSON.parse] and [JSON.stringify]: a
      stored text is what it parses to.  [setItem] is taken to succeed.
    - [addBook] and [removeBook] run an [async] method to the end of its
      promise; [addBook_local] stops where [addBook] first suspends, which
      is where control returns to the caller, and [run_events] lets calls
      of [addBook] overlap. *)

From Stdlib Require Import List String Ascii ZArith Bool Lia Permutation.
From Stdlib Require QArith Qround Lqa.
Import ListNotations.
Open Scope string_scope.
Open Scope list_scope.

Set Implicit Arguments.

(* ------------------------------------------------------------------ *)
(** ** JavaScript fragments used by the code *)

Module JS.

(** The two exceptions the code can meet.  A rejected [fetch] is a
    [TypeError] in browsers. *)
Inductive exn : Type := TypeError | SyntaxError.

Inductive result (A : Type) : Type :=
| Ok (a : A)
| Throw (e : exn).
Arguments Ok {A} a.
Arguments Throw {A} e.

(** [s.split(', ')]: cut at each occurrence of comma-space, left to
    right; [cur] is the piece being read. *)
Fixpoint split_comma_space (cur s : string) : list string :=
  match s with
  | EmptyString => [cur]
  | String c rest =>
      match rest with
      | String c' rest' =>
          if (Ascii.eqb c "," && Ascii.eqb c' " ")%bool
          then cur :: split_comma_space EmptyString rest'
          else split_comma_space (cur ++ String c EmptyString)%string rest
      | EmptyString => [(cur ++ String c EmptyString)%string]
      end
  end.

(** The property names every plain object inherits from
    [Object.prototype]; reading one of them on an object literal gives a
    function (or, for [__proto__], the prototype), which is truthy and
    has no [push]. *)
Definition object_prototype_keys : list string :=
  [ "constructor"; "__proto__"; "hasOwnProperty"; "isPrototypeOf";
    "propertyIsEnumerable"; "toString"; "toLocaleString"; "valueOf";
    "__defineGetter__"; "__defineSetter__";
    "__lookupGetter__"; "__lookupSetter__" ].

Definition inherited (k : string) : bool :=
  existsb (String.eqb k) object_prototype_keys.

Section Objects.
(** An object whose own properties all hold a [V], in [for...in]
    order.  An object has each key once; [shelf_state] below says so for
    the states the theorems need it for. *)
Variable V : Type.

Definition object := list (string * V).

Inductive property : Type :=
| Own (v : V)
| Inherited
| Undefined.

Definition keys (o : object) : list string := map fst o.

Fixpoint own (o : object) (k : string) : option V :=
  match o with
  | [] => None
  | (k', v) :: o' => if String.eqb k' k then Some v else own o' k
  end.

(** [o[k]] *)
Definition get (o : object) (k : string) : property :=
  match own o k with
  | Some v => Own v
  | None => if inherited k then Inherited else Undefined
  end.

(** [o[k] = v]: an own property keeps its place, a new one goes last. *)
Fixpoint set (o : object) (k : string) (v : V) : object :=
  match o with
  | [] => [(k, v)]
  | (k', v') :: o' =>
      if String.eqb k' k then (k', v) :: o' else (k', v') :: set o' k v
  end.
End Objects.

Arguments Own {V} v.
Arguments Inherited {V}.
Arguments Undefined {V}.

(** The text kept under a storage key, seen through [JSON.parse]: the
    serialization of a value ([None] is [null]), the empty string, or a
    text that is not JSON.  Values of other shapes than [A] are outside
    the model. *)
Inductive json_text (A : Type) : Type :=
| Stringified (v : option A)
| EmptyText
| Garbage.
Arguments Stringified {A} v.
Arguments EmptyText {A}.
Arguments Garbage {A}.

Definition JSON_stringify {A} (v : option A) : json_text A := Stringified v.

(** [JSON.parse(localStorage.getItem(key))]; [getItem] gives [null] for
    a missing key and [JSON.parse(null)] is [null]. *)
Definition JSON_parse {A} (item : option (json_text A)) : result (option A) :=
  match item with
  | None => Ok None
  | Some (Stringified v) => Ok v
  | Some EmptyText => Throw SyntaxError
  | Some Garbage => Throw SyntaxError
  end.

End JS.
Import JS.

(* ------------------------------------------------------------------ *)
(** ** Data *)

Record volume_info : Type := {
  title : string;
  authors : option (list string);
  imageLinks : option string       (* [{ thumbnail }] *)
}.

(** The [progress] property: missing, [null], or a number. *)
Inductive progress_value : Type :=
| progress_absent
| progress_null
| progress_num (n : Z).

Record book : Type := {
  id : string;
  db_id : option Z;
  volumeInfo : volume_info;
  progress : progress_value
}.

(** [{ current: [...], want: [...], finished: [...] }] *)
Definition shelves : Type := object (list book).

Definition empty_shelves : shelves :=
  [("current", []); ("want", []); ("finished", [])].

Record user : Type := { user_id : Z }.

(** A record of [GET /library/{userId}] *)
Record remote_item : Type := {
  item_id : option Z;
  google_books_id : string;
  item_title : string;
  item_authors : option string;
  thumbnail : string;
  shelf_type : string
}.

Record payload : Type := {
  p_user_id : Z;
  p_google_books_id : string;
  p_title : string;
  p_authors : string;
  p_thumbnail : string;
  p_shelf_type : string
}.

Inductive request : Type :=
| GET_library (user_id : Z)
| POST_library (body : payload)
| DELETE_library (db_id : Z).

(** What the network answers to the three requests. *)
Inductive library_body : Type :=
| BodyUnreadable                       (* [res.json()] rejects *)
| BodyNoLibrary                        (* [data.library] is undefined *)
| BodyLibrary (items : list remote_item).

Inductive get_reply : Type :=
| GetRejected
| GetNotOk
| GetOk (body : library_body).

Inductive item_body : Type :=
| ItemUnreadable                       (* [res.json()] rejects *)
| ItemMissing                          (* [data.item] is undefined *)
| Item (new_id : option Z).            (* [data.item.id] *)

Inductive post_reply : Type :=
| PostRejected
| PostNotOk
| PostOk (body : item_body).

Inductive delete_reply : Type :=
| DeleteRejected
| DeleteDone.

(** The manager's memory, the two stores, and what went out. *)
Record state : Type := {
  library : option shelves;                           (* [this.library] *)
  bibliodrift_library : option (json_text shelves);   (* localStorage *)
  bibliodrift_user : option (json_text user);         (* localStorage *)
  bibliodrift_synced_once : bool;                     (* sessionStorage *)
  requests : list request;
  reloads : nat
}.

(* ------------------------------------------------------------------ *)
(** ** The monad of operations *)

Definition M (A : Type) : Type := state -> result A * state.

Definition ret {A} (a : A) : M A := fun s => (Ok a, s).
Definition throw {A} (e : exn) : M A := fun s => (Throw e, s).
Definition bind {A B} (m : M A) (k : A -> M B) : M B :=
  fun s => match m s with
           | (Ok a, s') => k a s'
           | (Throw e, s') => (Throw e, s')
           end.
(** [try { m } catch (e) { console.error(...) }] *)
Definition try_catch (m : M unit) : M unit :=
  fun s => match m s with
           | (Ok a, s') => (Ok a, s')
           | (Throw _, s') => (Ok tt, s')
           end.
Definition gets {A} (f : state -> A) : M A := fun s => (Ok (f s), s).
Definition modify (f : state -> state) : M unit := fun s => (Ok tt, f s).
Definition lift {A} (r : result A) : M A := fun s => (r, s).

Notation "x <- m ;; k" := (bind m (fun x => k))
  (at level 61, m at next level, right associativity).
Notation "m ;;; k" := (bind m (fun _ => k))
  (at level 61, right associativity).

Definition set_library (l : option shelves) (s : state) : state :=
  {| library := l;
     bibliodrift_library := bibliodrift_library s;
     bibliodrift_user := bibliodrift_user s;
     bibliodrift_synced_once := bibliodrift_synced_once s;
     requests := requests s;
     reloads := reloads s |}.

Definition set_stored (t : json_text shelves) (s : state) : state :=
  {| library := library s;
     bibliodrift_library := Some t;
     bibliodrift_user := bibliodrift_user s;
     bibliodrift_synced_once := bibliodrift_synced_once s;
     requests := requests s;
     reloads := reloads s |}.

Definition log_request (r : request) (s : state) : state :=
  {| library := library s;
     bibliodrift_library := bibliodrift_library s;
     bibliodrift_user := bibliodrift_user s;
     bibliodrift_synced_once := bibliodrift_synced_once s;
     requests := requests s ++ [r];
     reloads := reloads s |}.

(** [fetch(...)]: the request goes out; the answer is the operation's
    [reply] parameter. *)
Definition fetch (r : request) : M unit := modify (log_request r).

(** [sessionStorage.setItem('bibliodrift_synced_once', 'true');
     window.location.reload()] *)
Definition synced_and_reloaded (s : state) : state :=
  {| library := library s;
     bibliodrift_library := bibliodrift_library s;
     bibliodrift_user := bibliodrift_user s;
     bibliodrift_synced_once := true;
     requests := requests s;
     reloads := S (reloads s) |}.

Definition mark_synced_and_reload : M unit := modify synced_and_reloaded.

(* ------------------------------------------------------------------ *)
(** ** [class LibraryManager] *)

Module LibraryManager.

(** [userStr ? JSON.parse(userStr) : null] *)
Definition parse_user (userStr : option (json_text user))
  : result (option user) :=
  match userStr with
  | None => Ok None
  | Some EmptyText => Ok None
  | Some t => JSON_parse (Some t)
  end.

(** [getUser()] *)
Definition getUser : M (option user) :=
  fun s => (parse_user (bibliodrift_user s), s).

(** [saveLocally()] *)
Definition saveLocally : M unit :=
  modify (fun s => set_stored (JSON_stringify (library s)) s).

(** The book object [syncWithBackend] rebuilds from a remote record. *)
Definition book_of_item (item : remote_item) : book :=
  {| id := google_books_id item;
     db_id := item_id item;
     volumeInfo :=
       {| title := item_title item;
          authors :=
            match item_authors item with
            | None => Some []
            | Some EmptyString => Some []
            | Some a => Some (split_comma_space EmptyString a)
            end;
          imageLinks := Some (thumbnail item) |};
     progress := progress_absent |}.

(** The body of [data.library.forEach]:
    [if (backendLibrary[item.shelf_type])
       backendLibrary[item.shelf_type].push(book)] *)
Definition place (backendLibrary : shelves) (item : remote_item)
  : result shelves :=
  match get backendLibrary (shelf_type item) with
  | Own arr =>
      Ok (set backendLibrary (shelf_type item) (arr ++ [book_of_item item]))
  | Inherited => Throw TypeError
  | Undefined => Ok backendLibrary
  end.

Fixpoint forEach (items : list remote_item) (backendLibrary : shelves)
  : result shelves :=
  match items with
  | [] => Ok backendLibrary
  | item :: rest =>
      match place backendLibrary item with
      | Ok backendLibrary' => forEach rest backendLibrary'
      | Throw e => Throw e
      end
  end.

(** [syncWithBackend()]; [on_library_page] is
    [document.getElementById('shelf-want')]. *)
Definition syncWithBackend (reply : get_reply) (on_library_page : bool)
  : M unit :=
  u <- getUser ;;
  match u with
  | None => ret tt
  | Some u =>
      try_catch
        (fetch (GET_library (user_id u)) ;;;
         match reply with
         | GetRejected => throw TypeError
         | GetNotOk => ret tt
         | GetOk BodyUnreadable => throw SyntaxError
         | GetOk BodyNoLibrary => throw TypeError
         | GetOk (BodyLibrary items) =>
             backendLibrary <- lift (forEach items empty_shelves) ;;
             if (0 <? List.length items)%nat then
               modify (set_library (Some backendLibrary)) ;;;
               saveLocally ;;;
               if on_library_page then
                 hasSyncedOnce <- gets bibliodrift_synced_once ;;
                 if negb hasSyncedOnce then mark_synced_and_reload else ret tt
               else ret tt
             else ret tt
         end)
  end.

(** [findBook(id)] *)
Definition findBook (lib : option shelves) (id0 : string) : bool :=
  match lib with
  | None => false
  | Some o =>
      existsb (fun shelf : string * list book =>
                 existsb (fun b => String.eqb (id b) id0) (snd shelf)) o
  end.

(** [findBookInShelf(id)] *)
Fixpoint findBookInShelves (o : shelves) (id0 : string)
  : option (string * book) :=
  match o with
  | [] => None
  | (shelf, arr) :: o' =>
      match find (fun b => String.eqb (id b) id0) arr with
      | Some b => Some (shelf, b)
      | None => findBookInShelves o' id0
      end
  end.

Definition findBookInShelf (lib : option shelves) (id0 : string)
  : option (string * book) :=
  match lib with
  | None => None
  | Some o => findBookInShelves o id0
  end.

(** [{ ...book, progress: shelf === 'current' ? 0 : null }] *)
Definition enrich (b : book) (shelf : string) : book :=
  {| id := id b;
     db_id := db_id b;
     volumeInfo := volumeInfo b;
     progress := if String.eqb shelf "current"
                 then progress_num 0 else progress_null |}.

(** [this.library[shelf].push(enrichedBook)]; gives the index the object
    was pushed at. *)
Definition push (shelf : string) (enrichedBook : book) : M nat :=
  fun s => match library s with
           | None => (Throw TypeError, s)
           | Some o =>
               match get o shelf with
               | Own arr =>
                   (Ok (List.length arr),
                    set_library (Some (set o shelf (arr ++ [enrichedBook]))) s)
               | Inherited => (Throw TypeError, s)
               | Undefined => (Throw TypeError, s)
               end
           end.

Definition payload_of (u : user) (b : book) (shelf : string) : payload :=
  {| p_user_id := user_id u;
     p_google_books_id := id b;
     p_title := title (volumeInfo b);
     p_authors := match authors (volumeInfo b) with
                  | Some a => String.concat ", " a
                  | None => EmptyString
                  end;
     p_thumbnail := match imageLinks (volumeInfo b) with
                    | Some t => t
                    | None => EmptyString
                    end;
     p_shelf_type := shelf |}.

Fixpoint update_nth (A : Type) (f : A -> A) (n : nat) (l : list A) : list A :=
  match l, n with
  | [], _ => []
  | x :: l', O => f x :: l'
  | x :: l', S n' => x :: update_nth f n' l'
  end.

Definition with_db_id (v : option Z) (b : book) : book :=
  {| id := id b; db_id := v; volumeInfo := volumeInfo b;
     progress := progress b |}.

(** [enrichedBook.db_id = data.item.id]: [enrichedBook] is the object the
    local phase pushed at [index] of [shelf], so the write shows in
    [this.library] there. *)
Definition assign_db_id (shelf : string) (index : nat) (v : option Z)
  (s : state) : state :=
  match library s with
  | None => s
  | Some o =>
      match own o shelf with
      | Some arr =>
          set_library (Some (set o shelf (update_nth (with_db_id v) index arr))) s
      | None => s
      end
  end.

(** [addBook(book, shelf)] up to its first [await]: the duplicate guard,
    the local update and, with a session, the POST being sent.  The
    result says where the pushed object is when a reply is awaited. *)
Definition addBook_local (b : book) (shelf : string)
  : M (option (string * nat)) :=
  found <- gets (fun s => findBook (library s) (id b)) ;;
  if found then ret None
  else
    let enrichedBook := enrich b shelf in
    index <- push shelf enrichedBook ;;
    saveLocally ;;;
    u <- getUser ;;
    match u with
    | None => ret None
    | Some u =>
        fetch (POST_library (payload_of u b shelf)) ;;;
        ret (Some (shelf, index))
    end.

(** The rest of [addBook] once the POST has an answer. *)
Definition addBook_settle (reply : post_reply) (pending : string * nat)
  : M unit :=
  try_catch
    match reply with
    | PostRejected => throw TypeError
    | PostNotOk => ret tt
    | PostOk ItemUnreadable => throw SyntaxError
    | PostOk ItemMissing => throw TypeError
    | PostOk (Item v) =>
        modify (assign_db_id (fst pending) (snd pending) v) ;;;
        saveLocally
    end.

Definition addBook (reply : post_reply) (b : book) (shelf : string)
  : M unit :=
  pending <- addBook_local b shelf ;;
  match pending with
  | None => ret tt
  | Some p => addBook_settle reply p
  end.

(** [this.library[shelf] = this.library[shelf].filter(b => b.id !== id)] *)
Definition filter_shelf (shelf id0 : string) : M unit :=
  fun s => match library s with
           | None => (Throw TypeError, s)
           | Some o =>
               match get o shelf with
               | Own arr =>
                   (Ok tt,
                    set_library
                      (Some (set o shelf
                               (filter (fun b => negb (String.eqb (id b) id0))
                                  arr))) s)
               | Inherited => (Throw TypeError, s)
               | Undefined => (Throw TypeError, s)
               end
           end.

(** [book.db_id] as a condition: a missing id and [0] are falsy. *)
Definition truthy_db_id (b : book) : option Z :=
  match db_id b with
  | Some d => if Z.eqb d 0 then None else Some d
  | None => None
  end.

(** [removeBook(id)] *)
Definition removeBook (reply : delete_reply) (id0 : string) : M bool :=
  result <- gets (fun s => findBookInShelf (library s) id0) ;;
  match result with
  | Some (shelf, b) =>
      filter_shelf shelf id0 ;;;
      saveLocally ;;;
      u <- getUser ;;
      match u, truthy_db_id b with
      | Some _, Some d =>
          try_catch
            (fetch (DELETE_library d) ;;;
             match reply with
             | DeleteRejected => throw TypeError
             | DeleteDone => ret tt
             end) ;;;
          ret true
      | _, _ => ret true
      end
  | None => ret false
  end.

(** [JSON.parse(localStorage.getItem(this.storageKey)) ||
     { current: [], want: [], finished: [] }] *)
Definition hydrate (item : option (json_text shelves)) : result shelves :=
  match JSON_parse item with
  | Ok (Some o) => Ok o
  | Ok None => Ok empty_shelves
  | Throw e => Throw e
  end.

(** [new LibraryManager()]: the state's [library] becomes that of the new
    manager.  The promise of [syncWithBackend] is dropped, a rejection of
    it does not reach the constructor's caller. *)
Definition constructor (reply : get_reply) (on_library_page : bool)
  : M unit :=
  o <- (fun s => (hydrate (bibliodrift_library s), s)) ;;
  modify (set_library (Some o)) ;;;
  (fun s => (Ok tt, snd (syncWithBackend reply on_library_page s))).

End LibraryManager.

(* ------------------------------------------------------------------ *)
(** ** [class BookRenderer]: the progress slider *)

Module BookRenderer.

Definition with_progress (value : Z) (b : book) : book :=
  {| id := id b; db_id := db_id b; volumeInfo := volumeInfo b;
     progress := progress_num value |}.

(** [book = arr.find(b => b.id === id); if (book) book.progress = value] *)
Fixpoint set_first_progress (id0 : string) (value : Z) (arr : list book)
  : option (list book) :=
  match arr with
  | [] => None
  | b :: arr' =>
      if String.eqb (id b) id0 then Some (with_progress value b :: arr')
      else match set_first_progress id0 value arr' with
           | Some arr'' => Some (b :: arr'')
           | None => None
           end
  end.

(** [for (const shelfKey in lib) { ...; if (book) { ...; break; } }] *)
Fixpoint update_progress (lib : shelves) (id0 : string) (value : Z)
  : shelves :=
  match lib with
  | [] => []
  | (shelfKey, arr) :: lib' =>
      match set_first_progress id0 value arr with
      | Some arr' => (shelfKey, arr') :: lib'
      | None => (shelfKey, arr) :: update_progress lib' id0 value
      end
  end.

(** The slider's [input] listener for the card of book [id0];
    [value] is [parseInt(e.target.value, 10)]. *)
Definition on_progress_input (id0 : string) (value : Z) : M unit :=
  lib <- (fun s => (JSON_parse (bibliodrift_library s), s)) ;;
  let lib' := option_map (fun o => update_progress o id0 value) lib in
  modify (set_library lib') ;;;
  modify (set_stored (JSON_stringify lib')).

End BookRenderer.

(* ------------------------------------------------------------------ *)
(** ** Notions the statements use *)

(** All the entries of a shelf state, shelf after shelf, and their ids. *)
Definition all_books (o : shelves) : list book := List.concat (map snd o).
Definition all_ids (o : shelves) : list string := map id (all_books o).

(** The ids in the manager's library. *)
Definition all_ids_of (s : state) : list string :=
  match library s with
  | Some o => all_ids o
  | None => []
  end.

(** The uniqueness invariant: no id twice in a shelf, none in two
    shelves. *)
Definition unique_ids (o : shelves) : Prop := NoDup (all_ids o).

Definition shelf_names : list string := ["current"; "want"; "finished"].

(** A shelf state proper: an object with exactly the three shelves. *)
Definition shelf_state (o : shelves) : Prop := keys o = shelf_names.

(** The entry [addBook] leaves on the shelf: the enriched book, with the
    id of [data.item] once a POST made under a session was answered with
    one. *)
Definition added_entry (session : result (option user)) (reply : post_reply)
  (b : book) (shelf : string) : book :=
  match session, reply with
  | Ok (Some _), PostOk (Item v) =>
      LibraryManager.with_db_id v (LibraryManager.enrich b shelf)
  | _, _ => LibraryManager.enrich b shelf
  end.

(** A sequence of [addBook] calls, each with the answer its POST gets;
    a call that throws leaves the state it reached. *)
Fixpoint run_adds (calls : list (post_reply * book * string)) (s : state)
  : state :=
  match calls with
  | [] => s
  | (reply, b, shelf) :: rest =>
      run_adds rest (snd (LibraryManager.addBook reply b shelf s))
  end.

(** Overlapping calls.  [addBook] is called without [await], so a call can
    start while earlier POSTs are unanswered: an event is a call, which
    runs up to its first suspension, or the arrival of the answer to the
    [k]-th pending POST, which runs the rest of that call.  As long as
    only [addBook] runs, shelves only grow at the end, so the index kept
    for a pending call still designates the object it pushed. *)
Inductive add_event : Type :=
| Call (b : book) (shelf : string)
| Answer (k : nat) (reply : post_reply).

Fixpoint remove_nth (A : Type) (k : nat) (l : list A) : list A :=
  match l, k with
  | [], _ => []
  | _ :: l', O => l'
  | x :: l', S k' => x :: remove_nth k' l'
  end.

Definition step_add (e : add_event) (sp : state * list (string * nat))
  : state * list (string * nat) :=
  match e with
  | Call b shelf =>
      match LibraryManager.addBook_local b shelf (fst sp) with
      | (Ok (Some p), s') => (s', snd sp ++ [p])
      | (_, s') => (s', snd sp)
      end
  | Answer k reply =>
      match nth_error (snd sp) k with
      | Some p =>
          (snd (LibraryManager.addBook_settle reply p (fst sp)),
           remove_nth k (snd sp))
      | None => sp
      end
  end.

Definition run_events (events : list add_event)
  (sp : state * list (string * nat)) : state * list (string * nat) :=
  fold_left (fun sp e => step_add e sp) events sp.

(** The shelf an event's call names, if it is a call, is one of [names]. *)
Definition names_shelf_in (names : list string) (e : add_event) : Prop :=
  match e with
  | Call _ shelf => In shelf names
  | Answer _ _ => True
  end.

(** The local store holds what memory holds: a manager built from the
    store now would start from this very library. *)
Definition persisted (s : state) : Prop :=
  bibliodrift_library s = Some (Stringified (library s)).

(** The manager's library has exactly the shelves [names] and ids that
    are unique. *)
Definition unique_library (names : list string) (s : state) : Prop :=
  exists o, library s = Some o /\ keys o = names /\ unique_ids o.

(** Memory and store agree: a manager built from the store now would
    start from the library this one holds. *)
Definition in_sync (s : state) : Prop :=
  exists o, library s = Some o /\
            LibraryManager.hydrate (bibliodrift_library s) = Ok o.

(** The shelves [syncWithBackend] builds when no record stops it: each
    shelf holds, in the order received, the books of the records that
    name it. *)
Definition on_shelf (shelf : string) (item : remote_item) : bool :=
  String.eqb (shelf_type item) shelf.

Definition grouped (items : list remote_item) : shelves :=
  map (fun shelf =>
         (shelf, map LibraryManager.book_of_item (filter (on_shelf shelf) items)))
      shelf_names.

(** The record's shelf name is not a property every object inherits. *)
Definition not_inherited (item : remote_item) : Prop :=
  inherited (shelf_type item) = false.

Definition recognized (item : remote_item) : bool :=
  existsb (String.eqb (shelf_type item)) shelf_names.

(** Sample data for the concrete runs. *)
Definition sample_book (i : string) : book :=
  {| id := i;
     db_id := None;
     volumeInfo := {| title := "Dune";
                      authors := Some ["Frank Herbert"];
                      imageLinks := None |};
     progress := progress_absent |}.

Definition sample_item (n : Z) (i shelf : string) : remote_item :=
  {| item_id := Some n;
     google_books_id := i;
     item_title := "Dune";
     item_authors := Some "Frank Herbert, Brian Herbert";
     thumbnail := "http://covers/dune.jpg";
     shelf_type := shelf |}.

(** A page whose manager holds [o], with [stored] in the local store and
    [userStr] as session marker. *)
Definition page (o : option shelves) (stored : option (json_text shelves))
  (userStr : option (json_text user)) : state :=
  {| library := o;
     bibliodrift_library := stored;
     bibliodrift_user := userStr;
     bibliodrift_synced_once := false;
     requests := [];
     reloads := 0 |}.

Definition logged_in : option (json_text user) :=
  Some (Stringified (Some {| user_id := 7 |})).

(** The state a sync reaches from the empty library when the remote list
    has the same book on two shelves. *)
Definition duplicated_by_sync : state :=
  snd (LibraryManager.syncWithBackend
         (GetOk (BodyLibrary [ sample_item 1 "B1" "current";
                               sample_item 2 "B1" "want" ]))
         false (page (Some empty_shelves) None logged_in)).


(** A page whose library has [b] on [shelf] only, saved in the store. *)
Definition page_with (shelf : string) (b : book) : state :=
  page (Some (set empty_shelves shelf [b]))
       (Some (Stringified (Some (set empty_shelves shelf [b])))) None.

(* ------------------------------------------------------------------ *)
(** ** More of [BookRenderer] and [LibraryManager]: cards and buttons *)

(** The slider of a card,
    [<input type="range" min="0" max="100" value="${progress}">]. *)
Module ProgressSlider.

Definition range_min : Z := 0.
Definition range_max : Z := 100.

(** The value a range input holds once [raw] is set on it, by the
    [value] of the markup, by a script or by the user: the element keeps
    its value within its bounds, one below [min] becomes [min] and one
    above [max] becomes [max]. *)
Definition value_of (raw : Z) : Z :=
  if (raw <? range_min)%Z then range_min
  else if (range_max <? raw)%Z then range_max
       else raw.

(** The [input] listener as the page runs it: [e.target] is the range
    input of the card, [parseInt(e.target.value, 10)] the value it
    holds. *)
Definition on_input (id0 : string) (raw : Z) : M unit :=
  BookRenderer.on_progress_input id0 (value_of raw).

End ProgressSlider.

Module BookCard.

(** The two faces of the add button. *)
Inductive icon : Type := fa_heart | fa_check.

(** [volumeInfo.title || "Untitled"] *)
Definition shown_title (bookData : book) : string :=
  match title (volumeInfo bookData) with
  | EmptyString => "Untitled"
  | t => t
  end.

(** [volumeInfo.authors ? volumeInfo.authors.join(", ") : "Unknown Author"];
    an array, also an empty one, is truthy. *)
Definition shown_authors (bookData : book) : string :=
  match authors (volumeInfo bookData) with
  | Some a => String.concat ", " a
  | None => "Unknown Author"
  end.

(** [typeof bookData.progress === 'number' ? bookData.progress : 0] *)
Definition shown_progress (bookData : book) : Z :=
  match progress bookData with
  | progress_num n => n
  | progress_null => 0
  | progress_absent => 0
  end.

(** The value of the progress slider of the card, which is in the card
    only when [shelf === 'current']; [shelf] defaults to [null].  The
    markup gives the slider [value="${progress}"], and the range input
    holds it within its bounds. *)
Definition slider (bookData : book) (shelf : option string) : option Z :=
  match shelf with
  | Some name =>
      if String.eqb name "current"
      then Some (ProgressSlider.value_of (shown_progress bookData))
      else None
  | None => None
  end.

(** [updateButtonState()] *)
Definition updateButtonState (s : state) (bookData : book) : icon :=
  if LibraryManager.findBook (library s) (id bookData)
  then fa_check else fa_heart.

(** The click listener of the add button.  [removeBook] and [addBook] are
    called without [await]: their promise is dropped, so nothing they
    throw reaches the listener.  The result is the icon the button gets
    and whether the card is taken off the page ([in_shelf] is
    [scene.closest('.shelf-row, .library-shelf, [id^="shelf-"]')]). *)
Definition on_add_click (post : post_reply) (del : delete_reply)
  (in_shelf : bool) (bookData : book) : M (icon * bool) :=
  fun s =>
    if LibraryManager.findBook (library s) (id bookData)
    then (Ok (fa_heart, in_shelf),
          snd (LibraryManager.removeBook del (id bookData) s))
    else (Ok (fa_check, false),
          snd (LibraryManager.addBook post bookData "current" s)).

(** The add button of the details modal ([openModal]):
    [this.libraryManager.addBook(book, 'want')], promise dropped. *)
Definition on_modal_add_click (post : post_reply) (bookData : book)
  : M unit :=
  fun s => (Ok tt, snd (LibraryManager.addBook post bookData "want" s)).

End BookCard.

Module LibraryPage.

(** [renderShelf(shelfName, elementId)]: the calls
    [createBookElement(book, shelfName)] it makes, in order;
    [container] is [document.getElementById(elementId)].  Reading
    [books.length] throws when the shelf is missing.  A name every object
    inherits gives a function or the prototype: either its [length] is 0
    and the method returns, or the loop over it fails inside the
    unawaited [async] block; nothing is rendered either way. *)
Definition renderShelf (shelfName : string) (container : bool)
  : M (list (book * string)) :=
  fun s =>
    if negb container then (Ok [], s)
    else
      match library s with
      | None => (Throw TypeError, s)
      | Some o =>
          match get o shelfName with
          | Own books => (Ok (map (fun b => (b, shelfName)) books), s)
          | Inherited => (Ok [], s)
          | Undefined => (Throw TypeError, s)
          end
      end.

(** The library part of the page start-up:
    [renderShelf('want', ...); renderShelf('current', ...);
     renderShelf('finished', ...)], on the library page. *)
Definition render_library : M (list (book * string)) :=
  w <- renderShelf "want" true ;;
  c <- renderShelf "current" true ;;
  f <- renderShelf "finished" true ;;
  ret (w ++ c ++ f).

End LibraryPage.

(** What the user and the network can make happen on a page, and the
    state after it. *)
Inductive event : Type :=
| AddClick (post : post_reply) (del : delete_reply) (in_shelf : bool)
    (bookData : book)
| ModalAdd (post : post_reply) (bookData : book)
| SliderInput (id0 : string) (value : Z)
| Sync (reply : get_reply) (on_library_page : bool).

Definition step_event (e : event) (s : state) : state :=
  match e with
  | AddClick post del in_shelf bookData =>
      snd (BookCard.on_add_click post del in_shelf bookData s)
  | ModalAdd post bookData =>
      snd (BookCard.on_modal_add_click post bookData s)
  | SliderInput id0 value =>
      snd (BookRenderer.on_progress_input id0 value s)
  | Sync reply on_library_page =>
      snd (LibraryManager.syncWithBackend reply on_library_page s)
  end.

(** A page's history: the events in the order they happen. *)
Definition run_page (events : list event) (s : state) : state :=
  fold_left (fun s e => step_event e s) events s.

(** The remote lists that cannot break uniqueness: among the records
    naming one of the three shelves no id comes twice. *)
Definition distinct_remote_ids (e : event) : Prop :=
  match e with
  | Sync (GetOk (BodyLibrary items)) _ =>
      NoDup (map google_books_id (filter recognized items))
  | _ => True
  end.

(** The library without the entries that have the id [id0], whichever
    shelf they are on. *)
Definition remove_id (o : shelves) (id0 : string) : shelves :=
  map (fun shelf : string * list book =>
         (fst shelf,
          filter (fun b => negb (String.eqb (id b) id0)) (snd shelf))) o.

(** The store mirrors memory and memory is a shelf state. *)
Definition mirrored (s : state) : Prop :=
  persisted s /\ exists o, library s = Some o /\ shelf_state o.

(** The library a sync installs, if it installs one: there is a session,
    the list is not empty and the loop over it ends normally. *)
Definition replacement (session : result (option user)) (reply : get_reply)
  : option shelves :=
  match session, reply with
  | Ok (Some _), GetOk (BodyLibrary (item :: items)) =>
      match LibraryManager.forEach (item :: items) empty_shelves with
      | Ok backendLibrary => Some backendLibrary
      | Throw _ => None
      end
  | _, _ => None
  end.

(** The record the backend holds for a POST, when it keeps the posted
    fields as they are and numbers the record [n] (the contract of
    [POST /library] and [GET /library/{userId}]). *)
Definition record_of_payload (n : Z) (p : payload) : remote_item :=
  {| item_id := Some n;
     google_books_id := p_google_books_id p;
     item_title := p_title p;
     item_authors := Some (p_authors p);
     thumbnail := p_thumbnail p;
     shelf_type := p_shelf_type p |}.

(** Whether [", "] occurs in a string. *)
Fixpoint has_comma_space (s : string) : bool :=
  match s with
  | EmptyString => false
  | String c rest =>
      match rest with
      | String c' _ =>
          (Ascii.eqb c "," && Ascii.eqb c' " ")%bool || has_comma_space rest
      | EmptyString => false
      end
  end.

(** The ids on a shelf of the manager's library. *)
Definition ids_on (s : state) (shelf : string) : list string :=
  match library s with
  | Some o =>
      match own o shelf with
      | Some arr => map id arr
      | None => []
      end
  | None => []
  end.

(* ------------------------------------------------------------------ *)
(** ** [class ThemeManager] *)

Module ThemeManager.

(** The page as the theme manager sees it: the stored theme, the toggle
    button if the page has one, with the classes [fa-moon] and [fa-sun]
    of its icon if it has one, and the [data-theme] attribute of the
    document; then the manager's own theme and whether its click listener
    is installed. *)
Record icon_classes : Type := { fa_moon : bool; fa_sun : bool }.

Record theme_state : Type := {
  bibliodrift_theme : option string;
  toggleBtn : option (option icon_classes);
  data_theme : option string;
  currentTheme : string;
  listening : bool
}.

(** [applyTheme(theme)]; it reads [this.toggleBtn.querySelector('i')] and
    throws when there is no button or no icon, after the attribute is
    set. *)
Definition applyTheme (theme : string) (t : theme_state)
  : result unit * theme_state :=
  let t1 := {| bibliodrift_theme := bibliodrift_theme t;
               toggleBtn := toggleBtn t;
               data_theme := Some theme;
               currentTheme := currentTheme t;
               listening := listening t |} in
  match toggleBtn t with
  | Some (Some _) =>
      (Ok tt,
       {| bibliodrift_theme := bibliodrift_theme t;
          toggleBtn :=
            Some (Some (if String.eqb theme "night"
                        then {| fa_moon := false; fa_sun := true |}
                        else {| fa_moon := true; fa_sun := false |}));
          data_theme := Some theme;
          currentTheme := currentTheme t;
          listening := listening t |})
  | Some None => (Throw TypeError, t1)
  | None => (Throw TypeError, t1)
  end.

(** [localStorage.getItem(this.themeKey) || 'day'] *)
Definition stored_theme (item : option string) : string :=
  match item with
  | None => "day"
  | Some EmptyString => "day"
  | Some theme => theme
  end.

(** [new ThemeManager()] with its [init()], on a page whose store, button
    and attribute are those of [t]. *)
Definition constructor (t : theme_state) : result unit * theme_state :=
  let t0 := {| bibliodrift_theme := bibliodrift_theme t;
               toggleBtn := toggleBtn t;
               data_theme := data_theme t;
               currentTheme := stored_theme (bibliodrift_theme t);
               listening := false |} in
  match toggleBtn t0 with
  | None => (Ok tt, t0)
  | Some _ =>
      match applyTheme (currentTheme t0) t0 with
      | (Ok _, t1) =>
          (Ok tt,
           {| bibliodrift_theme := bibliodrift_theme t1;
              toggleBtn := toggleBtn t1;
              data_theme := data_theme t1;
              currentTheme := currentTheme t1;
              listening := true |})
      | (Throw e, t1) => (Throw e, t1)
      end
  end.

(** The click listener of the toggle button. *)
Definition on_click (t : theme_state) : result unit * theme_state :=
  if negb (listening t) then (Ok tt, t)
  else
    let theme := if String.eqb (currentTheme t) "day" then "night"
                 else "day" in
    let t0 := {| bibliodrift_theme := bibliodrift_theme t;
                 toggleBtn := toggleBtn t;
                 data_theme := data_theme t;
                 currentTheme := theme;
                 listening := listening t |} in
    match applyTheme theme t0 with
    | (Ok _, t1) =>
        (Ok tt,
         {| bibliodrift_theme := Some theme;
            toggleBtn := toggleBtn t1;
            data_theme := data_theme t1;
            currentTheme := currentTheme t1;
            listening := listening t1 |})
    | (Throw e, t1) => (Throw e, t1)
    end.

(** The page after a reload: same store and button, attribute back to
    what the markup has, a new manager. *)
Definition reload (markup_theme : option string) (t : theme_state)
  : result unit * theme_state :=
  constructor {| bibliodrift_theme := bibliodrift_theme t;
                 toggleBtn := toggleBtn t;
                 data_theme := markup_theme;
                 currentTheme := EmptyString;
                 listening := false |}.

End ThemeManager.

(* ------------------------------------------------------------------ *)
(** ** The export button *)

Module ExportButton.

Inductive outcome : Type :=
| AlertEmpty                                     (* "Your library is empty!" *)
| Download (content : json_text shelves) (name : string).

(** The click listener of [#export-library]; [today] is
    [new Date().toISOString().slice(0,10)].  The stored text goes into the
    file as it is. *)
Definition on_export_click (today : string) (s : state) : outcome :=
  match bibliodrift_library s with
  | None => AlertEmpty
  | Some EmptyText => AlertEmpty
  | Some text =>
      Download text ("bibliodrift_library_" ++ today ++ ".json")%string
  end.

End ExportButton.

(* ------------------------------------------------------------------ *)
(** ** [handleAuth] and its regular expression *)

Module Regex.

(** Regular expressions over UTF-16 code units, as far as the source's
    literal needs them, with what it means for one to match a whole
    string. *)
Inductive re : Type :=
| Void
| Eps
| Class (p : N -> bool)
| Cat (r1 r2 : re)
| Alt (r1 r2 : re)
| Star (r : re).

Definition Plus (r : re) : re := Cat r (Star r).

Inductive Matches : re -> list N -> Prop :=
| MEps : Matches Eps []
| MClass (p : N -> bool) (c : N) : p c = true -> Matches (Class p) [c]
| MCat (r1 r2 : re) (s1 s2 : list N) :
    Matches r1 s1 -> Matches r2 s2 -> Matches (Cat r1 r2) (s1 ++ s2)
| MAltL (r1 r2 : re) (s : list N) : Matches r1 s -> Matches (Alt r1 r2) s
| MAltR (r1 r2 : re) (s : list N) : Matches r2 s -> Matches (Alt r1 r2) s
| MStarNil (r : re) : Matches (Star r) []
| MStarApp (r : re) (s1 s2 : list N) :
    Matches r s1 -> Matches (Star r) s2 -> Matches (Star r) (s1 ++ s2).

(** The matcher: derivatives, one code unit at a time. *)
Fixpoint nullable (r : re) : bool :=
  match r with
  | Void => false
  | Eps => true
  | Class _ => false
  | Cat r1 r2 => nullable r1 && nullable r2
  | Alt r1 r2 => nullable r1 || nullable r2
  | Star _ => true
  end.

Fixpoint deriv (c : N) (r : re) : re :=
  match r with
  | Void => Void
  | Eps => Void
  | Class p => if p c then Eps else Void
  | Cat r1 r2 =>
      if nullable r1
      then Alt (Cat (deriv c r1) r2) (deriv c r2)
      else Cat (deriv c r1) r2
  | Alt r1 r2 => Alt (deriv c r1) (deriv c r2)
  | Star r1 => Cat (deriv c r1) (Star r1)
  end.

(** [/^r$/.test(s)] *)
Definition test (r : re) (s : list N) : bool :=
  nullable (fold_left (fun r c => deriv c r) s r).

(** [\s]: the white space and line terminator code units of
    ECMAScript. *)
Definition is_space (c : N) : bool :=
  existsb (N.eqb c)
    [9; 10; 11; 12; 13; 32; 160; 5760; 8232; 8233; 8239; 8287; 12288;
     65279]%N
  || (N.leb 8192 c && N.leb c 8202).

Definition at_sign : N := 64.
Definition full_stop : N := 46.

(** [[^\s@]] *)
Definition not_space_or_at (c : N) : bool :=
  negb (is_space c || N.eqb c at_sign).

(** [/^[^\s@]+@[^\s@]+\.[^\s@]+$/] *)
Definition emailRegex : re :=
  Cat (Plus (Class not_space_or_at))
    (Cat (Class (N.eqb at_sign))
       (Cat (Plus (Class not_space_or_at))
          (Cat (Class (N.eqb full_stop))
             (Plus (Class not_space_or_at))))).

End Regex.

Module Auth.

Inductive outcome : Type :=
| Alert (message : string)
| Navigate (href : string).

(** [handleAuth(event)]; [email] is the value of the [#email] field, as
    code units. *)
Definition handleAuth (email : list N) : outcome :=
  if negb (Regex.test Regex.emailRegex email)
  then Alert "Enter a valid email address"
  else Navigate "library.html".

(** The code units of a string of ASCII characters. *)
Definition units (s : string) : list N :=
  map N_of_ascii (list_ascii_of_string s).

End Auth.

(* ------------------------------------------------------------------ *)
(** ** [BookshelfRenderer3D.addToLibrary] *)

Module BookshelfRenderer3D.

(** An entry of [SAMPLE_BOOKS], as far as [addToLibrary] reads it. *)
Record sample : Type := {
  sample_id : string;
  sample_title : string;
  sample_author : string;
  sample_cover : string
}.

(** The object [addToLibrary] pushes.  Its copies of [description] and
    [categories], which nothing that reads the library uses, are not in
    [volume_info]. *)
Definition entry_of (b : sample) : book :=
  {| id := sample_id b;
     db_id := None;
     volumeInfo := {| title := sample_title b;
                      authors := Some [sample_author b];
                      imageLinks := Some (sample_cover b) |};
     progress := progress_absent |}.

(** [addToLibrary(book)]: it works on the store alone, no manager's
    [library] is read or written. *)
Definition addToLibrary (b : sample) : M unit :=
  fun s =>
    match JSON_parse (bibliodrift_library s) with
    | Throw e => (Throw e, s)
    | Ok parsed =>
        let library := match parsed with
                       | Some o => o
                       | None => empty_shelves
                       end in
        if existsb (fun x => String.eqb (id x) (sample_id b))
             (List.concat (map snd library))
        then (Ok tt, s)
        else
          match get library "want" with
          | Own want =>
              (Ok tt,
               set_stored
                 (JSON_stringify
                    (Some (set library "want" (want ++ [entry_of b])))) s)
          | Inherited => (Throw TypeError, s)
          | Undefined => (Throw TypeError, s)
          end
    end.

(** [getStarRating(rating)] for a finite [rating]; every finite double is
    a rational, and the floor, the remainder, the comparison and the
    subtraction of small integers are exact on doubles.  [None] is the
    RangeError of [String.prototype.repeat]. *)
Module Stars.
Import QArith_base Qround.
Local Open Scope Q_scope.

Inductive symbol : Type := full_star | half_sign | empty_star.

(** [s.repeat(count)] for a one-symbol string and an integer count. *)
Definition repeat_symbol (x : symbol) (count : Z) : option (list symbol) :=
  if (count <? 0)%Z then None else Some (List.repeat x (Z.to_nat count)).

(** [rating % 1]: the remainder has the sign of [rating]. *)
Definition rem1 (rating : Q) : Q :=
  rating - inject_Z (if Qle_bool 0 rating then Qfloor rating
                     else Qceiling rating).

Definition getStarRating (rating : Q) : option (list symbol) :=
  let fullStars := Qfloor rating in
  let hasHalf := Qle_bool (1 # 2) (rem1 rating) in
  let emptyStars := (5 - fullStars - (if hasHalf then 1 else 0))%Z in
  match repeat_symbol full_star fullStars with
  | None => None
  | Some f =>
      match repeat_symbol empty_star emptyStars with
      | None => None
      | Some e =>
          Some (f ++ (if hasHalf then [half_sign] else []) ++ e)%list
      end
  end.

Definition symbol_eq_dec (x y : symbol) : {x = y} + {x <> y}.
Proof. decide equality. Defined.

End Stars.

End BookshelfRenderer3D.

(* ------------------------------------------------------------------ *)
(** ** The [LibraryManager] of app.js *)

Module Legacy.

(** [save()] *)
Definition save : M unit :=
  modify (fun s => set_stored (JSON_stringify (library s)) s).

(** [addBook(book, shelf)]: the object given is pushed as it is, nothing
    is sent. *)
Definition addBook (b : book) (shelf : string) : M unit :=
  found <- gets (fun s => LibraryManager.findBook (library s) (id b)) ;;
  if found then ret tt
  else LibraryManager.push shelf b ;;; save.

End Legacy.

(** The library in the store, when the store holds one. *)
Definition stored_shelves (s : state) : option shelves :=
  match bibliodrift_library s with
  | Some (Stringified v) => v
  | _ => None
  end.

(** [n] clicks on the theme button. *)
Fixpoint clicks (n : nat) (t : ThemeManager.theme_state)
  : ThemeManager.theme_state :=
  match n with
  | O => t
  | S n' => clicks n' (snd (ThemeManager.on_click t))
  end.

(** The icon a theme shows: the sun at night, the moon otherwise. *)
Definition icon_of (theme : string) : ThemeManager.icon_classes :=
  if String.eqb theme "night"
  then {| ThemeManager.fa_moon := false; ThemeManager.fa_sun := true |}
  else {| ThemeManager.fa_moon := true; ThemeManager.fa_sun := false |}.

(** The page once a click has gone through: store, attribute, icon and
    manager agree on [theme]. *)
Definition settled (theme : string) : ThemeManager.theme_state :=
  {| ThemeManager.bibliodrift_theme := Some theme;
     ThemeManager.toggleBtn := Some (Some (icon_of theme));
     ThemeManager.data_theme := Some theme;
     ThemeManager.currentTheme := theme;
     ThemeManager.listening := true |}.

(** [this.currentTheme === 'day' ? 'night' : 'day'] *)
Definition flip (theme : string) : string :=
  if String.eqb theme "day" then "night" else "day".

(** The theme after [n] clicks, [n] at least one, from [start]. *)
Definition theme_after (start : string) (n : nat) : string :=
  if Bool.eqb (String.eqb start "day") (Nat.odd n) then "night" else "day".

(** [a@b.c], the three parts non-empty and free of white space and of
    the at sign. *)
Definition email_shaped (email : list N) : Prop :=
  exists a b c,
    email = a ++ [Regex.at_sign] ++ b ++ [Regex.full_stop] ++ c /\
    a <> [] /\ b <> [] /\ c <> [] /\
    Forall (fun u => Regex.not_space_or_at u = true) (a ++ b ++ c).

(* ------------------------------------------------------------------ *)
(** ** Facts about objects *)

Unset Implicit Arguments.

Section ObjectFacts.
Variable V : Type.
Implicit Types (o : object V) (k : string) (v : V).

Lemma get_own o k v : get o k = Own v <-> own o k = Some v.
Proof.
  unfold get. destruct (own o k) as [w|].
  - split; intros H; inversion H; reflexivity.
  - destruct (inherited k); split; discriminate.
Qed.

Lemma own_set_same o k v : own (set o k v) k = Some v.
Proof.
  induction o as [|[k' v'] o IH]; simpl.
  - rewrite String.eqb_refl. reflexivity.
  - destruct (String.eqb k' k) eqn:E; simpl; rewrite E; auto.
Qed.

Lemma own_set_other o k k' v : k <> k' -> own (set o k v) k' = own o k'.
Proof.
  intros N. induction o as [|[k0 v0] o IH]; simpl.
  - destruct (String.eqb k k') eqn:E; auto.
    apply String.eqb_eq in E. contradiction.
  - destruct (String.eqb k0 k) eqn:E; simpl.
    + apply String.eqb_eq in E. subst k0.
      destruct (String.eqb k k') eqn:E'; auto.
      apply String.eqb_eq in E'. contradiction.
    + rewrite IH. reflexivity.
Qed.

Lemma keys_set o k v w : own o k = Some w -> keys (set o k v) = keys o.
Proof.
  induction o as [|[k' v'] o IH]; simpl; [discriminate|].
  destruct (String.eqb k' k); intros H; [reflexivity|].
  unfold keys in *. simpl. f_equal. auto.
Qed.

Lemma own_in_keys o k w : own o k = Some w -> In k (keys o).
Proof.
  induction o as [|[k' v'] o IH]; simpl; [discriminate|].
  destruct (String.eqb k' k) eqn:E; intros H.
  - left. apply String.eqb_eq. exact E.
  - right. auto.
Qed.

Lemma own_not_in_keys o k : ~ In k (keys o) -> own o k = None.
Proof.
  induction o as [|[k' v'] o IH]; simpl; [reflexivity|].
  intros N. destruct (String.eqb k' k) eqn:E.
  - apply String.eqb_eq in E. tauto.
  - apply IH. tauto.
Qed.
End ObjectFacts.

Lemma all_ids_cons shelf arr (o : shelves) :
  all_ids ((shelf, arr) :: o) = map id arr ++ all_ids o.
Proof. unfold all_ids, all_books. simpl. apply map_app. Qed.

Lemma all_books_push (o : shelves) k arr b :
  own o k = Some arr ->
  Permutation (all_books (set o k (arr ++ [b]))) (b :: all_books o).
Proof.
  unfold all_books.
  induction o as [|[k' arr'] o IH]; simpl; [discriminate|].
  destruct (String.eqb k' k); simpl; intros H.
  - inversion H; subst arr'. rewrite <- app_assoc. simpl.
    symmetry. apply Permutation_middle.
  - rewrite (Permutation_middle arr' (List.concat (map snd o)) b).
    apply Permutation_app_head. apply Permutation_sym.
    apply Permutation_sym. apply IH. exact H.
Qed.

Lemma all_ids_push (o : shelves) k arr b :
  own o k = Some arr ->
  Permutation (all_ids (set o k (arr ++ [b]))) (id b :: all_ids o).
Proof.
  intros H. unfold all_ids.
  change (id b :: map id (all_books o)) with (map id (b :: all_books o)).
  apply Permutation_map. apply all_books_push. exact H.
Qed.

Lemma all_ids_set_same_ids (o : shelves) k arr arr' :
  own o k = Some arr -> map id arr' = map id arr ->
  all_ids (set o k arr') = all_ids o.
Proof.
  induction o as [|[k' a] o IH]; simpl; [discriminate|].
  destruct (String.eqb k' k); intros H E.
  - inversion H; subst a. rewrite !all_ids_cons. rewrite E. reflexivity.
  - rewrite !all_ids_cons. rewrite IH; auto.
Qed.

Lemma in_all_books (o : shelves) b :
  In b (all_books o) <-> exists shelf arr, In (shelf, arr) o /\ In b arr.
Proof.
  unfold all_books. rewrite in_concat. split.
  - intros [arr [Ha Hb]]. apply in_map_iff in Ha as [[shelf arr'] [E Hin]].
    simpl in E. subst arr'. eauto.
  - intros [shelf [arr [Hin Hb]]]. exists arr. split; auto.
    apply in_map_iff. exists (shelf, arr). auto.
Qed.

(* ------------------------------------------------------------------ *)
(** ** Facts about the library manager *)

Import LibraryManager.

Ltac run :=
  unfold addBook, addBook_local, addBook_settle, removeBook, saveLocally,
    getUser, push, filter_shelf, fetch, mark_synced_and_reload,
    bind, ret, throw, try_catch, gets, modify, lift;
  simpl.

Lemma findBook_In (o : shelves) (i : string) :
  findBook (Some o) i = true <-> In i (all_ids o).
Proof.
  unfold all_ids. simpl. rewrite existsb_exists, in_map_iff. split.
  - intros [[shelf arr] [Hin Hex]]. simpl in Hex.
    apply existsb_exists in Hex as [b [Hb E]].
    apply String.eqb_eq in E. exists b. split; auto.
    apply in_all_books. eauto.
  - intros [b [E Hb]]. apply in_all_books in Hb as [shelf [arr [Hin Hb]]].
    exists (shelf, arr). split; auto. simpl.
    apply existsb_exists. exists b. split; auto.
    apply String.eqb_eq. exact E.
Qed.

(** [findBook] walks the entries; on an object, whose keys are distinct,
    that is the loop of the source, which walks the keys and reads
    [this.library[shelf]] for each. *)
Lemma findBook_by_keys (o : shelves) (i : string) :
  NoDup (keys o) ->
  findBook (Some o) i =
  existsb (fun shelf =>
             match get o shelf with
             | Own arr => existsb (fun b => String.eqb (id b) i) arr
             | _ => false
             end) (keys o).
Proof.
  simpl. induction o as [|[k a] o IH]; simpl; intros ND; [reflexivity|].
  inversion ND as [|? ? Hk ND']; subst.
  unfold get at 1. simpl. rewrite String.eqb_refl. f_equal.
  rewrite IH by exact ND'.
  assert (E : forall l : list string,
             (forall k', In k' l -> k' <> k) ->
             existsb (fun shelf =>
                        match get o shelf with
                        | Own arr => existsb (fun b => String.eqb (id b) i) arr
                        | _ => false
                        end) l =
             existsb (fun shelf =>
                        match get ((k, a) :: o) shelf with
                        | Own arr => existsb (fun b => String.eqb (id b) i) arr
                        | _ => false
                        end) l).
  { induction l as [|k' l IHl]; simpl; intros D; [reflexivity|].
    rewrite IHl by (intros; apply D; auto). f_equal.
    unfold get. simpl.
    destruct (String.eqb k k') eqn:Ek; [|reflexivity].
    apply String.eqb_eq in Ek. exfalso. apply (D k'); auto. }
  apply E. intros k' I Ek. subst k'. contradiction.
Qed.

Lemma findBook_not_In (o : shelves) (i : string) :
  findBook (Some o) i = false <-> ~ In i (all_ids o).
Proof.
  rewrite <- findBook_In. split.
  - intros H H'. rewrite H in H'. discriminate.
  - intros H. destruct (findBook (Some o) i); [|reflexivity].
    exfalso. apply H. reflexivity.
Qed.

Lemma update_nth_last (A : Type) (f : A -> A) (l : list A) (x : A) :
  update_nth f (List.length l) (l ++ [x]) = l ++ [f x].
Proof. induction l; simpl; [reflexivity|]. rewrite IHl. reflexivity. Qed.

Lemma update_nth_ids (f : book -> book) (n : nat) (l : list book) :
  (forall b, id (f b) = id b) ->
  map id (update_nth f n l) = map id l.
Proof.
  intros Hf. revert n. induction l as [|x l IH]; intros [|n]; simpl;
    try reflexivity.
  - rewrite Hf. reflexivity.
  - rewrite IH. reflexivity.
Qed.

Lemma set_set (V : Type) (o : object V) (k : string) (v w : V) :
  set (set o k v) k w = set o k w.
Proof.
  induction o as [|[k' v'] o IH]; simpl.
  - rewrite String.eqb_refl. reflexivity.
  - destruct (String.eqb k' k) eqn:E; simpl; rewrite E; [reflexivity|].
    rewrite IH. reflexivity.
Qed.

(** The duplicate guard: a book whose id is on a shelf changes nothing,
    sends nothing and throws nothing. *)
Lemma addBook_duplicate (reply : post_reply) (b : book) (shelf : string)
  (s : state) :
  findBook (library s) (id b) = true ->
  addBook reply b shelf s = (Ok tt, s).
Proof. intros H. run. rewrite H. reflexivity. Qed.

(** Past the guard, a name that is not a shelf of the library makes the
    push throw before anything is written. *)
Lemma addBook_no_shelf (reply : post_reply) (b : book) (shelf : string)
  (s : state) :
  findBook (library s) (id b) = false ->
  (forall o, library s = Some o -> own o shelf = None) ->
  addBook reply b shelf s = (Throw TypeError, s).
Proof.
  intros H N. run. rewrite H.
  destruct (library s) as [o|]; [|reflexivity].
  unfold get. rewrite (N o eq_refl). destruct (inherited shelf); reflexivity.
Qed.

(** Past the guard, on a shelf of the library: the state [addBook]
    ends in, whatever the session and the reply. *)
Lemma addBook_pushed (reply : post_reply) (b : book) (shelf : string)
  (s : state) (o : shelves) (arr : list book) :
  findBook (library s) (id b) = false ->
  library s = Some o ->
  own o shelf = Some arr ->
  let session := parse_user (bibliodrift_user s) in
  let o' := set o shelf (arr ++ [added_entry session reply b shelf]) in
  let s' := snd (addBook reply b shelf s) in
  library s' = Some o' /\
  bibliodrift_library s' = Some (Stringified (Some o')) /\
  bibliodrift_user s' = bibliodrift_user s /\
  bibliodrift_synced_once s' = bibliodrift_synced_once s /\
  reloads s' = reloads s /\
  requests s' =
    match session with
    | Ok (Some u) => requests s ++ [POST_library (payload_of u b shelf)]
    | _ => requests s
    end /\
  fst (addBook reply b shelf s) =
    match session with
    | Throw e => Throw e
    | Ok _ => Ok tt
    end.
Proof.
  intros H L O. run. rewrite H, L. simpl.
  apply get_own in O. rewrite O. simpl.
  apply get_own in O.
  destruct (parse_user (bibliodrift_user s)) as [[u|]|e]; simpl;
    try (repeat split; reflexivity).
  unfold assign_db_id.
  destruct reply as [| |[| |v]]; simpl; try (repeat split; reflexivity).
  rewrite own_set_same, set_set, update_nth_last. simpl.
  repeat split; reflexivity.
Qed.

Lemma own_of_key (V : Type) (o : object V) (k : string) :
  In k (keys o) -> exists v, own o k = Some v.
Proof.
  induction o as [|[k' v'] o IH]; simpl; [tauto|].
  destruct (String.eqb k' k) eqn:E; [eauto|].
  intros [H|H]; [|auto].
  subst k'. rewrite String.eqb_refl in E. discriminate.
Qed.

Lemma own_ids_in_all (o : shelves) (shelf : string) (arr : list book)
  (x : string) :
  own o shelf = Some arr -> In x (map id arr) -> In x (all_ids o).
Proof.
  induction o as [|[k a] o IH]; simpl; [discriminate|].
  rewrite all_ids_cons, in_app_iff.
  destruct (String.eqb k shelf); intros H; [inversion H; subst; auto|auto].
Qed.

Lemma NoDup_app_disjoint (A : Type) (l1 l2 : list A) :
  NoDup (l1 ++ l2) -> forall a, In a l1 -> ~ In a l2.
Proof.
  induction l1 as [|x l1 IH]; simpl; [tauto|].
  intros ND a [E|I] I2.
  - subst x. inversion ND as [|? ? N _]; subst.
    apply N. apply in_or_app. auto.
  - inversion ND; subst. eapply IH; eauto.
Qed.

(** What [unique_ids] says shelf by shelf: no id twice on a shelf, and
    none on two shelves. *)
Lemma unique_ids_shelves (o : shelves) :
  unique_ids o ->
  (forall shelf arr, own o shelf = Some arr -> NoDup (map id arr)) /\
  (forall shelf1 shelf2 arr1 arr2 x,
      shelf1 <> shelf2 ->
      own o shelf1 = Some arr1 -> own o shelf2 = Some arr2 ->
      In x (map id arr1) -> ~ In x (map id arr2)).
Proof.
  unfold unique_ids. induction o as [|[k a] o IH]; simpl.
  - intros _. split; intros; discriminate.
  - rewrite all_ids_cons. intros ND.
    pose proof (NoDup_app_remove_r _ _ ND) as NDa.
    pose proof (NoDup_app_remove_l _ _ ND) as NDo.
    pose proof (NoDup_app_disjoint _ _ _ ND) as Dis.
    destruct (IH NDo) as [IH1 IH2]. split.
    + intros shelf arr. destruct (String.eqb k shelf); intros H.
      * inversion H; subst. exact NDa.
      * eauto.
    + intros shelf1 shelf2 arr1 arr2 x Hne.
      destruct (String.eqb k shelf1) eqn:E1;
        destruct (String.eqb k shelf2) eqn:E2; intros H1 H2 I1 I2.
      * apply String.eqb_eq in E1, E2. congruence.
      * inversion H1; subst. apply (Dis x I1).
        eapply own_ids_in_all; eauto.
      * inversion H2; subst. apply (Dis x I2).
        eapply own_ids_in_all; eauto.
      * eapply IH2; eauto.
Qed.

(** The state in which [addBook] first suspends, past the guard and on a
    shelf of the library. *)
Lemma addBook_local_pushed (b : book) (shelf : string) (s : state)
  (o : shelves) (arr : list book) :
  findBook (library s) (id b) = false ->
  library s = Some o ->
  own o shelf = Some arr ->
  let o1 := set o shelf (arr ++ [enrich b shelf]) in
  let s1 := snd (addBook_local b shelf s) in
  library s1 = Some o1 /\
  bibliodrift_library s1 = Some (Stringified (Some o1)).
Proof.
  intros F L O. run. rewrite F, L. simpl.
  apply get_own in O. rewrite O. simpl.
  destruct (parse_user (bibliodrift_user s)) as [[u|]|e]; simpl;
    split; reflexivity.
Qed.

(** [addBook] is its local phase followed, when a POST is pending, by
    the handling of the answer. *)
Lemma addBook_split (reply : post_reply) (b : book) (shelf : string)
  (s : state) :
  addBook reply b shelf s =
  match addBook_local b shelf s with
  | (Ok (Some p), s') => addBook_settle reply p s'
  | (Ok None, s') => (Ok tt, s')
  | (Throw e, s') => (Throw e, s')
  end.
Proof.
  unfold addBook, bind, ret.
  destruct (addBook_local b shelf s) as [[[p|]|e] s']; reflexivity.
Qed.

(** The local phase of a call on one of the library's shelves keeps the
    shelves and the uniqueness of ids. *)
Lemma addBook_local_keeps_unique (b : book) (shelf : string) (s : state)
  (names : list string) :
  unique_library names s -> In shelf names ->
  unique_library names (snd (addBook_local b shelf s)).
Proof.
  intros [o [L [K U]]] I.
  destruct (findBook (library s) (id b)) eqn:F.
  - unfold addBook_local, bind, gets, ret. rewrite F. simpl.
    exists o. auto.
  - rewrite <- K in I. destruct (own_of_key _ o shelf I) as [arr O].
    destruct (addBook_local_pushed b shelf s o arr F L O) as [L' _].
    eexists. split; [exact L'|]. split.
    + rewrite <- K. eapply keys_set; eauto.
    + unfold unique_ids. eapply Permutation_NoDup.
      * apply Permutation_sym. apply all_ids_push. exact O.
      * constructor; [|exact U].
        rewrite L in F. apply findBook_not_In in F. exact F.
Qed.

(** Handling the answer to a POST changes no id and no shelf name,
    wherever the pending index points. *)
Lemma addBook_settle_keeps_unique (reply : post_reply) (p : string * nat)
  (s : state) (names : list string) :
  unique_library names s ->
  unique_library names (snd (addBook_settle reply p s)).
Proof.
  intros [o [L [K U]]].
  destruct reply as [| |[| |v]]; run; try (exists o; auto; fail).
  unfold assign_db_id. rewrite L.
  destruct (own o (fst p)) as [arr|] eqn:O; simpl; [|exists o; auto].
  eexists. split; [reflexivity|]. split.
  - rewrite <- K. eapply keys_set; eauto.
  - unfold unique_ids. erewrite all_ids_set_same_ids; eauto.
    apply update_nth_ids. reflexivity.
Qed.

Lemma addBook_keeps_unique (reply : post_reply) (b : book) (shelf : string)
  (s : state) (names : list string) :
  unique_library names s -> In shelf names ->
  unique_library names (snd (addBook reply b shelf s)).
Proof.
  intros U I. rewrite addBook_split.
  pose proof (addBook_local_keeps_unique b shelf s names U I) as U1.
  destruct (addBook_local b shelf s) as [[[p|]|e] s1]; simpl in *;
    try exact U1.
  apply addBook_settle_keeps_unique. exact U1.
Qed.

Lemma run_adds_keeps_unique (calls : list (post_reply * book * string))
  (names : list string) :
  forall s : state,
    unique_library names s ->
    Forall (fun c => In (snd c) names) calls ->
    unique_library names (run_adds calls s).
Proof.
  induction calls as [|[[reply b] shelf] calls IH]; intros s U R; simpl.
  - exact U.
  - inversion R as [|c cs Hs Hrest]; subst. simpl in Hs.
    apply IH; [|exact Hrest].
    apply addBook_keeps_unique; assumption.
Qed.

Lemma step_add_keeps_unique (e : add_event)
  (sp : state * list (string * nat)) (names : list string) :
  unique_library names (fst sp) -> names_shelf_in names e ->
  unique_library names (fst (step_add e sp)).
Proof.
  intros U I. destruct e as [b shelf|k reply]; simpl in *.
  - pose proof (addBook_local_keeps_unique b shelf (fst sp) names U I) as U1.
    destruct (addBook_local b shelf (fst sp)) as [[[p|]|e] s1]; exact U1.
  - destruct (nth_error (snd sp) k) as [p|]; [|exact U].
    apply addBook_settle_keeps_unique. exact U.
Qed.

Lemma run_events_keeps_unique (events : list add_event)
  (names : list string) :
  forall sp : state * list (string * nat),
    unique_library names (fst sp) ->
    Forall (names_shelf_in names) events ->
    unique_library names (fst (run_events events sp)).
Proof.
  unfold run_events.
  induction events as [|e events IH]; intros sp U R; simpl.
  - exact U.
  - inversion R as [|? ? He Hrest]; subst.
    apply IH; [|exact Hrest].
    apply step_add_keeps_unique; assumption.
Qed.

Lemma empty_shelves_unique (s : state) :
  library s = Some empty_shelves -> unique_library shelf_names s.
Proof.
  intros L. exists empty_shelves. split; [exact L|]. split; [reflexivity|].
  unfold unique_ids. simpl. constructor.
Qed.

(* ------------------------------------------------------------------ *)
(** ** The claims *)

(** C1.  Starting from the empty shelf state, after any sequence of
    [addBook] calls that each name one of the three shelves (whatever the
    session and whatever each POST is answered) the library still has its
    three shelves and no id occurs twice, neither on one shelf nor on two
    different ones.  This also holds when the calls overlap, a call
    starting while earlier POSTs are unanswered and the answers coming in
    any order.  [addBook] gets it from the [findBook] guard: a call whose
    id [findBook] reports changes nothing. *)
Theorem addBook_sequence_unique_ids :
  (forall (calls : list (post_reply * book * string)) (s : state),
      library s = Some empty_shelves ->
      Forall (fun c => In (snd c) shelf_names) calls ->
      exists o,
        library (run_adds calls s) = Some o /\
        shelf_state o /\
        unique_ids o /\
        (forall shelf arr, own o shelf = Some arr -> NoDup (map id arr)) /\
        (forall shelf1 shelf2 arr1 arr2 x,
            shelf1 <> shelf2 ->
            own o shelf1 = Some arr1 -> own o shelf2 = Some arr2 ->
            In x (map id arr1) -> ~ In x (map id arr2))) /\
  (forall (events : list add_event) (s : state),
      library s = Some empty_shelves ->
      Forall (names_shelf_in shelf_names) events ->
      exists o,
        library (fst (run_events events (s, []))) = Some o /\
        shelf_state o /\
        unique_ids o) /\
  (forall (reply : post_reply) (b : book) (shelf : string) (s : state),
      findBook (library s) (id b) = true ->
      snd (addBook reply b shelf s) = s).
Proof.
  split; [|split].
  - intros calls s L R.
    destruct (run_adds_keeps_unique calls shelf_names s
                (empty_shelves_unique s L) R) as [o [L' [K U]]].
    exists o. split; [exact L'|]. split; [exact K|]. split; [exact U|].
    apply unique_ids_shelves. exact U.
  - intros events s L R.
    apply (run_events_keeps_unique events shelf_names (s, [])
             (empty_shelves_unique s L) R).
  - intros reply b shelf s F. rewrite addBook_duplicate by exact F.
    reflexivity.
Qed.

Lemma addBook_sequence_unique_ids_witness :
  (exists o,
      library
        (run_adds [ (PostRejected, sample_book "B1", "current");
                    (PostOk (Item (Some 5%Z)), sample_book "B1", "want");
                    (PostNotOk, sample_book "B2", "want") ]
           (page (Some empty_shelves) None logged_in)) = Some o /\
      shelf_state o /\
      unique_ids o /\
      (forall shelf arr, own o shelf = Some arr -> NoDup (map id arr)) /\
      (forall shelf1 shelf2 arr1 arr2 x,
          shelf1 <> shelf2 ->
          own o shelf1 = Some arr1 -> own o shelf2 = Some arr2 ->
          In x (map id arr1) -> ~ In x (map id arr2))) /\
  (exists o,
      library
        (fst (run_events [ Call (sample_book "B1") "current";
                           Call (sample_book "B2") "current";
                           Call (sample_book "B1") "want";
                           Answer 1 (PostOk (Item (Some 9%Z)));
                           Answer 0 PostRejected ]
                (page (Some empty_shelves) None logged_in, []))) = Some o /\
      shelf_state o /\
      unique_ids o) /\
  snd (addBook PostNotOk (sample_book "B1") "want"
         (page_with "current" (sample_book "B1")))
  = page_with "current" (sample_book "B1").
Proof.
  destruct addBook_sequence_unique_ids as [A [E G]].
  split; [|split].
  - apply A.
    + reflexivity.
    + repeat (apply Forall_cons || apply Forall_nil); simpl; auto 6.
  - apply E.
    + reflexivity.
    + repeat (apply Forall_cons || apply Forall_nil); simpl; auto 6.
  - apply G. reflexivity.
Defined.

Lemma added_entry_id (session : result (option user)) (reply : post_reply)
  (b : book) (shelf : string) :
  id (added_entry session reply b shelf) = id b.
Proof.
  unfold added_entry. destruct session as [[u|]|e]; try reflexivity.
  destruct reply as [| |[| |v]]; reflexivity.
Qed.

(** After [addBook] on a shelf of the library, [findBook] reports the
    book, whatever happened to the POST. *)
Lemma addBook_then_found (reply : post_reply) (b : book) (shelf : string)
  (s : state) (o : shelves) (arr : list book) :
  library s = Some o -> own o shelf = Some arr ->
  findBook (library (snd (addBook reply b shelf s))) (id b) = true.
Proof.
  intros L O. destruct (findBook (library s) (id b)) eqn:F.
  - rewrite addBook_duplicate by exact F. exact F.
  - destruct (addBook_pushed reply b shelf s o arr F L O) as [L' _].
    rewrite L'. apply findBook_In.
    eapply Permutation_in.
    + apply Permutation_sym. apply all_ids_push. exact O.
    + left. apply added_entry_id.
Qed.

Lemma addBook_local_then_found (b : book) (shelf : string) (s : state)
  (o : shelves) (arr : list book) :
  library s = Some o -> own o shelf = Some arr ->
  findBook (library (snd (addBook_local b shelf s))) (id b) = true.
Proof.
  intros L O. destruct (findBook (library s) (id b)) eqn:F.
  - unfold addBook_local, bind, gets, ret. rewrite F. exact F.
  - destruct (addBook_local_pushed b shelf s o arr F L O) as [L' _].
    rewrite L'. apply findBook_In.
    eapply Permutation_in.
    + apply Permutation_sym. apply all_ids_push. exact O.
    + left. reflexivity.
Qed.

(** C4.  [addBook] with an id that is already on some shelf is a silent
    no-op: it returns normally and the whole state (memory, local store,
    requests sent) is as before, so nothing is posted.  In particular,
    after a first [addBook] on a shelf of the library, any further
    [addBook] of a book with the same id, for any shelf name and any
    reply, leaves the state reached by the first; and so it does when it
    comes while the POST of the first is still unanswered. *)
Theorem addBook_duplicate_is_noop :
  (forall (reply : post_reply) (b : book) (shelf : string) (s : state),
      findBook (library s) (id b) = true ->
      addBook reply b shelf s = (Ok tt, s)) /\
  (forall (reply1 reply2 : post_reply) (b1 b2 : book)
          (shelf1 shelf2 : string) (s : state) (o : shelves)
          (arr : list book),
      library s = Some o -> own o shelf1 = Some arr ->
      id b2 = id b1 ->
      let s1 := snd (addBook reply1 b1 shelf1 s) in
      addBook reply2 b2 shelf2 s1 = (Ok tt, s1)) /\
  (forall (reply2 : post_reply) (b1 b2 : book)
          (shelf1 shelf2 : string) (s : state) (o : shelves)
          (arr : list book),
      library s = Some o -> own o shelf1 = Some arr ->
      id b2 = id b1 ->
      let s1 := snd (addBook_local b1 shelf1 s) in
      addBook reply2 b2 shelf2 s1 = (Ok tt, s1)).
Proof.
  split; [|split].
  - intros. apply addBook_duplicate. assumption.
  - intros reply1 reply2 b1 b2 shelf1 shelf2 s o arr L O E s1.
    apply addBook_duplicate. rewrite E. subst s1.
    eapply addBook_then_found; eauto.
  - intros reply2 b1 b2 shelf1 shelf2 s o arr L O E s1.
    apply addBook_duplicate. rewrite E. subst s1.
    eapply addBook_local_then_found; eauto.
Qed.

Lemma addBook_duplicate_is_noop_witness :
  (let s := page_with "want" (sample_book "B1") in
   addBook (PostOk (Item (Some 3%Z))) (sample_book "B1") "current" s
   = (Ok tt, s)) /\
  (let s1 := snd (addBook (PostOk (Item (Some 3%Z))) (sample_book "B1")
                    "current" (page (Some empty_shelves) None logged_in)) in
   addBook PostRejected (sample_book "B1") "want" s1 = (Ok tt, s1)) /\
  (let s1 := snd (addBook_local (sample_book "B1") "current"
                    (page (Some empty_shelves) None logged_in)) in
   addBook PostRejected (sample_book "B1") "finished" s1 = (Ok tt, s1)).
Proof.
  destruct addBook_duplicate_is_noop as [A [B C]].
  split; [|split].
  - apply A. reflexivity.
  - apply B with (o := empty_shelves) (arr := []); reflexivity.
  - apply C with (o := empty_shelves) (arr := []); reflexivity.
Defined.

Lemma shelf_state_inv (o : shelves) :
  shelf_state o ->
  exists a1 a2 a3, o = [("current", a1); ("want", a2); ("finished", a3)].
Proof.
  unfold shelf_state, shelf_names, keys.
  destruct o as [|[k1 a1] [|[k2 a2] [|[k3 a3] [|? ?]]]]; simpl; intros H;
    inversion H; subst. eauto.
Qed.

Lemma own_unknown_shelf (o : shelves) (shelf : string) :
  shelf_state o -> ~ In shelf shelf_names -> own o shelf = None.
Proof.
  intros S N. apply own_not_in_keys. rewrite S. exact N.
Qed.

(** C10, as the code has it.  [addBook] with a name that is none of the
    three shelves throws a [TypeError] when the book's id is not yet in
    the library: the push is attempted on a missing shelf, nothing is
    changed, nothing saved and nothing posted.  (With an id that is
    already there the guard returns first, see the counterexample.) *)
Theorem addBook_unknown_shelf_throws
  (reply : post_reply) (b : book) (shelf : string) (s : state)
  (o : shelves) :
  library s = Some o -> shelf_state o ->
  ~ In shelf shelf_names ->
  findBook (library s) (id b) = false ->
  addBook reply b shelf s = (Throw TypeError, s).
Proof.
  intros L S N F. apply addBook_no_shelf; [exact F|].
  intros o' L'. rewrite L in L'. inversion L'; subst o'.
  apply own_unknown_shelf; assumption.
Qed.

Lemma addBook_unknown_shelf_throws_witness :
  let s := page (Some empty_shelves) None logged_in in
  addBook (PostOk (Item (Some 1%Z))) (sample_book "B1") "dnf" s
  = (Throw TypeError, s).
Proof.
  apply addBook_unknown_shelf_throws with (o := empty_shelves).
  - reflexivity.
  - reflexivity.
  - simpl. intros [H|[H|[H|[]]]]; discriminate.
  - reflexivity.
Defined.

(** C10 as stated fails: with an id that is already on a shelf, an
    unknown shelf name raises nothing; the call returns normally. *)
Lemma addBook_unknown_shelf_duplicate_returns :
  ~ (forall (reply : post_reply) (b : book) (shelf : string) (s : state)
            (o : shelves),
        library s = Some o -> shelf_state o ->
        ~ In shelf shelf_names ->
        fst (addBook reply b shelf s) = Throw TypeError).
Proof.
  intros claim.
  specialize (claim PostNotOk (sample_book "B1") "dnf"
                (page (Some [("current", [sample_book "B1"]); ("want", []);
                             ("finished", [])]) None None)
                [("current", [sample_book "B1"]); ("want", []);
                 ("finished", [])]
                eq_refl eq_refl).
  simpl in claim.
  assert (N : ~ ("current" = "dnf" \/ "want" = "dnf" \/ "finished" = "dnf" \/ False)).
  { intros [H|[H|[H|[]]]]; discriminate. }
  specialize (claim N). discriminate.
Qed.

(* ------------------------------------------------------------------ *)
(** ** Facts about [syncWithBackend] *)

(** When no record names a property every object inherits, the loop ends
    normally and files each record under the shelf it names, dropping
    those that name none of the three. *)
Lemma forEach_three_shelves (items : list remote_item) :
  forall a1 a2 a3 : list book,
    Forall not_inherited items ->
    forEach items [("current", a1); ("want", a2); ("finished", a3)] =
    Ok [ ("current", a1 ++ map book_of_item (filter (on_shelf "current") items));
         ("want", a2 ++ map book_of_item (filter (on_shelf "want") items));
         ("finished",
          a3 ++ map book_of_item (filter (on_shelf "finished") items)) ].
Proof.
  induction items as [|item items IH]; intros a1 a2 a3 NI.
  - simpl. rewrite !app_nil_r. reflexivity.
  - inversion NI as [|? ? Hi Hrest]; subst.
    unfold not_inherited in Hi.
    cbn [forEach]. unfold place, get, on_shelf. cbn [own filter].
    rewrite !(String.eqb_sym (shelf_type item)).
    destruct (String.eqb "current" (shelf_type item)) eqn:E1.
    { apply String.eqb_eq in E1. rewrite <- E1. simpl.
      rewrite IH by exact Hrest. rewrite <- app_assoc. reflexivity. }
    destruct (String.eqb "want" (shelf_type item)) eqn:E2.
    { apply String.eqb_eq in E2. rewrite <- E2. simpl.
      rewrite IH by exact Hrest. rewrite <- app_assoc. reflexivity. }
    destruct (String.eqb "finished" (shelf_type item)) eqn:E3.
    { apply String.eqb_eq in E3. rewrite <- E3. simpl.
      rewrite IH by exact Hrest. rewrite <- app_assoc. reflexivity. }
    rewrite Hi. apply IH. exact Hrest.
Qed.

Lemma forEach_grouped (items : list remote_item) :
  Forall not_inherited items ->
  forEach items empty_shelves = Ok (grouped items).
Proof.
  intros NI. unfold empty_shelves.
  rewrite forEach_three_shelves by exact NI. reflexivity.
Qed.

Lemma inherited_is_no_shelf (items : list remote_item) (k : string) :
  inherited k = true -> own (grouped items) k = None.
Proof.
  intros I. apply own_not_in_keys.
  change (keys (grouped items)) with shelf_names.
  intros [H|[H|[H|[]]]]; subst k; discriminate.
Qed.

(** One record naming an inherited property stops the loop with a
    [TypeError], whatever comes before and after it. *)
Lemma forEach_inherited (before after : list remote_item)
  (item : remote_item) :
  Forall not_inherited before ->
  inherited (shelf_type item) = true ->
  forEach (before ++ item :: after) empty_shelves = Throw TypeError.
Proof.
  intros NI I.
  assert (G : forall l acc, forEach (l ++ item :: after) acc =
                            match forEach l acc with
                            | Ok acc' => forEach (item :: after) acc'
                            | Throw e => Throw e
                            end).
  { induction l as [|x l IHl]; intros acc; simpl.
    - reflexivity.
    - destruct (place acc x); [apply IHl|reflexivity]. }
  rewrite G, forEach_grouped by exact NI. simpl.
  unfold place, get. rewrite (inherited_is_no_shelf before _ I), I.
  reflexivity.
Qed.

(** The rebuilt shelves hold exactly the books of the records that name
    one of the three shelves. *)
Lemma grouped_exactly (items : list remote_item) :
  Permutation (all_books (grouped items))
              (map book_of_item (filter recognized items)).
Proof.
  unfold all_books, grouped, recognized, on_shelf. simpl.
  induction items as [|item items IH]; simpl; [constructor|].
  destruct (String.eqb (shelf_type item) "current") eqn:E1.
  { apply String.eqb_eq in E1. rewrite E1. simpl.
    apply perm_skip. exact IH. }
  destruct (String.eqb (shelf_type item) "want") eqn:E2.
  { apply String.eqb_eq in E2. rewrite E2. simpl.
    apply Permutation_sym, Permutation_cons_app, Permutation_sym. exact IH. }
  destruct (String.eqb (shelf_type item) "finished") eqn:E3.
  { simpl. rewrite !app_nil_r in *. rewrite app_assoc.
    apply Permutation_sym, Permutation_cons_app, Permutation_sym.
    rewrite <- app_assoc. exact IH. }
  simpl. exact IH.
Qed.

(** The non-empty, undisturbed sync: the library becomes the grouped
    remote list, whatever it held, and is saved. *)
Lemma syncWithBackend_replaces (s : state) (u : user)
  (items : list remote_item) (on_library_page : bool) :
  parse_user (bibliodrift_user s) = Ok (Some u) ->
  items <> [] ->
  Forall not_inherited items ->
  let s' := snd (syncWithBackend (GetOk (BodyLibrary items))
                   on_library_page s) in
  fst (syncWithBackend (GetOk (BodyLibrary items)) on_library_page s) = Ok tt /\
  library s' = Some (grouped items) /\
  bibliodrift_library s' = Some (Stringified (Some (grouped items))) /\
  requests s' = requests s ++ [GET_library (user_id u)].
Proof.
  intros U NE NI. unfold syncWithBackend. run. rewrite U. simpl.
  rewrite forEach_grouped by exact NI.
  destruct items as [|item items]; [contradiction|]. simpl.
  destruct on_library_page; simpl;
    [destruct (bibliodrift_synced_once s); simpl|]; repeat split; reflexivity.
Qed.

(** With such a record anywhere in the list the sync is abandoned: the
    error is caught, the library and the stores stay as they were. *)
Lemma syncWithBackend_inherited_aborts (s : state) (u : user)
  (before after : list remote_item) (item : remote_item)
  (on_library_page : bool) :
  parse_user (bibliodrift_user s) = Ok (Some u) ->
  Forall not_inherited before ->
  inherited (shelf_type item) = true ->
  syncWithBackend (GetOk (BodyLibrary (before ++ item :: after)))
    on_library_page s
  = (Ok tt, log_request (GET_library (user_id u)) s).
Proof.
  intros U NI I. unfold syncWithBackend. run. rewrite U. simpl.
  rewrite forEach_inherited by assumption. reflexivity.
Qed.

(** C3.  [syncWithBackend] is a silent no-op in three cases.  Without a
    session (no marker, an empty one or [null]) it returns at once and the
    state is the same in every field.  With a session, when the fetch is
    rejected, or answered with a non-success status, or answered with an
    empty list, it returns normally and memory, both stores and the reload
    count are as before; only the GET itself was sent. *)
Theorem syncWithBackend_noop_cases
  (s : state) (reply : get_reply) (on_library_page : bool) :
  (parse_user (bibliodrift_user s) = Ok None ->
   syncWithBackend reply on_library_page s = (Ok tt, s)) /\
  (forall u : user,
      parse_user (bibliodrift_user s) = Ok (Some u) ->
      reply = GetRejected \/ reply = GetNotOk \/
      reply = GetOk (BodyLibrary []) ->
      let s' := snd (syncWithBackend reply on_library_page s) in
      fst (syncWithBackend reply on_library_page s) = Ok tt /\
      s' = log_request (GET_library (user_id u)) s /\
      library s' = library s /\
      bibliodrift_library s' = bibliodrift_library s /\
      bibliodrift_user s' = bibliodrift_user s /\
      bibliodrift_synced_once s' = bibliodrift_synced_once s /\
      reloads s' = reloads s).
Proof.
  split.
  - intros U. unfold syncWithBackend. run. rewrite U. reflexivity.
  - intros u U [R|[R|R]]; subst reply; unfold syncWithBackend; run;
      rewrite U; simpl; repeat split; reflexivity.
Qed.

Lemma syncWithBackend_noop_cases_witness :
  (syncWithBackend (GetOk (BodyLibrary [sample_item 1 "B1" "want"])) true
     (page (Some [("current", [sample_book "L1"]); ("want", []);
                  ("finished", [])]) None (Some EmptyText))
   = (Ok tt,
      page (Some [("current", [sample_book "L1"]); ("want", []);
                  ("finished", [])]) None (Some EmptyText))) /\
  (library
     (snd (syncWithBackend (GetOk (BodyLibrary [])) true
             (page (Some [("current", [sample_book "L1"]); ("want", []);
                          ("finished", [])]) None logged_in)))
   = Some [("current", [sample_book "L1"]); ("want", []); ("finished", [])]).
Proof.
  split.
  - apply (proj1 (syncWithBackend_noop_cases _ _ _)). reflexivity.
  - apply (proj2 (syncWithBackend_noop_cases
                    (page (Some [("current", [sample_book "L1"]);
                                 ("want", []); ("finished", [])])
                       None logged_in)
                    (GetOk (BodyLibrary [])) true)
             {| user_id := 7 |}).
    + reflexivity.
    + right. right. reflexivity.
Defined.

(** C2, at the input where the code departs from it.  The remote list
    holds a record for the shelf [current] and one whose [shelf_type] is
    [toString].  The guard [if (backendLibrary[item.shelf_type])] finds
    the inherited function, [push] on it throws, the [catch] swallows the
    error: the library is not replaced, the record for [current] is not
    installed, the local-only entry stays, and nothing is saved. *)
Theorem syncWithBackend_inherited_name_aborts :
  syncWithBackend
    (GetOk (BodyLibrary [ sample_item 1 "B1" "current";
                          sample_item 2 "B2" "toString" ]))
    false
    (page (Some [("current", []); ("want", [sample_book "L1"]);
                 ("finished", [])]) None logged_in)
  = (Ok tt,
     log_request (GET_library 7)
       (page (Some [("current", []); ("want", [sample_book "L1"]);
                    ("finished", [])]) None logged_in)).
Proof. reflexivity. Qed.

Lemma count_occ_ids_ge_2 (x : string) (l1 l2 l3 : list string) :
  (2 <= count_occ string_dec (l1 ++ x :: l2 ++ x :: l3) x)%nat.
Proof.
  rewrite count_occ_app, count_occ_cons_eq by reflexivity.
  rewrite count_occ_app, count_occ_cons_eq by reflexivity. lia.
Qed.

(** [syncWithBackend] does not deduplicate.  When the remote list holds
    two records with the same [google_books_id], each naming one of the
    three shelves, and no record stops the loop by naming an inherited
    property, the library becomes the grouped list and is saved, the
    shared id occurs at least twice in it, and the uniqueness invariant
    does not hold after the sync. *)
Theorem syncWithBackend_keeps_duplicates
  (s : state) (u : user) (before between after : list remote_item)
  (r1 r2 : remote_item) (on_library_page : bool) :
  let items := before ++ r1 :: between ++ r2 :: after in
  parse_user (bibliodrift_user s) = Ok (Some u) ->
  Forall not_inherited items ->
  google_books_id r1 = google_books_id r2 ->
  recognized r1 = true -> recognized r2 = true ->
  let s' := snd (syncWithBackend (GetOk (BodyLibrary items))
                   on_library_page s) in
  library s' = Some (grouped items) /\
  persisted s' /\
  Permutation (all_books (grouped items))
              (map book_of_item (filter recognized items)) /\
  (2 <= count_occ string_dec (all_ids (grouped items))
          (google_books_id r1))%nat /\
  ~ unique_ids (grouped items).
Proof.
  intros items U NI E R1 R2 s'.
  assert (NE : items <> []).
  { subst items. destruct before; discriminate. }
  destruct (syncWithBackend_replaces s u items on_library_page U NE NI)
    as [_ [L [P _]]].
  fold s' in L, P.
  assert (C : (2 <= count_occ string_dec (all_ids (grouped items))
                      (google_books_id r1))%nat).
  { unfold all_ids.
    rewrite (proj1 (Permutation_count_occ string_dec _ _)
               (Permutation_map id (grouped_exactly items))).
    subst items. rewrite filter_app. simpl. rewrite R1.
    rewrite filter_app. simpl. rewrite R2.
    rewrite !map_app. simpl. rewrite !map_app. simpl.
    rewrite <- E. apply count_occ_ids_ge_2. }
  split; [exact L|]. split; [unfold persisted; rewrite P, L; reflexivity|].
  split; [apply grouped_exactly|]. split; [exact C|].
  unfold unique_ids. intros ND.
  apply (proj1 (NoDup_count_occ string_dec _)) with
    (x := google_books_id r1) in ND. lia.
Qed.

Lemma syncWithBackend_keeps_duplicates_witness :
  ~ unique_ids
      (grouped ([] ++ sample_item 1 "B1" "current"
                  :: [] ++ sample_item 2 "B1" "want" :: [])) /\
  library
    (snd (syncWithBackend
            (GetOk (BodyLibrary
                      ([] ++ sample_item 1 "B1" "current"
                         :: [] ++ sample_item 2 "B1" "want" :: [])))
            false (page (Some empty_shelves) None logged_in)))
  = Some [ ("current", [book_of_item (sample_item 1 "B1" "current")]);
           ("want", [book_of_item (sample_item 2 "B1" "want")]);
           ("finished", []) ].
Proof.
  pose proof (syncWithBackend_keeps_duplicates
                (page (Some empty_shelves) None logged_in)
                {| user_id := 7 |} [] [] []
                (sample_item 1 "B1" "current") (sample_item 2 "B1" "want")
                false) as H.
  simpl in H.
  destruct H as [L [_ [_ [_ N]]]].
  - reflexivity.
  - repeat constructor.
  - reflexivity.
  - reflexivity.
  - reflexivity.
  - split; [exact N | exact L].
Defined.

(** C9, at the input where the code departs from it.  The remote list
    holds B1 for [current], B1 again for [want], and B2 with the
    [shelf_type] [toString].  The two records of B1 have the same id and
    name recognized shelves, so both are to be placed and persisted.
    The loop places them in [backendLibrary], then the guard
    [if (backendLibrary[item.shelf_type])] reads the inherited function
    for the third record, [push] on it throws and the [catch] swallows
    the error: [backendLibrary] is dropped, neither record of B1 reaches
    the library, nothing is saved.  Without the third record both are
    placed. *)
Theorem syncWithBackend_duplicates_lost_to_inherited_name :
  let r1 := sample_item 1 "B1" "current" in
  let r2 := sample_item 2 "B1" "want" in
  let r3 := sample_item 3 "B2" "toString" in
  let s := page (Some empty_shelves) None logged_in in
  let s' := snd (syncWithBackend (GetOk (BodyLibrary [r1; r2; r3]))
                   false s) in
  let s'' := snd (syncWithBackend (GetOk (BodyLibrary [r1; r2])) false s) in
  (google_books_id r1 = google_books_id r2 /\
   recognized r1 = true /\ recognized r2 = true) /\
  (library s' = Some empty_shelves /\
   findBook (library s') "B1" = false /\
   bibliodrift_library s' = None) /\
  (ids_on s'' "current" = ["B1"] /\ ids_on s'' "want" = ["B1"] /\
   persisted s'').
Proof. repeat split; reflexivity. Qed.

(* ------------------------------------------------------------------ *)
(** ** Facts about [removeBook], the slider and hydration *)

Lemma find_existsb (f : book -> bool) (arr : list book) :
  find f arr = None <-> existsb f arr = false.
Proof.
  induction arr as [|b arr IH]; simpl; [tauto|].
  destruct (f b); simpl; [split; discriminate|exact IH].
Qed.

Lemma findBookInShelves_None (o : shelves) (i : string) :
  findBookInShelves o i = None <-> findBook (Some o) i = false.
Proof.
  simpl. induction o as [|[shelf arr] o IH]; simpl; [tauto|].
  destruct (find (fun b => String.eqb (id b) i) arr) eqn:F.
  - split; [discriminate|]. intros H.
    apply orb_false_iff in H as [H _].
    apply find_existsb in H. congruence.
  - apply find_existsb in F. rewrite F. simpl. exact IH.
Qed.

Lemma findBookInShelves_own (o : shelves) (i shelf : string) (b : book) :
  findBookInShelves o i = Some (shelf, b) -> exists arr, own o shelf = Some arr.
Proof.
  induction o as [|[k arr] o IH]; simpl; [discriminate|].
  destruct (find (fun b => String.eqb (id b) i) arr).
  - intros H. inversion H; subst. rewrite String.eqb_refl. eauto.
  - intros H. destruct (String.eqb k shelf); eauto.
Qed.

Lemma existsb_filter_out (i : string) (arr : list book) :
  existsb (fun b => String.eqb (id b) i)
    (filter (fun b => negb (String.eqb (id b) i)) arr) = false.
Proof.
  induction arr as [|b arr IH]; simpl; [reflexivity|].
  destruct (String.eqb (id b) i) eqn:E; simpl; [exact IH|].
  rewrite E. exact IH.
Qed.

Lemma existsb_id_false (i : string) (arr : list book) :
  ~ In i (map id arr) ->
  existsb (fun b => String.eqb (id b) i) arr = false.
Proof.
  induction arr as [|b arr IH]; simpl; [reflexivity|].
  intros N. destruct (String.eqb (id b) i) eqn:E.
  - apply String.eqb_eq in E. tauto.
  - apply IH. tauto.
Qed.

(** [removeBook] of an id that [findBookInShelf] does not find. *)
Lemma removeBook_not_found (reply : delete_reply) (id0 : string) (s : state) :
  findBookInShelf (library s) id0 = None ->
  removeBook reply id0 s = (Ok false, s).
Proof. intros H. run. rewrite H. reflexivity. Qed.

(** [removeBook] of an id found on [shelf]: the state it ends in and what
    it returns, whatever the DELETE is answered. *)
Lemma removeBook_found (reply : delete_reply) (id0 : string) (s : state)
  (o : shelves) (shelf : string) (b : book) (arr : list book) :
  library s = Some o ->
  findBookInShelf (Some o) id0 = Some (shelf, b) ->
  own o shelf = Some arr ->
  let o' := set o shelf (filter (fun b => negb (String.eqb (id b) id0)) arr) in
  let s' := snd (removeBook reply id0 s) in
  library s' = Some o' /\
  bibliodrift_library s' = Some (Stringified (Some o')) /\
  bibliodrift_user s' = bibliodrift_user s /\
  requests s' =
    match parse_user (bibliodrift_user s), truthy_db_id b with
    | Ok (Some _), Some d => requests s ++ [DELETE_library d]
    | _, _ => requests s
    end /\
  fst (removeBook reply id0 s) =
    match parse_user (bibliodrift_user s) with
    | Throw e => Throw e
    | Ok _ => Ok true
    end.
Proof.
  intros L F O. run. rewrite L, F. simpl. rewrite L.
  apply get_own in O. rewrite O. simpl.
  destruct (parse_user (bibliodrift_user s)) as [[u|]|e]; simpl;
    try (repeat split; reflexivity).
  destruct (truthy_db_id b) as [d|]; simpl;
    try (repeat split; reflexivity).
  destruct reply; simpl; repeat split; reflexivity.
Qed.

Lemma hydrate_persisted (s : state) (o : shelves) :
  library s = Some o -> persisted s ->
  hydrate (bibliodrift_library s) = Ok o.
Proof.
  unfold persisted. intros L P. rewrite P, L. reflexivity.
Qed.

Import BookRenderer.

Lemma on_progress_input_stored (id0 : string) (value : Z) (s : state)
  (o : shelves) :
  bibliodrift_library s = Some (Stringified (Some o)) ->
  on_progress_input id0 value s =
  (Ok tt,
   set_stored (Stringified (Some (update_progress o id0 value)))
     (set_library (Some (update_progress o id0 value)) s)).
Proof.
  intros H. unfold on_progress_input. run. rewrite H. reflexivity.
Qed.

Lemma set_first_progress_find (id0 : string) (value : Z) (arr : list book) :
  match find (fun b => String.eqb (id b) id0) arr with
  | Some b =>
      exists arr',
        set_first_progress id0 value arr = Some arr' /\
        find (fun b => String.eqb (id b) id0) arr' =
        Some (with_progress value b)
  | None => set_first_progress id0 value arr = None
  end.
Proof.
  induction arr as [|b arr IH]; simpl; [reflexivity|].
  destruct (String.eqb (id b) id0) eqn:E.
  - eexists. split; [reflexivity|]. simpl. rewrite E. reflexivity.
  - destruct (find (fun b => String.eqb (id b) id0) arr) as [b'|].
    + destruct IH as [arr' [S F]]. rewrite S.
      eexists. split; [reflexivity|]. simpl. rewrite E. exact F.
    + rewrite IH. reflexivity.
Qed.


Lemma value_of_bounds (raw : Z) :
  (0 <= ProgressSlider.value_of raw <= 100)%Z.
Proof.
  unfold ProgressSlider.value_of, ProgressSlider.range_min,
    ProgressSlider.range_max.
  destruct (Z.ltb_spec raw 0); [lia|].
  destruct (Z.ltb_spec 100 raw); lia.
Qed.

Lemma value_of_within (value : Z) :
  (0 <= value <= 100)%Z -> ProgressSlider.value_of value = value.
Proof.
  intros H.
  unfold ProgressSlider.value_of, ProgressSlider.range_min,
    ProgressSlider.range_max.
  destruct (Z.ltb_spec value 0); [lia|].
  destruct (Z.ltb_spec 100 value); [lia|reflexivity].
Qed.





(** The three cases of [findBookInShelf] on a shelf state. *)
Lemma findBookInShelf_three (a1 a2 a3 : list book) (id0 shelf : string)
  (b : book) :
  findBookInShelves [("current", a1); ("want", a2); ("finished", a3)] id0
  = Some (shelf, b) ->
  let f := fun b => String.eqb (id b) id0 in
  (shelf = "current" /\ find f a1 = Some b) \/
  (shelf = "want" /\ find f a1 = None /\ find f a2 = Some b) \/
  (shelf = "finished" /\ find f a1 = None /\ find f a2 = None /\
   find f a3 = Some b).
Proof.
  simpl.
  destruct (find _ a1); [intros H; inversion H; auto|].
  destruct (find _ a2); [intros H; inversion H; auto|].
  destruct (find _ a3); [intros H; inversion H; auto 6|discriminate].
Qed.

(** C7, as the code has it.  [removeBook] of an id that is on no shelf
    returns [false] and changes nothing.  Otherwise, in a shelf state, it
    drops every entry with that id from the first shelf that holds one,
    saves the library, and (the session marker being readable) returns
    [true].  If no other shelf holds the id, [findBook] is then false and
    a second [removeBook] returns [false] and changes nothing. *)
Theorem removeBook_spec (reply : delete_reply) (id0 : string) (s : state) :
  (findBookInShelf (library s) id0 = None ->
   removeBook reply id0 s = (Ok false, s)) /\
  (forall (o : shelves) (shelf : string) (b : book),
      library s = Some o -> shelf_state o ->
      findBookInShelf (Some o) id0 = Some (shelf, b) ->
      exists arr,
        own o shelf = Some arr /\ In b arr /\ id b = id0 /\
        let s' := snd (removeBook reply id0 s) in
        library s' =
          Some (set o shelf
                  (filter (fun b => negb (String.eqb (id b) id0)) arr)) /\
        persisted s' /\
        ((exists u, parse_user (bibliodrift_user s) = Ok u) ->
         fst (removeBook reply id0 s) = Ok true) /\
        ((forall shelf' arr',
             shelf' <> shelf -> own o shelf' = Some arr' ->
             ~ In id0 (map id arr')) ->
         findBook (library s') id0 = false /\
         forall reply', removeBook reply' id0 s' = (Ok false, s'))).
Proof.
  split; [apply removeBook_not_found|].
  intros o shelf b L S F.
  destruct (findBookInShelves_own o id0 shelf b F) as [arr O].
  destruct (removeBook_found reply id0 s o shelf b arr L F O)
    as [L' [P' [_ [_ R]]]].
  assert (Fb : find (fun b => String.eqb (id b) id0) arr = Some b).
  { destruct (shelf_state_inv o S) as [a1 [a2 [a3 E]]]. subst o.
    destruct (findBookInShelf_three a1 a2 a3 id0 shelf b F)
      as [[E F1]|[[E [F1 F2]]|[E [F1 [F2 F3]]]]]; subst shelf;
      simpl in O; inversion O; subst arr; assumption. }
  exists arr. split; [exact O|].
  destruct (find_some _ _ Fb) as [Hin Hid]. apply String.eqb_eq in Hid.
  split; [exact Hin|]. split; [exact Hid|].
  split; [exact L'|]. split; [unfold persisted; rewrite P', L'; reflexivity|].
  split.
  - intros [u U]. rewrite R, U. reflexivity.
  - intros Other.
    assert (Gone : findBook (library (snd (removeBook reply id0 s))) id0
                   = false).
    { rewrite L'.
      destruct (shelf_state_inv o S) as [a1 [a2 [a3 E]]]. subst o.
      destruct (findBookInShelf_three a1 a2 a3 id0 shelf b F)
        as [[E F1]|[[E [F1 F2]]|[E [F1 [F2 F3]]]]]; subst shelf;
        simpl in O; inversion O; subst arr; simpl;
        rewrite existsb_filter_out; simpl;
        repeat match goal with
               | H : find _ _ = None |- _ =>
                   apply find_existsb in H; rewrite H; clear H
               end; simpl.
      - rewrite (existsb_id_false id0 a2), (existsb_id_false id0 a3);
          [reflexivity| |];
          [apply (Other "finished")|apply (Other "want")];
          (discriminate || reflexivity).
      - rewrite (existsb_id_false id0 a3); [reflexivity|].
        apply (Other "finished"); (discriminate || reflexivity).
      - reflexivity. }
    split; [exact Gone|].
    intros reply'. apply removeBook_not_found.
    destruct (library (snd (removeBook reply id0 s))) as [o'|];
      [|reflexivity].
    apply findBookInShelves_None. exact Gone.
Qed.

Lemma removeBook_spec_witness :
  removeBook DeleteDone "B2" (page_with "want" (sample_book "B1"))
  = (Ok false, page_with "want" (sample_book "B1")) /\
  fst (removeBook DeleteDone "B1" (page_with "want" (sample_book "B1")))
  = Ok true /\
  findBook
    (library (snd (removeBook DeleteDone "B1"
                     (page_with "want" (sample_book "B1"))))) "B1"
  = false.
Proof.
  split.
  - apply (proj1 (removeBook_spec DeleteDone "B2"
                    (page_with "want" (sample_book "B1")))).
    reflexivity.
  - destruct (proj2 (removeBook_spec DeleteDone "B1"
                       (page_with "want" (sample_book "B1")))
                (set empty_shelves "want" [sample_book "B1"])
                "want" (sample_book "B1") eq_refl eq_refl eq_refl)
      as [arr [O [_ [_ [_ [_ [T G]]]]]]].
    split.
    + apply T. exists None. reflexivity.
    + apply G. intros shelf' arr' N O'.
      change (own [("current", []); ("want", [sample_book "B1"]);
                   ("finished", [])] shelf' = Some arr') in O'.
      cbn [own] in O'.
      destruct (String.eqb "current" shelf');
        [inversion O'; subst; simpl; tauto|].
      destruct (String.eqb "want" shelf') eqn:E;
        [apply String.eqb_eq in E; congruence|].
      destruct (String.eqb "finished" shelf');
        [inversion O'; subst; simpl; tauto|discriminate].
Defined.

(** C7 as stated fails.  After a sync that put the book on two shelves,
    [removeBook] returns [true] and yet [findBook] still reports the id,
    and a second [removeBook] returns [true] again. *)
Lemma removeBook_leaves_other_shelf :
  fst (removeBook DeleteDone "B1" duplicated_by_sync) = Ok true /\
  findBook
    (library (snd (removeBook DeleteDone "B1" duplicated_by_sync))) "B1"
  = true /\
  fst (removeBook DeleteDone "B1"
         (snd (removeBook DeleteDone "B1" duplicated_by_sync)))
  = Ok true.
Proof. repeat split; reflexivity. Qed.

Lemma persisted_in_sync (s : state) (o : shelves) :
  library s = Some o ->
  bibliodrift_library s = Some (Stringified (Some o)) ->
  in_sync s.
Proof.
  intros L P. exists o. split; [exact L|]. rewrite P. reflexivity.
Qed.

Lemma addBook_local_no_shelf (b : book) (shelf : string) (s : state) :
  findBook (library s) (id b) = false ->
  (forall o, library s = Some o -> own o shelf = None) ->
  addBook_local b shelf s = (Throw TypeError, s).
Proof.
  intros H N. run. rewrite H.
  destruct (library s) as [o|]; [|reflexivity].
  unfold get. rewrite (N o eq_refl). destruct (inherited shelf); reflexivity.
Qed.

(** Every call of [addBook] and [removeBook], whatever its arguments and
    its outcome, keeps memory and store in agreement. *)
Lemma addBook_keeps_in_sync (reply : post_reply) (b : book) (shelf : string)
  (s : state) :
  in_sync s ->
  in_sync (snd (addBook_local b shelf s)) /\
  in_sync (snd (addBook reply b shelf s)).
Proof.
  intros I. destruct (findBook (library s) (id b)) eqn:F.
  - rewrite addBook_duplicate by exact F.
    unfold addBook_local, bind, gets, ret. rewrite F. auto.
  - destruct I as [o [L H]].
    destruct (own o shelf) as [arr|] eqn:O.
    + destruct (addBook_local_pushed b shelf s o arr F L O) as [L1 P1].
      destruct (addBook_pushed reply b shelf s o arr F L O) as [L2 [P2 _]].
      split; eapply persisted_in_sync; eauto.
    + assert (N : forall o', library s = Some o' -> own o' shelf = None)
        by (intros o' L'; rewrite L in L'; inversion L'; subst; exact O).
      rewrite addBook_no_shelf, addBook_local_no_shelf by assumption.
      split; exists o; auto.
Qed.

Lemma removeBook_keeps_in_sync (reply : delete_reply) (id0 : string)
  (s : state) :
  in_sync s -> in_sync (snd (removeBook reply id0 s)).
Proof.
  intros I. destruct (findBookInShelf (library s) id0) as [[shelf b]|] eqn:F.
  - destruct I as [o [L H]]. rewrite L in F.
    destruct (findBookInShelves_own o id0 shelf b F) as [arr O].
    destruct (removeBook_found reply id0 s o shelf b arr L F O)
      as [L1 [P1 _]].
    eapply persisted_in_sync; eauto.
  - rewrite removeBook_not_found by exact F. exact I.
Qed.

(** C5.  The local store follows memory before control returns.
    - [addBook] past its guard: when the method first suspends the entry
      is on its shelf and the store holds the library, so a manager built
      from the store starts from it; and whatever the POST is answered,
      the final state is saved as well, still has the book, and for every
      answer but a success carrying the new record is the state of the
      local phase (nothing is rolled back).
    - [removeBook] of a book that is found: the shelf is filtered and
      saved, the same for every answer to the DELETE.
    - the slider handler, with a library in the store: the updated
      library is the manager's and is saved.
    - any call of [addBook] or [removeBook], also one that changes nothing
      or throws, leaves memory and store in agreement if they were. *)
Theorem local_write_before_return :
  (forall (b : book) (shelf : string) (s : state) (o : shelves)
          (arr : list book),
      findBook (library s) (id b) = false ->
      library s = Some o -> own o shelf = Some arr ->
      let o1 := set o shelf (arr ++ [enrich b shelf]) in
      let s1 := snd (addBook_local b shelf s) in
      library s1 = Some o1 /\
      persisted s1 /\
      hydrate (bibliodrift_library s1) = Ok o1 /\
      forall reply : post_reply,
        let s2 := snd (addBook reply b shelf s) in
        exists o2,
          library s2 = Some o2 /\
          persisted s2 /\
          hydrate (bibliodrift_library s2) = Ok o2 /\
          findBook (Some o2) (id b) = true /\
          ((forall v, reply <> PostOk (Item v)) -> o2 = o1)) /\
  (forall (reply : delete_reply) (id0 : string) (s : state) (o : shelves)
          (shelf : string) (b : book) (arr : list book),
      library s = Some o ->
      findBookInShelf (Some o) id0 = Some (shelf, b) ->
      own o shelf = Some arr ->
      let o1 := set o shelf
                  (filter (fun b => negb (String.eqb (id b) id0)) arr) in
      let s1 := snd (removeBook reply id0 s) in
      library s1 = Some o1 /\
      persisted s1 /\
      hydrate (bibliodrift_library s1) = Ok o1) /\
  (forall (id0 : string) (value : Z) (s : state) (o : shelves),
      bibliodrift_library s = Some (Stringified (Some o)) ->
      let o1 := update_progress o id0 value in
      let s1 := snd (on_progress_input id0 value s) in
      library s1 = Some o1 /\
      persisted s1 /\
      hydrate (bibliodrift_library s1) = Ok o1) /\
  (forall (s : state),
      in_sync s ->
      (forall reply b shelf,
          in_sync (snd (addBook_local b shelf s)) /\
          in_sync (snd (addBook reply b shelf s))) /\
      (forall reply id0, in_sync (snd (removeBook reply id0 s)))).
Proof.
  split; [|split; [|split]].
  - intros b shelf s o arr F L O o1 s1.
    destruct (addBook_local_pushed b shelf s o arr F L O) as [L1 P1].
    fold o1 s1 in L1, P1.
    assert (S1 : persisted s1) by (unfold persisted; rewrite P1, L1; reflexivity).
    split; [exact L1|]. split; [exact S1|].
    split; [apply hydrate_persisted; assumption|].
    intros reply s2.
    destruct (addBook_pushed reply b shelf s o arr F L O) as [L2 [P2 _]].
    fold s2 in L2, P2.
    assert (S2 : persisted s2) by (unfold persisted; rewrite P2, L2; reflexivity).
    eexists. split; [exact L2|]. split; [exact S2|].
    split; [apply hydrate_persisted; assumption|]. split.
    + pose proof (addBook_then_found reply b shelf s o arr L O) as Fd.
      fold s2 in Fd. rewrite L2 in Fd. exact Fd.
    + intros N. unfold o1, added_entry.
      destruct (parse_user (bibliodrift_user s)) as [[u|]|e]; try reflexivity.
      destruct reply as [| |[| |v]]; try reflexivity.
      exfalso. apply (N v). reflexivity.
  - intros reply id0 s o shelf b arr L F O o1 s1.
    destruct (removeBook_found reply id0 s o shelf b arr L F O)
      as [L1 [P1 _]].
    fold o1 s1 in L1, P1.
    assert (S1 : persisted s1) by (unfold persisted; rewrite P1, L1; reflexivity).
    split; [exact L1|]. split; [exact S1|].
    apply hydrate_persisted; assumption.
  - intros id0 value s o H o1 s1. subst s1.
    rewrite (on_progress_input_stored _ _ _ _ H). simpl.
    split; [reflexivity|]. split; reflexivity.
  - intros s I. split.
    + intros reply b shelf. apply addBook_keeps_in_sync. exact I.
    + intros reply id0. apply removeBook_keeps_in_sync. exact I.
Qed.

Lemma local_write_before_return_witness :
  hydrate
    (bibliodrift_library
       (snd (addBook_local (sample_book "B2") "current"
               (page (Some empty_shelves) None logged_in))))
  = Ok (set empty_shelves "current" ([] ++ [enrich (sample_book "B2") "current"])) /\
  hydrate
    (bibliodrift_library
       (snd (removeBook DeleteRejected "B1"
               (page_with "want" (sample_book "B1")))))
  = Ok (set (set empty_shelves "want" [sample_book "B1"]) "want"
          (filter (fun b => negb (String.eqb (id b) "B1"))
             [sample_book "B1"])) /\
  hydrate
    (bibliodrift_library
       (snd (on_progress_input "B1" 55
               (page_with "current" (sample_book "B1")))))
  = Ok (update_progress (set empty_shelves "current" [sample_book "B1"])
          "B1" 55) /\
  in_sync (snd (addBook PostRejected (sample_book "B1") "dnf"
                  (page (Some empty_shelves) None None))).
Proof.
  destruct local_write_before_return as [A [R [P K]]].
  split; [|split; [|split]].
  - apply (A (sample_book "B2") "current"
             (page (Some empty_shelves) None logged_in) empty_shelves []);
      reflexivity.
  - apply (R DeleteRejected "B1" (page_with "want" (sample_book "B1"))
             (set empty_shelves "want" [sample_book "B1"]) "want"
             (sample_book "B1") [sample_book "B1"]);
      reflexivity.
  - apply (P "B1" 55%Z (page_with "current" (sample_book "B1"))
             (set empty_shelves "current" [sample_book "B1"])).
    reflexivity.
  - apply (K (page (Some empty_shelves) None None)).
    exists empty_shelves. split; reflexivity.
Defined.

(** The scenario of the specification, without a session: add [B1], add
    it again, remove it, remove it again. *)
Example scenario_add_add_remove_remove :
  let s0 := page (Some empty_shelves) None None in
  let s1 := snd (addBook PostRejected (sample_book "B1") "want" s0) in
  let s2 := snd (addBook PostRejected (sample_book "B1") "current" s1) in
  let r3 := removeBook DeleteDone "B1" s2 in
  let r4 := removeBook DeleteDone "B1" (snd r3) in
  findBook (library s1) "B1" = true /\
  s2 = s1 /\
  all_ids_of s2 = ["B1"] /\
  fst r3 = Ok true /\
  findBook (library (snd r3)) "B1" = false /\
  r4 = (Ok false, snd r3) /\
  hydrate (bibliodrift_library (snd r3)) = Ok empty_shelves.
Proof. repeat split; reflexivity. Qed.

(* ------------------------------------------------------------------ *)
(** ** The add button, the slider and the sync together *)

Import BookCard LibraryPage.

Lemma set_own_same (V : Type) (o : object V) (k : string) (v : V) :
  own o k = Some v -> set o k v = o.
Proof.
  induction o as [|[k' v'] o IH]; simpl; [discriminate|].
  destruct (String.eqb k' k) eqn:E; intros H.
  - inversion H; subst. reflexivity.
  - rewrite IH by exact H. reflexivity.
Qed.

Lemma filter_id_absent (id0 : string) (arr : list book) :
  ~ In id0 (map id arr) ->
  filter (fun b => negb (String.eqb (id b) id0)) arr = arr.
Proof.
  induction arr as [|b arr IH]; simpl; [reflexivity|].
  intros N. destruct (String.eqb (id b) id0) eqn:E.
  - apply String.eqb_eq in E. tauto.
  - simpl. rewrite IH by tauto. reflexivity.
Qed.

Lemma find_id_in (id0 : string) (arr : list book) (b : book) :
  find (fun b => String.eqb (id b) id0) arr = Some b ->
  In id0 (map id arr).
Proof.
  intros F. apply find_some in F as [I E]. apply String.eqb_eq in E.
  subst id0. apply in_map. exact I.
Qed.

Lemma find_none_not_in (id0 : string) (arr : list book) :
  find (fun b => String.eqb (id b) id0) arr = None ->
  ~ In id0 (map id arr).
Proof.
  intros F I. apply in_map_iff in I as [b [E I]].
  pose proof (find_none _ _ F b I) as H. simpl in H.
  rewrite E, String.eqb_refl in H. discriminate.
Qed.

Lemma all_ids_remove_id (o : shelves) (id0 : string) :
  all_ids (remove_id o id0) =
  filter (fun i => negb (String.eqb i id0)) (all_ids o).
Proof.
  induction o as [|[k arr] o IH]; [reflexivity|].
  unfold remove_id in *. simpl. rewrite !all_ids_cons, IH, filter_app.
  f_equal. clear IH. induction arr as [|b arr IHa]; simpl; [reflexivity|].
  destruct (String.eqb (id b) id0); simpl; rewrite IHa; reflexivity.
Qed.

Lemma keys_remove_id (o : shelves) (id0 : string) :
  keys (remove_id o id0) = keys o.
Proof.
  unfold keys, remove_id. rewrite map_map. reflexivity.
Qed.

Lemma unique_remove_id (o : shelves) (id0 : string) :
  unique_ids o -> unique_ids (remove_id o id0).
Proof.
  unfold unique_ids. rewrite all_ids_remove_id. apply NoDup_filter.
Qed.

Lemma findBook_remove_id (o : shelves) (id0 : string) :
  findBook (Some (remove_id o id0)) id0 = false.
Proof.
  apply findBook_not_In. rewrite all_ids_remove_id, filter_In.
  intros [_ H]. rewrite String.eqb_refl in H. discriminate.
Qed.

(** In a shelf state with unique ids, filtering the one shelf that holds
    the id is removing the id from the library. *)
Lemma filter_found_is_remove_id (o : shelves) (id0 shelf : string)
  (b : book) (arr : list book) :
  shelf_state o -> unique_ids o ->
  findBookInShelf (Some o) id0 = Some (shelf, b) ->
  own o shelf = Some arr ->
  set o shelf (filter (fun b => negb (String.eqb (id b) id0)) arr)
  = remove_id o id0.
Proof.
  intros S U F O.
  destruct (shelf_state_inv o S) as [a1 [a2 [a3 E]]]. subst o.
  destruct (unique_ids_shelves _ U) as [_ X].
  destruct (findBookInShelf_three a1 a2 a3 id0 shelf b F)
    as [[E F1]|[[E [F1 F2]]|[E [F1 [F2 F3]]]]]; subst shelf;
    simpl in O; inversion O; subst arr; unfold remove_id; simpl.
  - pose proof (find_id_in _ _ _ F1) as I.
    rewrite (filter_id_absent id0 a2), (filter_id_absent id0 a3);
      [reflexivity| |].
    + apply (X "current" "finished" a1 a3 id0);
        (discriminate || reflexivity || assumption).
    + apply (X "current" "want" a1 a2 id0);
        (discriminate || reflexivity || assumption).
  - pose proof (find_id_in _ _ _ F2) as I.
    rewrite (filter_id_absent id0 a1), (filter_id_absent id0 a3);
      [reflexivity| |].
    + apply (X "want" "finished" a2 a3 id0);
        (discriminate || reflexivity || assumption).
    + apply find_none_not_in. exact F1.
  - rewrite (filter_id_absent id0 a1), (filter_id_absent id0 a2);
      [reflexivity| |]; apply find_none_not_in; assumption.
Qed.

(** [removeBook] of a book that is found, in a shelf state with unique
    ids: the library loses the id and nothing else. *)
Lemma removeBook_unique (reply : delete_reply) (id0 : string) (s : state)
  (o : shelves) :
  library s = Some o -> shelf_state o -> unique_ids o ->
  findBook (Some o) id0 = true ->
  library (snd (removeBook reply id0 s)) = Some (remove_id o id0) /\
  bibliodrift_library (snd (removeBook reply id0 s))
  = Some (Stringified (Some (remove_id o id0))).
Proof.
  intros L S U F.
  destruct (findBookInShelves o id0) as [[shelf b]|] eqn:FS.
  - destruct (findBookInShelves_own o id0 shelf b FS) as [arr O].
    destruct (removeBook_found reply id0 s o shelf b arr L FS O)
      as [L' [P' _]].
    rewrite (filter_found_is_remove_id o id0 shelf b arr S U FS O) in L', P'.
    split; assumption.
  - apply findBookInShelves_None in FS. congruence.
Qed.

Lemma find_app_absent (id0 : string) (arr : list book) (e : book) :
  ~ In id0 (map id arr) -> id e = id0 ->
  find (fun b => String.eqb (id b) id0) (arr ++ [e]) = Some e.
Proof.
  intros N E. induction arr as [|b arr IH]; simpl.
  - rewrite E, String.eqb_refl. reflexivity.
  - simpl in N. destruct (String.eqb (id b) id0) eqn:Eb.
    + apply String.eqb_eq in Eb. tauto.
    + apply IH. tauto.
Qed.

Lemma filter_app_last (id0 : string) (arr : list book) (e : book) :
  id e = id0 ->
  filter (fun b => negb (String.eqb (id b) id0)) (arr ++ [e])
  = filter (fun b => negb (String.eqb (id b) id0)) arr.
Proof.
  intros E. rewrite filter_app. simpl. rewrite E, String.eqb_refl. simpl.
  apply app_nil_r.
Qed.

Lemma shelf_state_current (o : shelves) :
  shelf_state o -> exists arr, own o "current" = Some arr.
Proof.
  intros S. destruct (shelf_state_inv o S) as [a1 [a2 [a3 E]]]. subst o.
  exists a1. reflexivity.
Qed.

(** The library after [addBook] of a new id on [current], seen by
    [findBookInShelf]. *)
Lemma findBookInShelf_after_push (o : shelves) (arr : list book) (e : book) :
  shelf_state o -> own o "current" = Some arr ->
  findBook (Some o) (id e) = false ->
  findBookInShelf (Some (set o "current" (arr ++ [e]))) (id e)
  = Some ("current", e).
Proof.
  intros S O F.
  destruct (shelf_state_inv o S) as [a1 [a2 [a3 E]]]. subst o.
  simpl in O. inversion O; subst arr. simpl.
  rewrite find_app_absent; [reflexivity| |reflexivity].
  apply findBook_not_In in F. intros I. apply F.
  rewrite all_ids_cons. apply in_or_app. auto.
Qed.

(** X1.  A click on the add button of a book that is not in the library,
    then a second click on it: the book went onto [current] and came off
    again, the library is the one before the two clicks and it is saved;
    the button showed the check mark, then the heart.  Whatever the
    session and whatever is answered to the POST and to the DELETE. *)
Theorem add_click_twice_restores
  (post post' : post_reply) (del del' : delete_reply) (in1 in2 : bool)
  (bookData : book) (s : state) (o : shelves) :
  library s = Some o -> shelf_state o ->
  findBook (Some o) (id bookData) = false ->
  let c1 := on_add_click post del in1 bookData s in
  let c2 := on_add_click post' del' in2 bookData (snd c1) in
  fst c1 = Ok (fa_check, false) /\
  findBook (library (snd c1)) (id bookData) = true /\
  fst c2 = Ok (fa_heart, in2) /\
  library (snd c2) = Some o /\
  persisted (snd c2).
Proof.
  intros L S F c1 c2.
  destruct (shelf_state_current o S) as [arr O].
  assert (F' : findBook (library s) (id bookData) = false)
    by (rewrite L; exact F).
  destruct (addBook_pushed post bookData "current" s o arr F' L O)
    as [L1 _].
  pose proof (addBook_then_found post bookData "current" s o arr L O) as T1.
  assert (E1 : c1 = (Ok (fa_check, false),
                     snd (addBook post bookData "current" s))).
  { subst c1. unfold on_add_click. rewrite F'. reflexivity. }
  assert (E2 : c2 = (Ok (fa_heart, in2),
                     snd (removeBook del' (id bookData) (snd c1)))).
  { subst c2. rewrite E1. unfold on_add_click. simpl. rewrite T1.
    reflexivity. }
  rewrite E2, E1. simpl.
  split; [reflexivity|]. split; [exact T1|]. split; [reflexivity|].
  set (e := added_entry (parse_user (bibliodrift_user s)) post bookData
              "current") in *.
  assert (Ee : id e = id bookData) by apply added_entry_id.
  assert (FS : findBookInShelf (Some (set o "current" (arr ++ [e])))
                 (id bookData) = Some ("current", e)).
  { rewrite <- Ee. apply findBookInShelf_after_push; try assumption.
    rewrite Ee. exact F. }
  destruct (removeBook_found del' (id bookData)
              (snd (addBook post bookData "current" s))
              (set o "current" (arr ++ [e])) "current" e (arr ++ [e])
              L1 FS (own_set_same _ _ _ _)) as [L2 [P2 _]].
  rewrite set_set, filter_app_last, filter_id_absent in L2, P2;
    try exact Ee;
    try (intros I; apply findBook_not_In in F; apply F;
         eapply own_ids_in_all; eauto).
  rewrite (set_own_same _ _ _ _ O) in L2, P2.
  split; [exact L2|]. unfold persisted. rewrite P2, L2. reflexivity.
Qed.

Lemma add_click_twice_restores_witness :
  library
    (snd (on_add_click PostNotOk DeleteDone true (sample_book "B2")
            (snd (on_add_click (PostOk (Item (Some 4%Z))) DeleteRejected
                    false (sample_book "B2")
                    (page (Some (set empty_shelves "want" [sample_book "B1"]))
                       None logged_in)))))
  = Some (set empty_shelves "want" [sample_book "B1"]).
Proof.
  apply (add_click_twice_restores (PostOk (Item (Some 4%Z))) PostNotOk
           DeleteRejected DeleteDone false true
           (sample_book "B2")
           (page (Some (set empty_shelves "want" [sample_book "B1"]))
              None logged_in)
           (set empty_shelves "want" [sample_book "B1"]));
    reflexivity.
Defined.

(** X2.  In a shelf state with unique ids the add button tells the
    truth: after a click, the icon it was given is the one
    [updateButtonState] would compute from the library, check mark when
    the book is in it, heart when it is not. *)
Theorem add_click_icon_agrees
  (post : post_reply) (del : delete_reply) (in_shelf : bool)
  (bookData : book) (s : state) (o : shelves) :
  library s = Some o -> shelf_state o -> unique_ids o ->
  let c := on_add_click post del in_shelf bookData s in
  exists removed,
    fst c = Ok (updateButtonState (snd c) bookData, removed).
Proof.
  intros L S U c. subst c. unfold on_add_click, updateButtonState.
  destruct (findBook (library s) (id bookData)) eqn:F; simpl.
  - rewrite L in F.
    destruct (removeBook_unique del (id bookData) s o L S U F) as [L' _].
    rewrite L', findBook_remove_id. eauto.
  - destruct (shelf_state_current o S) as [arr O].
    rewrite (addBook_then_found post bookData "current" s o arr L O).
    eauto.
Qed.

Lemma add_click_icon_agrees_witness :
  exists removed,
    fst (on_add_click PostNotOk DeleteDone true (sample_book "B1")
           (page_with "want" (sample_book "B1")))
    = Ok (updateButtonState
            (snd (on_add_click PostNotOk DeleteDone true (sample_book "B1")
                    (page_with "want" (sample_book "B1"))))
            (sample_book "B1"), removed).
Proof.
  apply (add_click_icon_agrees PostNotOk DeleteDone true (sample_book "B1")
           (page_with "want" (sample_book "B1"))
           (set empty_shelves "want" [sample_book "B1"])).
  - reflexivity.
  - reflexivity.
  - unfold unique_ids. simpl. repeat constructor. simpl. tauto.
Defined.

Lemma own_remove_id (o : shelves) (id0 shelf : string) :
  own (remove_id o id0) shelf =
  option_map (filter (fun b => negb (String.eqb (id b) id0))) (own o shelf).
Proof.
  induction o as [|[k arr] o IH]; simpl; [reflexivity|].
  destruct (String.eqb k shelf); [reflexivity|exact IH].
Qed.

Lemma ids_filter (id0 : string) (arr : list book) :
  map id (filter (fun b => negb (String.eqb (id b) id0)) arr)
  = filter (fun i => negb (String.eqb i id0)) (map id arr).
Proof.
  induction arr as [|b arr IH]; simpl; [reflexivity|].
  destruct (String.eqb (id b) id0); simpl; rewrite IH; reflexivity.
Qed.

(** X3.  Two clicks on the add button of a book that is in the library
    (shelf state, unique ids) do not bring the library back: the first
    takes the book off its shelf, the second puts the card's book at the
    end of [current] with progress 0.  So a book on [want] or [finished]
    moves to [current], and a book on [current] loses its progress. *)
Theorem add_click_twice_moves_to_current
  (post post' : post_reply) (del del' : delete_reply) (in1 in2 : bool)
  (bookData : book) (s : state) (o : shelves) :
  library s = Some o -> shelf_state o -> unique_ids o ->
  findBook (Some o) (id bookData) = true ->
  let s2 := snd (on_add_click post' del' in2 bookData
                   (snd (on_add_click post del in1 bookData s))) in
  let keep := filter (fun i => negb (String.eqb i (id bookData))) in
  ids_on s2 "current" = keep (ids_on s "current") ++ [id bookData] /\
  ids_on s2 "want" = keep (ids_on s "want") /\
  ids_on s2 "finished" = keep (ids_on s "finished") /\
  (exists e, findBookInShelf (library s2) (id bookData) = Some ("current", e)
             /\ progress e = progress_num 0) /\
  persisted s2.
Proof.
  intros L S U F s2 keep.
  destruct (removeBook_unique del (id bookData) s o L S U F) as [L1 P1].
  set (o1 := remove_id o (id bookData)) in *.
  assert (S1 : shelf_state o1)
    by (unfold shelf_state, o1; rewrite keys_remove_id; exact S).
  assert (F1 : findBook (Some o1) (id bookData) = false)
    by apply findBook_remove_id.
  destruct (shelf_state_current o1 S1) as [arr1 O1].
  set (s1 := snd (removeBook del (id bookData) s)) in *.
  assert (E1 : snd (on_add_click post del in1 bookData s) = s1).
  { unfold on_add_click. rewrite L, F. reflexivity. }
  assert (F1' : findBook (library s1) (id bookData) = false)
    by (rewrite L1; exact F1).
  destruct (addBook_pushed post' bookData "current" s1 o1 arr1 F1' L1 O1)
    as [L2 [P2 _]].
  set (e := added_entry (parse_user (bibliodrift_user s1)) post' bookData
              "current") in *.
  assert (E2 : s2 = snd (addBook post' bookData "current" s1)).
  { subst s2. rewrite E1. unfold on_add_click. rewrite F1'. reflexivity. }
  assert (Ee : id e = id bookData) by apply added_entry_id.
  assert (Pe : progress e = progress_num 0).
  { unfold e, added_entry.
    destruct (parse_user (bibliodrift_user s1)) as [[u|]|x];
      try reflexivity.
    destruct post' as [| |[| |v]]; reflexivity. }
  assert (FS : findBookInShelf (library (snd (addBook post' bookData
                                                 "current" s1)))
                 (id bookData) = Some ("current", e)).
  { rewrite L2, <- Ee. apply findBookInShelf_after_push; try assumption.
    rewrite Ee. exact F1. }
  assert (PS : persisted (snd (addBook post' bookData "current" s1)))
    by (unfold persisted; rewrite P2, L2; reflexivity).
  rewrite E2. split; [|split; [|split; [|split]]];
    try (exists e; split; assumption); try exact PS;
    unfold ids_on; rewrite L2, L.
  - rewrite own_set_same. unfold o1 in O1. rewrite own_remove_id in O1.
    destruct (own o "current") as [a|]; simpl in O1; inversion O1.
    rewrite map_app, ids_filter. simpl. rewrite Ee. reflexivity.
  - rewrite own_set_other by discriminate. unfold o1.
    rewrite own_remove_id.
    destruct (own o "want") as [a|]; simpl; [apply ids_filter|reflexivity].
  - rewrite own_set_other by discriminate. unfold o1.
    rewrite own_remove_id.
    destruct (own o "finished") as [a|]; simpl;
      [apply ids_filter|reflexivity].
Qed.

Lemma add_click_twice_moves_to_current_witness :
  ids_on (snd (on_add_click PostNotOk DeleteDone false (sample_book "B1")
                 (snd (on_add_click PostNotOk DeleteDone true
                         (sample_book "B1")
                         (page_with "want" (sample_book "B1"))))))
    "current"
  = filter (fun i => negb (String.eqb i "B1"))
      (ids_on (page_with "want" (sample_book "B1")) "current") ++ ["B1"].
Proof.
  apply (add_click_twice_moves_to_current PostNotOk PostNotOk
           DeleteDone DeleteDone true false (sample_book "B1")
           (page_with "want" (sample_book "B1"))
           (set empty_shelves "want" [sample_book "B1"])).
  - reflexivity.
  - reflexivity.
  - unfold unique_ids. simpl. repeat constructor. simpl. tauto.
  - reflexivity.
Defined.

(* ------------------------------------------------------------------ *)
(** ** Invariants of a page's history *)

Lemma keys_update_progress (o : shelves) (id0 : string) (value : Z) :
  keys (update_progress o id0 value) = keys o.
Proof.
  induction o as [|[k arr] o IH]; simpl; [reflexivity|].
  destruct (set_first_progress id0 value arr); [reflexivity|].
  unfold keys in *. simpl. f_equal. exact IH.
Qed.

Lemma set_first_progress_ids (id0 : string) (value : Z) (arr arr' : list book) :
  set_first_progress id0 value arr = Some arr' -> map id arr' = map id arr.
Proof.
  revert arr'. induction arr as [|b arr IH]; simpl; intros arr' H;
    [discriminate|].
  destruct (String.eqb (id b) id0).
  - inversion H; subst. reflexivity.
  - destruct (set_first_progress id0 value arr) as [a|]; [|discriminate].
    inversion H; subst. simpl. rewrite (IH a eq_refl). reflexivity.
Qed.

Lemma all_ids_update_progress (o : shelves) (id0 : string) (value : Z) :
  all_ids (update_progress o id0 value) = all_ids o.
Proof.
  induction o as [|[k arr] o IH]; simpl; [reflexivity|].
  destruct (set_first_progress id0 value arr) as [arr'|] eqn:E.
  - rewrite !all_ids_cons. rewrite (set_first_progress_ids _ _ _ _ E).
    reflexivity.
  - rewrite !all_ids_cons, IH. reflexivity.
Qed.

(** Either every record passes the guard of the loop, or there is a first
    one that names an inherited property. *)
Lemma first_inherited (items : list remote_item) :
  Forall not_inherited items \/
  exists before item after,
    items = before ++ item :: after /\
    Forall not_inherited before /\
    inherited (shelf_type item) = true.
Proof.
  induction items as [|x items IH]; [left; constructor|].
  destruct (inherited (shelf_type x)) eqn:E.
  - right. exists [], x, items. repeat split; auto.
  - destruct IH as [A|[before [item [after [Eq [A I]]]]]].
    + left. constructor; assumption.
    + right. exists (x :: before), item, after. subst items.
      repeat split; auto.
Qed.

(** What a sync can do to memory and store: nothing, or replace both by
    the grouped remote list. *)
Lemma syncWithBackend_cases (reply : get_reply) (on_library_page : bool)
  (s : state) :
  let s' := snd (syncWithBackend reply on_library_page s) in
  (library s' = library s /\
   bibliodrift_library s' = bibliodrift_library s) \/
  (exists items,
      reply = GetOk (BodyLibrary items) /\
      library s' = Some (grouped items) /\
      bibliodrift_library s' = Some (Stringified (Some (grouped items)))).
Proof.
  intros s'. subst s'.
  destruct (parse_user (bibliodrift_user s)) as [[u|]|e] eqn:U.
  - destruct reply as [| |[| |items]];
      try (left; unfold syncWithBackend; run; rewrite U; simpl;
           split; reflexivity).
    destruct (first_inherited items)
      as [NI|[before [item [after [Eq [NI I]]]]]].
    + destruct items as [|x items].
      * left. unfold syncWithBackend. run. rewrite U. simpl.
        split; reflexivity.
      * right. exists (x :: items).
        destruct (syncWithBackend_replaces s u (x :: items) on_library_page
                    U ltac:(discriminate) NI) as [_ [L [P _]]].
        auto.
    + left. subst items.
      rewrite (syncWithBackend_inherited_aborts s u before after item
                 on_library_page U NI I).
      split; reflexivity.
  - left. unfold syncWithBackend. run. rewrite U. split; reflexivity.
  - left. unfold syncWithBackend. run. rewrite U. split; reflexivity.
Qed.




Lemma keys_grouped (items : list remote_item) :
  keys (grouped items) = shelf_names.
Proof. reflexivity. Qed.

Lemma all_ids_grouped (items : list remote_item) :
  Permutation (all_ids (grouped items))
              (map google_books_id (filter recognized items)).
Proof.
  unfold all_ids.
  rewrite (Permutation_map id (grouped_exactly items)).
  rewrite map_map. reflexivity.
Qed.

Lemma step_event_mirrored (e : event) (s : state) :
  mirrored s -> mirrored (step_event e s).
Proof.
  intros [P [o [L S]]].
  assert (K : forall s' o', library s' = Some o' ->
                bibliodrift_library s' = Some (Stringified (Some o')) ->
                keys o' = keys o -> mirrored s').
  { intros s' o' L' P' K'. split.
    - unfold persisted. rewrite P', L'. reflexivity.
    - exists o'. split; [exact L'|]. unfold shelf_state in *. congruence. }
  assert (Same : mirrored s) by (split; eauto).
  assert (Add : forall post b shelf, In shelf shelf_names ->
                  mirrored (snd (addBook post b shelf s))).
  { intros post b shelf I.
    destruct (findBook (library s) (id b)) eqn:F.
    - rewrite addBook_duplicate by exact F. exact Same.
    - rewrite <- S in I. destruct (own_of_key _ o shelf I) as [arr O].
      destruct (addBook_pushed post b shelf s o arr F L O) as [L' [P' _]].
      eapply K; eauto. eapply keys_set; eauto. }
  destruct e as [post del in_shelf b|post b|id0 value|reply page]; simpl.
  - unfold on_add_click.
    destruct (findBook (library s) (id b)) eqn:F; simpl.
    + destruct (findBookInShelf (library s) (id b)) as [[shelf b']|] eqn:FS.
      * rewrite L in FS.
        destruct (findBookInShelves_own o (id b) shelf b' FS) as [arr O].
        destruct (removeBook_found del (id b) s o shelf b' arr L FS O)
          as [L' [P' _]].
        eapply K; eauto. eapply keys_set; eauto.
      * rewrite removeBook_not_found by exact FS. exact Same.
    + apply Add. simpl. auto.
  - apply Add. simpl. auto.
  - unfold persisted in P. rewrite L in P.
    rewrite (on_progress_input_stored id0 value s o P). simpl.
    eapply K; try reflexivity. apply keys_update_progress.
  - destruct (syncWithBackend_cases reply page s)
      as [[L' P']|[items [_ [L' P']]]].
    + split.
      * unfold persisted in *. rewrite P', L'. exact P.
      * exists o. rewrite L'. auto.
    + eapply K; eauto; try (rewrite keys_grouped; symmetry; exact S).
Qed.

(** X4.  Whatever happens on a page (clicks on add buttons of cards and
    of the details modal, slider moves, syncs, with any answers from the
    network), once the store mirrors a shelf state in memory it keeps
    doing so: after every event the store holds the serialization of the
    manager's library, and the library has its three shelves. *)
Theorem page_history_mirrored (events : list event) (s : state) :
  mirrored s -> mirrored (run_page events s).
Proof.
  unfold run_page. revert s.
  induction events as [|e events IH]; intros s M; simpl; [exact M|].
  apply IH. apply step_event_mirrored. exact M.
Qed.

Lemma page_history_mirrored_witness :
  mirrored
    (run_page [ AddClick (PostOk (Item (Some 2%Z))) DeleteDone false
                  (sample_book "B2");
                SliderInput "B2" 30;
                Sync (GetOk (BodyLibrary [sample_item 1 "B3" "finished"]))
                  true;
                AddClick PostRejected DeleteRejected true (sample_book "B3") ]
       (page_with "want" (sample_book "B1"))).
Proof.
  apply page_history_mirrored. split.
  - reflexivity.
  - eexists. split; reflexivity.
Defined.

Lemma step_event_unique (e : event) (s : state) :
  mirrored s -> unique_library shelf_names s -> distinct_remote_ids e ->
  unique_library shelf_names (step_event e s).
Proof.
  intros [P _] U D. pose proof U as [o [L [K Un]]].
  assert (S : shelf_state o) by exact K.
  destruct e as [post del in_shelf b|post b|id0 value|reply page]; simpl.
  - unfold on_add_click.
    destruct (findBook (library s) (id b)) eqn:F; simpl.
    + rewrite L in F.
      destruct (removeBook_unique del (id b) s o L S Un F) as [L' _].
      exists (remove_id o (id b)). split; [exact L'|].
      split; [rewrite keys_remove_id; exact K|].
      apply unique_remove_id. exact Un.
    + apply addBook_keeps_unique; [exact U|simpl; auto].
  - apply addBook_keeps_unique; [exact U|simpl; auto].
  - unfold persisted in P. rewrite L in P.
    rewrite (on_progress_input_stored id0 value s o P). simpl.
    exists (update_progress o id0 value). split; [reflexivity|].
    split; [rewrite keys_update_progress; exact K|].
    unfold unique_ids. rewrite all_ids_update_progress. exact Un.
  - destruct (syncWithBackend_cases reply page s)
      as [[L' P']|[items [R [L' P']]]].
    + exists o. rewrite L'. auto.
    + subst reply. simpl in D.
      exists (grouped items). split; [exact L'|]. split; [reflexivity|].
      unfold unique_ids. eapply Permutation_NoDup; [|exact D].
      apply Permutation_sym. apply all_ids_grouped.
Qed.

(** X5.  The uniqueness of ids is an invariant of a page's history:
    starting where the store mirrors a shelf state with unique ids, after
    any sequence of clicks on add buttons, slider moves and syncs no id
    is twice in the library, provided no remote list installed by a sync
    has an id twice among its records for the three shelves. *)
Theorem page_history_unique (events : list event) (s : state) :
  mirrored s -> unique_library shelf_names s ->
  Forall distinct_remote_ids events ->
  unique_library shelf_names (run_page events s).
Proof.
  unfold run_page. revert s.
  induction events as [|e events IH]; intros s M U D; simpl; [exact U|].
  inversion D as [|? ? De Drest]; subst.
  apply IH; [| |exact Drest].
  - apply step_event_mirrored. exact M.
  - apply step_event_unique; assumption.
Qed.

Lemma page_history_unique_witness :
  unique_library shelf_names
    (run_page [ AddClick (PostOk (Item (Some 2%Z))) DeleteDone false
                  (sample_book "B2");
                ModalAdd PostNotOk (sample_book "B2");
                SliderInput "B2" 30;
                Sync (GetOk (BodyLibrary [ sample_item 1 "B3" "finished";
                                           sample_item 2 "B2" "want" ]))
                  true;
                AddClick PostRejected DeleteRejected true (sample_book "B3") ]
       (page_with "want" (sample_book "B1"))).
Proof.
  apply page_history_unique.
  - split; [reflexivity|]. eexists. split; reflexivity.
  - eexists. split; [reflexivity|]. split; [reflexivity|].
    unfold unique_ids. simpl. repeat constructor. simpl. tauto.
  - repeat (apply Forall_cons || apply Forall_nil); simpl; auto.
    repeat constructor; simpl; intuition discriminate.
Defined.

(** What a sync does to memory and store, as a function of the session
    and the answer alone. *)
Lemma syncWithBackend_effect (reply : get_reply) (on_library_page : bool)
  (s : state) :
  let s' := snd (syncWithBackend reply on_library_page s) in
  library s' =
    match replacement (parse_user (bibliodrift_user s)) reply with
    | Some g => Some g
    | None => library s
    end /\
  bibliodrift_library s' =
    match replacement (parse_user (bibliodrift_user s)) reply with
    | Some g => Some (Stringified (Some g))
    | None => bibliodrift_library s
    end /\
  bibliodrift_user s' = bibliodrift_user s.
Proof.
  unfold syncWithBackend, replacement. run.
  destruct (parse_user (bibliodrift_user s)) as [[u|]|e]; simpl;
    try (repeat split; reflexivity).
  destruct reply as [| |[| |[|item items]]]; simpl;
    try (repeat split; reflexivity).
  destruct (place empty_shelves item) as [g0|e0]; simpl;
    try (repeat split; reflexivity).
  destruct (forEach items g0) as [g|e1]; simpl;
    try (repeat split; reflexivity).
  destruct on_library_page; simpl;
    [destruct (bibliodrift_synced_once s); simpl|];
    repeat split; reflexivity.
Qed.

(** X6.  Syncing is idempotent: a second [syncWithBackend] that gets the
    same answer as the first leaves the library and the store as the
    first left them, whatever the answer and whatever page each runs
    on. *)
Theorem syncWithBackend_twice (reply : get_reply) (page1 page2 : bool)
  (s : state) :
  let s1 := snd (syncWithBackend reply page1 s) in
  let s2 := snd (syncWithBackend reply page2 s1) in
  library s2 = library s1 /\
  bibliodrift_library s2 = bibliodrift_library s1.
Proof.
  intros s1 s2.
  destruct (syncWithBackend_effect reply page1 s) as [L1 [P1 U1]].
  destruct (syncWithBackend_effect reply page2 s1) as [L2 [P2 _]].
  fold s1 in L1, P1, U1. fold s2 in L2, P2.
  rewrite U1 in L2, P2.
  destruct (replacement (parse_user (bibliodrift_user s)) reply);
    split; congruence.
Qed.

(** X7.  After a sync that installs the remote list (a session, a
    non-empty list, no record naming an inherited property) the library
    is the remote list and nothing else: each of the three shelves holds
    the ids of the records naming it, in the order received, and
    [findBook] reports an id exactly when a record for one of the three
    shelves has it.  What was in the library before plays no part. *)
Theorem syncWithBackend_library_is_remote
  (s : state) (u : user) (items : list remote_item)
  (on_library_page : bool) :
  parse_user (bibliodrift_user s) = Ok (Some u) ->
  items <> [] ->
  Forall not_inherited items ->
  let s' := snd (syncWithBackend (GetOk (BodyLibrary items))
                   on_library_page s) in
  (forall shelf, In shelf shelf_names ->
     ids_on s' shelf = map google_books_id (filter (on_shelf shelf) items)) /\
  (forall i, findBook (library s') i = true <->
             exists item, In item items /\ recognized item = true /\
                          google_books_id item = i).
Proof.
  intros U NE NI s'.
  destruct (syncWithBackend_replaces s u items on_library_page U NE NI)
    as [_ [L _]].
  fold s' in L. split.
  - intros shelf I. unfold ids_on. rewrite L.
    simpl in I. destruct I as [E|[E|[E|[]]]]; subst shelf; simpl;
      rewrite map_map; reflexivity.
  - intros i. rewrite L, findBook_In. split.
    + intros I.
      apply (Permutation_in _ (all_ids_grouped items)) in I.
      apply in_map_iff in I as [item [E I]].
      apply filter_In in I as [I R]. eauto.
    + intros [item [I [R E]]].
      apply (Permutation_in _ (Permutation_sym (all_ids_grouped items))).
      apply in_map_iff. exists item. split; [exact E|].
      apply filter_In. auto.
Qed.

Lemma syncWithBackend_library_is_remote_witness :
  ids_on
    (snd (syncWithBackend
            (GetOk (BodyLibrary [ sample_item 1 "B2" "want";
                                  sample_item 2 "B3" "dnf";
                                  sample_item 3 "B4" "want" ]))
            false
            (page (Some (set empty_shelves "want" [sample_book "B1"]))
               None logged_in)))
    "want"
  = map google_books_id
      (filter (on_shelf "want")
         [ sample_item 1 "B2" "want"; sample_item 2 "B3" "dnf";
           sample_item 3 "B4" "want" ]).
Proof.
  apply (syncWithBackend_library_is_remote
           (page (Some (set empty_shelves "want" [sample_book "B1"]))
              None logged_in)
           {| user_id := 7 |}).
  - reflexivity.
  - discriminate.
  - repeat constructor.
  - simpl. auto.
Defined.

Lemma step_event_reload (e : event) (s : state) :
  let s' := step_event e s in
  (bibliodrift_synced_once s' = bibliodrift_synced_once s /\
   reloads s' = reloads s) \/
  (bibliodrift_synced_once s = false /\
   bibliodrift_synced_once s' = true /\
   reloads s' = S (reloads s)).
Proof.
  destruct e as [post del in_shelf b|post b|id0 value|reply page]; simpl.
  - unfold on_add_click.
    destruct (findBook (library s) (id b)); simpl.
    + left. run.
      destruct (findBookInShelf (library s) (id b)) as [[shelf b']|];
        simpl; auto.
      destruct (library s) as [o|]; simpl; auto.
      destruct (get o shelf); simpl; auto.
      destruct (parse_user (bibliodrift_user s)) as [[u|]|x]; simpl; auto.
      destruct (truthy_db_id b'); simpl; auto.
      destruct del; simpl; auto.
    + left. unfold assign_db_id. run.
      destruct (findBook (library s) (id b)); simpl; auto.
      destruct (library s) as [o|]; simpl; auto.
      destruct (get o "current"); simpl; auto.
      destruct (parse_user (bibliodrift_user s)) as [[u|]|x]; simpl; auto.
      destruct post as [| |[| |dbid]]; simpl; auto.
      unfold assign_db_id; simpl; rewrite own_set_same; simpl; auto.
  - left. unfold on_modal_add_click, assign_db_id. run.
    destruct (findBook (library s) (id b)); simpl; auto.
    destruct (library s) as [o|]; simpl; auto.
    destruct (get o "want"); simpl; auto.
    destruct (parse_user (bibliodrift_user s)) as [[u|]|x]; simpl; auto.
    destruct post as [| |[| |dbid]]; simpl; auto.
    unfold assign_db_id; simpl; rewrite own_set_same; simpl; auto.
  - left. unfold on_progress_input. run.
    destruct (JSON_parse (bibliodrift_library s)); simpl; auto.
  - unfold syncWithBackend. run.
    destruct (parse_user (bibliodrift_user s)) as [[u|]|x]; simpl; auto.
    destruct reply as [| |[| |items]]; simpl; auto.
    destruct (forEach items empty_shelves); simpl; auto.
    destruct items; simpl; auto.
    destruct page; simpl; auto.
    destruct (bibliodrift_synced_once s) eqn:F; simpl; auto.
Qed.

(** X8.  A page's history reloads the page at most once per browser
    session: over any sequence of events the reload count grows by one at
    most, it does not grow at all when the marker
    [bibliodrift_synced_once] is already set, and the marker, once set,
    stays. *)
Theorem page_history_reloads_once (events : list event) (s : state) :
  let s' := run_page events s in
  (reloads s' = reloads s \/
   (bibliodrift_synced_once s = false /\
    bibliodrift_synced_once s' = true /\
    reloads s' = S (reloads s))) /\
  (bibliodrift_synced_once s = true ->
   bibliodrift_synced_once s' = true /\ reloads s' = reloads s).
Proof.
  unfold run_page. revert s.
  induction events as [|e events IH]; intros s; simpl.
  - split; auto.
  - destruct (IH (step_event e s)) as [A B].
    destruct (step_event_reload e s) as [[F R]|[F0 [F1 R]]]; simpl in *.
    + rewrite F, R in *. split; assumption.
    + destruct (B F1) as [B1 B2]. rewrite R in *. split.
      * right. auto.
      * intros T. congruence.
Qed.

(** X9.  A sync that installs the remote list resets the progress of
    every book: the rebuilt entries carry no progress, so each card that
    [renderShelf] makes for [current] has its slider at 0, whatever
    progress the local entries had. *)
Theorem syncWithBackend_resets_progress
  (s : state) (u : user) (items : list remote_item)
  (on_library_page : bool) :
  parse_user (bibliodrift_user s) = Ok (Some u) ->
  items <> [] ->
  Forall not_inherited items ->
  let s' := snd (syncWithBackend (GetOk (BodyLibrary items))
                   on_library_page s) in
  exists cards,
    fst (renderShelf "current" true s') = Ok cards /\
    map (fun c => id (fst c)) cards
    = map google_books_id (filter (on_shelf "current") items) /\
    Forall (fun c => slider (fst c) (Some (snd c)) = Some 0%Z) cards.
Proof.
  intros U NE NI s'.
  destruct (syncWithBackend_replaces s u items on_library_page U NE NI)
    as [_ [L _]].
  fold s' in L. unfold renderShelf. simpl. rewrite L. simpl.
  eexists. split; [reflexivity|]. split.
  - rewrite !map_map. reflexivity.
  - apply Forall_forall. intros c I.
    apply in_map_iff in I as [b [E I]]. subst c.
    apply in_map_iff in I as [item [E _]]. subst b. reflexivity.
Qed.

Lemma syncWithBackend_resets_progress_witness :
  exists cards,
    fst (renderShelf "current" true
           (snd (syncWithBackend
                   (GetOk (BodyLibrary [sample_item 1 "B1" "current"]))
                   false
                   (page (Some (set empty_shelves "current"
                                  [with_progress 80 (sample_book "B1")]))
                      None logged_in))))
    = Ok cards /\
    map (fun c => id (fst c)) cards
    = map google_books_id
        (filter (on_shelf "current") [sample_item 1 "B1" "current"]) /\
    Forall (fun c => slider (fst c) (Some (snd c)) = Some 0%Z) cards.
Proof.
  apply (syncWithBackend_resets_progress
           (page (Some (set empty_shelves "current"
                          [with_progress 80 (sample_book "B1")]))
              None logged_in)
           {| user_id := 7 |}).
  - reflexivity.
  - discriminate.
  - repeat constructor.
Defined.

Lemma find_card (id0 : string) (shelf : string) (arr : list book) :
  find (fun c : book * string => String.eqb (id (fst c)) id0)
       (map (fun b => (b, shelf)) arr)
  = option_map (fun b => (b, shelf))
      (find (fun b => String.eqb (id b) id0) arr).
Proof.
  induction arr as [|b arr IH]; simpl; [reflexivity|].
  destruct (String.eqb (id b) id0); [reflexivity|exact IH].
Qed.

Lemma find_of_in (id0 : string) (arr : list book) :
  In id0 (map id arr) ->
  exists b, find (fun b => String.eqb (id b) id0) arr = Some b.
Proof.
  intros I. destruct (find (fun b => String.eqb (id b) id0) arr) eqn:F;
    [eauto|].
  exfalso. exact (find_none_not_in _ _ F I).
Qed.

(** X10.  Progress survives a reload when no sync replaces the library:
    after the slider of a book on [current] was moved, the range input
    holding the value within 0 and 100, a manager built anew from the
    store renders that book's card, on [current], with the slider at the
    value the input held. *)
Theorem progress_survives_reload
  (id0 : string) (raw : Z) (s : state) (o : shelves) (arr : list book)
  (reply : get_reply) (on_library_page : bool) :
  bibliodrift_library s = Some (Stringified (Some o)) ->
  shelf_state o ->
  own o "current" = Some arr ->
  In id0 (map id arr) ->
  replacement (parse_user (bibliodrift_user s)) reply = None ->
  let value := ProgressSlider.value_of raw in
  let s1 := snd (ProgressSlider.on_input id0 raw s) in
  let s2 := snd (constructor reply on_library_page s1) in
  (0 <= value <= 100)%Z /\
  exists cards b,
    fst (renderShelf "current" true s2) = Ok cards /\
    find (fun c => String.eqb (id (fst c)) id0) cards = Some (b, "current") /\
    progress b = progress_num value /\
    slider b (Some "current") = Some value.
Proof.
  intros P S O I R value s1 s2.
  split; [apply value_of_bounds|].
  assert (E1 : s1 = set_stored
                      (Stringified (Some (update_progress o id0 value)))
                      (set_library (Some (update_progress o id0 value)) s)).
  { subst s1. unfold ProgressSlider.on_input. fold value.
    rewrite (on_progress_input_stored id0 value s o P).
    reflexivity. }
  assert (L2 : library s2 = Some (update_progress o id0 value)).
  { subst s2. rewrite E1. unfold constructor. run.
    match goal with
    | |- library (snd (syncWithBackend reply on_library_page ?t)) = _ =>
        destruct (syncWithBackend_effect reply on_library_page t)
          as [L _]; simpl in L
    end.
    rewrite R in L. exact L. }
  destruct (shelf_state_inv o S) as [a1 [a2 [a3 Eo]]]. subst o.
  simpl in O. inversion O; subst arr.
  destruct (find_of_in id0 a1 I) as [b0 F0].
  pose proof (set_first_progress_find id0 value a1) as SF.
  rewrite F0 in SF. destruct SF as [a1' [SF F1]].
  unfold renderShelf. simpl. rewrite L2. simpl. rewrite SF. simpl.
  eexists. exists (with_progress value b0).
  split; [reflexivity|]. split; [|split].
  - rewrite find_card, F1. reflexivity.
  - reflexivity.
  - unfold slider, shown_progress. simpl. f_equal.
    apply value_of_within. apply value_of_bounds.
Qed.

Lemma progress_survives_reload_witness :
  exists cards b,
    fst (renderShelf "current" true
           (snd (constructor GetRejected true
                   (snd (ProgressSlider.on_input "B1" 65
                           (page_with "current" (sample_book "B1")))))))
    = Ok cards /\
    find (fun c => String.eqb (id (fst c)) "B1") cards
    = Some (b, "current") /\
    progress b = progress_num 65 /\
    slider b (Some "current") = Some 65%Z.
Proof.
  apply (progress_survives_reload "B1" 65
           (page_with "current" (sample_book "B1"))
           (set empty_shelves "current" [sample_book "B1"])
           [sample_book "B1"] GetRejected true).
  - reflexivity.
  - reflexivity.
  - reflexivity.
  - simpl. auto.
  - reflexivity.
Defined.

(* ------------------------------------------------------------------ *)
(** ** Authors on the way to the backend and back *)

Lemma append_nil_r (s : string) : (s ++ EmptyString)%string = s.
Proof. induction s; simpl; [reflexivity|]. rewrite IHs. reflexivity. Qed.

Lemma append_snoc (s t : string) (c : ascii) :
  ((s ++ String c EmptyString) ++ t)%string = (s ++ String c t)%string.
Proof. induction s; simpl; [reflexivity|]. rewrite IHs. reflexivity. Qed.

Lemma split_step (cur : string) (c c' : ascii) (rest' : string) :
  split_comma_space cur (String c (String c' rest')) =
  if (Ascii.eqb c "," && Ascii.eqb c' " ")%bool
  then cur :: split_comma_space EmptyString rest'
  else split_comma_space (cur ++ String c EmptyString) (String c' rest').
Proof. reflexivity. Qed.

Lemma split_not_nil (s cur : string) : split_comma_space cur s <> [].
Proof.
  revert cur.
  assert (G : forall n s, (String.length s <= n)%nat ->
                          forall cur, split_comma_space cur s <> []).
  { induction n as [|n IH]; intros [|c rest] Hn cur.
    - discriminate.
    - simpl in Hn. lia.
    - discriminate.
    - destruct rest as [|c' rest']; [discriminate|].
      rewrite split_step.
      destruct (Ascii.eqb c "," && Ascii.eqb c' " ")%bool; [discriminate|].
      apply IH. simpl in *. lia. }
  intros cur. apply (G (String.length s)). lia.
Qed.

(** Joining what [split(', ')] gives with [", "] gives the string back. *)
Lemma concat_split (s cur : string) :
  String.concat ", " (split_comma_space cur s) = (cur ++ s)%string.
Proof.
  revert cur.
  assert (G : forall n s, (String.length s <= n)%nat ->
                          forall cur,
                            String.concat ", " (split_comma_space cur s)
                            = (cur ++ s)%string).
  { induction n as [|n IH]; intros [|c rest] Hn cur.
    - simpl. symmetry. apply append_nil_r.
    - simpl in Hn. lia.
    - simpl. symmetry. apply append_nil_r.
    - destruct rest as [|c' rest'].
      + simpl. reflexivity.
      + rewrite split_step.
        destruct (Ascii.eqb c "," && Ascii.eqb c' " ")%bool eqn:E.
        * apply andb_true_iff in E as [E1 E2].
          apply Ascii.eqb_eq in E1, E2. subst c c'.
          pose proof (split_not_nil rest' EmptyString) as NN.
          assert (IHr : String.concat ", "
                          (split_comma_space EmptyString rest') = rest').
          { rewrite IH by (simpl in Hn; lia). reflexivity. }
          destruct (split_comma_space EmptyString rest') as [|x xs];
            [contradiction|].
          change (String.concat ", " (cur :: x :: xs))
            with (cur ++ ", " ++ String.concat ", " (x :: xs))%string.
          rewrite IHr. reflexivity.
        * rewrite IH by (simpl in *; lia). apply append_snoc. }
  intros cur. apply (G (String.length s)). lia.
Qed.

Lemma split_element (e : string) :
  has_comma_space e = false ->
  forall cur rest,
    split_comma_space cur (e ++ ", " ++ rest)
    = (cur ++ e)%string :: split_comma_space EmptyString rest.
Proof.
  induction e as [|c e IH]; intros H cur rest.
  - change (EmptyString ++ ", " ++ rest)%string
      with (String "," (String " " rest)).
    rewrite split_step. simpl. rewrite append_nil_r. reflexivity.
  - destruct e as [|c' e'].
    + change (String c EmptyString ++ ", " ++ rest)%string
        with (String c (String "," (String " " rest))).
      rewrite split_step.
      replace (Ascii.eqb "," " ") with false by reflexivity.
      rewrite andb_false_r.
      change (String "," (String " " rest))
        with (EmptyString ++ ", " ++ rest)%string.
      rewrite (IH eq_refl). rewrite append_nil_r. reflexivity.
    + simpl in H. apply orb_false_iff in H as [H1 H2].
      change (String c (String c' e') ++ ", " ++ rest)%string
        with (String c (String c' (e' ++ ", " ++ rest))).
      rewrite split_step, H1.
      change (String c' (e' ++ ", " ++ rest))
        with (String c' e' ++ ", " ++ rest)%string.
      rewrite (IH H2). rewrite append_snoc. reflexivity.
Qed.

Lemma split_last (e : string) :
  has_comma_space e = false ->
  forall cur, split_comma_space cur e = [(cur ++ e)%string].
Proof.
  induction e as [|c e IH]; intros H cur.
  - simpl. rewrite append_nil_r. reflexivity.
  - destruct e as [|c' e'].
    + reflexivity.
    + simpl in H. apply orb_false_iff in H as [H1 H2].
      rewrite split_step, H1.
      rewrite (IH H2). rewrite append_snoc. reflexivity.
Qed.

(** Splitting what [join(", ")] gives returns the array, when no element
    has [", "] inside. *)
Lemma split_concat (l : list string) :
  l <> [] ->
  Forall (fun a => has_comma_space a = false) l ->
  split_comma_space EmptyString (String.concat ", " l) = l.
Proof.
  induction l as [|a l IH]; intros NE F; [contradiction|].
  inversion F as [|? ? Ha Hl]; subst.
  destruct l as [|a' l'].
  - simpl. apply split_last. exact Ha.
  - change (String.concat ", " (a :: a' :: l'))
      with (a ++ ", " ++ String.concat ", " (a' :: l'))%string.
    rewrite (split_element a Ha). simpl. f_equal.
    apply IH; [discriminate|exact Hl].
Qed.

(** X11.  A book posted by [addBook] and read back by [syncWithBackend]
    (the backend keeping the posted fields) keeps its id and title and
    gets the record's number as [db_id]; its progress is gone.  Its
    authors are joined with [", "] for the POST and split again by the
    sync: the line of authors a card shows is the same after the trip
    whenever the book had an authors array, and the array itself comes
    back when no name has [", "] inside and the array is not the single
    empty name.  A book without authors comes back with an empty array,
    so its card shows an empty line where it showed "Unknown Author". *)
Theorem book_round_trip (u : user) (b : book) (shelf : string) (n : Z) :
  let b' := book_of_item (record_of_payload n (payload_of u b shelf)) in
  id b' = id b /\
  db_id b' = Some n /\
  title (volumeInfo b') = title (volumeInfo b) /\
  progress b' = progress_absent /\
  (forall l, authors (volumeInfo b) = Some l ->
             shown_authors b' = shown_authors b) /\
  (forall l, authors (volumeInfo b) = Some l ->
             Forall (fun a => has_comma_space a = false) l ->
             l <> [EmptyString] ->
             authors (volumeInfo b') = Some l) /\
  (authors (volumeInfo b) = None ->
   authors (volumeInfo b') = Some [] /\
   shown_authors b' = EmptyString /\
   shown_authors b = "Unknown Author").
Proof.
  intros b'. subst b'.
  unfold book_of_item, record_of_payload, payload_of, shown_authors. simpl.
  repeat (split; [reflexivity|]). split; [|split].
  - intros l A. rewrite A.
    destruct (String.concat ", " l) as [|c rest] eqn:E; [reflexivity|].
    rewrite concat_split. reflexivity.
  - intros l A F NE. rewrite A.
    destruct l as [|a [|a' l']].
    + reflexivity.
    + simpl. destruct a as [|c a]; [congruence|].
      rewrite split_last; [reflexivity|].
      inversion F; assumption.
    + destruct (String.concat ", " (a :: a' :: l')) as [|c rest] eqn:E.
      * exfalso.
        change (String.concat ", " (a :: a' :: l'))
          with (a ++ ", " ++ String.concat ", " (a' :: l'))%string in E.
        destruct a; discriminate.
      * rewrite <- E. rewrite split_concat; [reflexivity|discriminate|exact F].
  - intros A. rewrite A. repeat split; reflexivity.
Qed.

Lemma book_round_trip_witness :
  shown_authors
    (book_of_item
       (record_of_payload 12
          (payload_of {| user_id := 7 |} (sample_book "B1") "want")))
  = shown_authors (sample_book "B1") /\
  authors
    (volumeInfo
       (book_of_item
          (record_of_payload 12
             (payload_of {| user_id := 7 |} (sample_book "B1") "want"))))
  = Some ["Frank Herbert"].
Proof.
  destruct (book_round_trip {| user_id := 7 |} (sample_book "B1") "want" 12)
    as [_ [_ [_ [_ [S [A _]]]]]].
  split.
  - apply (S ["Frank Herbert"]). reflexivity.
  - apply (A ["Frank Herbert"]).
    + reflexivity.
    + repeat constructor.
    + discriminate.
Defined.

(* ------------------------------------------------------------------ *)
(** ** [addBook] undone by [removeBook] *)

Lemma find_absent (id0 : string) (arr : list book) :
  ~ In id0 (map id arr) ->
  find (fun b => String.eqb (id b) id0) arr = None.
Proof.
  intros N. apply find_existsb. apply existsb_id_false. exact N.
Qed.

Lemma findBookInShelf_after_push_any (o : shelves) (shelf : string)
  (arr : list book) (e : book) :
  shelf_state o -> own o shelf = Some arr ->
  findBook (Some o) (id e) = false ->
  findBookInShelf (Some (set o shelf (arr ++ [e]))) (id e)
  = Some (shelf, e).
Proof.
  intros S O F.
  destruct (shelf_state_inv o S) as [a1 [a2 [a3 E]]]. subst o.
  apply findBook_not_In in F. rewrite !all_ids_cons in F.
  assert (N1 : ~ In (id e) (map id a1)) by (intros I; apply F; apply in_or_app; auto).
  assert (N2 : ~ In (id e) (map id a2))
    by (intros I; apply F; apply in_or_app; right; apply in_or_app; auto).
  cbn [own] in O.
  destruct (String.eqb "current" shelf) eqn:E1.
  { apply String.eqb_eq in E1. subst shelf. inversion O; subst arr.
    simpl. rewrite find_app_absent by auto. reflexivity. }
  destruct (String.eqb "want" shelf) eqn:E2.
  { apply String.eqb_eq in E2. subst shelf. inversion O; subst arr.
    simpl. rewrite (find_absent _ _ N1).
    rewrite find_app_absent by auto. reflexivity. }
  destruct (String.eqb "finished" shelf) eqn:E3; [|discriminate O].
  apply String.eqb_eq in E3. subst shelf. inversion O; subst arr.
  simpl. rewrite (find_absent _ _ N1), (find_absent _ _ N2).
  rewrite find_app_absent; [reflexivity| |reflexivity].
  intros I. apply F. apply in_or_app. right. apply in_or_app. right.
  apply in_or_app. auto.
Qed.

(** X12.  [removeBook] undoes [addBook] locally, and remotely only if the
    POST was answered with a usable id.  For a book that is new to a
    shelf state, [addBook] on one of its shelves followed by [removeBook]
    of the id gives back the library, saved; the requests sent are the
    POST, when there is a session, and then a DELETE exactly when there is
    a session and the entry got a [db_id] other than 0, from the POST's
    answer or from the book itself.  An add whose POST failed is removed
    without a word to the backend. *)
Theorem addBook_then_removeBook
  (post : post_reply) (del : delete_reply) (b : book) (shelf : string)
  (s : state) (o : shelves) (arr : list book) :
  library s = Some o -> shelf_state o ->
  own o shelf = Some arr ->
  findBook (Some o) (id b) = false ->
  let session := parse_user (bibliodrift_user s) in
  let s1 := snd (addBook post b shelf s) in
  let s2 := snd (removeBook del (id b) s1) in
  library s2 = Some o /\
  persisted s2 /\
  requests s2 =
    match session with
    | Ok (Some u) =>
        requests s ++ [POST_library (payload_of u b shelf)] ++
        match truthy_db_id (added_entry session post b shelf) with
        | Some d => [DELETE_library d]
        | None => []
        end
    | _ => requests s
    end.
Proof.
  intros L S O F session s1 s2.
  assert (F' : findBook (library s) (id b) = false) by (rewrite L; exact F).
  destruct (addBook_pushed post b shelf s o arr F' L O)
    as [L1 [_ [U1 [_ [_ [R1 _]]]]]].
  fold session s1 in L1, U1, R1.
  set (e := added_entry session post b shelf) in *.
  assert (Ee : id e = id b) by apply added_entry_id.
  assert (FS : findBookInShelf (Some (set o shelf (arr ++ [e]))) (id b)
               = Some (shelf, e)).
  { rewrite <- Ee. apply findBookInShelf_after_push_any; try assumption.
    rewrite Ee. exact F. }
  destruct (removeBook_found del (id b) s1 (set o shelf (arr ++ [e]))
              shelf e (arr ++ [e]) L1 FS (own_set_same _ _ _ _))
    as [L2 [P2 [_ [R2 _]]]].
  fold s2 in L2, P2, R2.
  rewrite set_set, filter_app_last, filter_id_absent in L2, P2;
    try exact Ee;
    try (intros I; apply findBook_not_In in F; apply F;
         eapply own_ids_in_all; eauto).
  rewrite (set_own_same _ _ _ _ O) in L2, P2.
  split; [exact L2|]. split; [unfold persisted; rewrite P2, L2; reflexivity|].
  rewrite R2, U1, R1. fold session.
  destruct session as [[u|]|x]; try reflexivity.
  destruct (truthy_db_id e); [rewrite <- app_assoc|rewrite app_nil_r];
    reflexivity.
Qed.

Lemma addBook_then_removeBook_witness :
  requests
    (snd (removeBook DeleteDone "B2"
            (snd (addBook PostRejected (sample_book "B2") "finished"
                    (page (Some (set empty_shelves "want" [sample_book "B1"]))
                       None logged_in)))))
  = [] ++ [POST_library (payload_of {| user_id := 7 |} (sample_book "B2")
                           "finished")] ++ [].
Proof.
  apply (addBook_then_removeBook PostRejected DeleteDone (sample_book "B2")
           "finished"
           (page (Some (set empty_shelves "want" [sample_book "B1"]))
              None logged_in)
           (set empty_shelves "want" [sample_book "B1"]) []);
    reflexivity.
Defined.

(* ------------------------------------------------------------------ *)
(** ** The theme button *)

Import ThemeManager.

Lemma applyTheme_icon (theme : string) (t : theme_state) (ic : icon_classes) :
  toggleBtn t = Some (Some ic) ->
  applyTheme theme t =
  (Ok tt,
   {| bibliodrift_theme := bibliodrift_theme t;
      toggleBtn := Some (Some (icon_of theme));
      data_theme := Some theme;
      currentTheme := currentTheme t;
      listening := listening t |}).
Proof.
  intros B. unfold applyTheme, icon_of. rewrite B.
  destruct (String.eqb theme "night"); reflexivity.
Qed.

Lemma on_click_listening (t : theme_state) (ic : icon_classes) :
  toggleBtn t = Some (Some ic) -> listening t = true ->
  on_click t = (Ok tt, settled (flip (currentTheme t))).
Proof.
  intros B L. unfold on_click. rewrite L. simpl.
  erewrite applyTheme_icon by (simpl; exact B). reflexivity.
Qed.

Lemma clicks_settled (n : nat) (theme : string) :
  clicks n (settled theme) = settled (Nat.iter n flip theme).
Proof.
  revert theme. induction n as [|n IH]; intros theme; [reflexivity|].
  cbn [clicks]. erewrite on_click_listening by reflexivity.
  cbn [snd settled currentTheme]. rewrite IH.
  f_equal. symmetry. apply Nat.iter_succ_r.
Qed.

Lemma iter_flip (start : string) (n : nat) :
  Nat.iter (S n) flip start = theme_after start (S n).
Proof.
  induction n as [|n IH].
  - unfold theme_after, flip. simpl.
    destruct (String.eqb start "day"); reflexivity.
  - change (Nat.iter (S (S n)) flip start)
      with (flip (Nat.iter (S n) flip start)).
    rewrite IH. unfold theme_after, flip.
    rewrite (Nat.odd_succ (S n)), <- Nat.negb_odd.
    destruct (String.eqb start "day"), (Nat.odd (S n)); reflexivity.
Qed.

Lemma clicks_not_listening (n : nat) (t : theme_state) :
  listening t = false -> clicks n t = t.
Proof.
  intros L. induction n as [|n IH]; [reflexivity|].
  cbn [clicks]. unfold on_click. rewrite L. simpl. exact IH.
Qed.

Lemma theme_after_cases (start : string) (n : nat) :
  theme_after start n = "day" \/ theme_after start n = "night".
Proof.
  unfold theme_after.
  destruct (Bool.eqb (String.eqb start "day") (Nat.odd n)); auto.
Qed.

(** X13.  On a page with the theme button and its icon, the manager
    starts with the stored theme ("day" when none is stored) and shows
    it.  After one or more clicks the theme is "day" or "night", by the
    parity of the clicks, and the store, the [data-theme] attribute, the
    icon (sun at night, moon by day) and the manager agree on it; a
    reload of the page, whatever theme its markup has, gives the same
    page again. *)
Theorem theme_clicks_settle (t : theme_state) (ic : icon_classes)
  (markup : option string) (n : nat) :
  toggleBtn t = Some (Some ic) ->
  let start := stored_theme (bibliodrift_theme t) in
  let theme := theme_after start (S n) in
  let tn := clicks (S n) (snd (constructor t)) in
  constructor t =
    (Ok tt,
     {| bibliodrift_theme := bibliodrift_theme t;
        toggleBtn := Some (Some (icon_of start));
        data_theme := Some start;
        currentTheme := start;
        listening := true |}) /\
  tn = settled theme /\
  (theme = "day" \/ theme = "night") /\
  reload markup tn = (Ok tt, tn).
Proof.
  intros B start theme tn.
  assert (C : constructor t =
    (Ok tt,
     {| bibliodrift_theme := bibliodrift_theme t;
        toggleBtn := Some (Some (icon_of start));
        data_theme := Some start;
        currentTheme := start;
        listening := true |})).
  { unfold constructor. cbn [toggleBtn currentTheme].
    erewrite applyTheme_icon by (simpl; exact B). rewrite B. reflexivity. }
  assert (T : tn = settled theme).
  { unfold tn. rewrite C. cbn [snd clicks].
    erewrite on_click_listening by reflexivity.
    cbn [snd currentTheme]. rewrite clicks_settled.
    unfold theme. rewrite <- iter_flip. f_equal.
    symmetry. apply Nat.iter_succ_r. }
  split; [exact C|]. split; [exact T|].
  split; [apply theme_after_cases|].
  rewrite T. unfold reload, constructor, settled.
  cbn [toggleBtn currentTheme bibliodrift_theme data_theme listening].
  assert (S0 : stored_theme (Some theme) = theme).
  { destruct (theme_after_cases start (S n)) as [E|E]; fold theme in E;
      rewrite E; reflexivity. }
  rewrite S0. erewrite applyTheme_icon by reflexivity. reflexivity.
Qed.

Lemma theme_clicks_settle_witness :
  clicks 3 (snd (constructor
     {| bibliodrift_theme := Some "sepia";
        toggleBtn := Some (Some {| fa_moon := false; fa_sun := false |});
        data_theme := None;
        currentTheme := EmptyString;
        listening := false |})) = settled "day".
Proof.
  apply (theme_clicks_settle
           {| bibliodrift_theme := Some "sepia";
              toggleBtn := Some (Some {| fa_moon := false; fa_sun := false |});
              data_theme := None;
              currentTheme := EmptyString;
              listening := false |}
           {| fa_moon := false; fa_sun := false |} None 2).
  reflexivity.
Defined.

(** X14.  The stored theme is applied only where the page has the theme
    button with its icon.  Without the button the constructor returns
    and neither it nor any click changes the [data-theme] attribute or
    the store.  With a button that has no icon the constructor sets the
    attribute to the stored theme and then throws a TypeError; no click
    listener is installed, so clicks change nothing. *)
Theorem theme_without_button_or_icon (t : theme_state) (n : nat) :
  (toggleBtn t = None ->
   fst (constructor t) = Ok tt /\
   data_theme (clicks n (snd (constructor t))) = data_theme t /\
   bibliodrift_theme (clicks n (snd (constructor t))) = bibliodrift_theme t)
  /\
  (toggleBtn t = Some None ->
   fst (constructor t) = Throw TypeError /\
   data_theme (clicks n (snd (constructor t))) =
     Some (stored_theme (bibliodrift_theme t)) /\
   bibliodrift_theme (clicks n (snd (constructor t))) = bibliodrift_theme t).
Proof.
  split; intros B; unfold constructor; cbn [toggleBtn currentTheme];
    rewrite B.
  - cbn [fst snd]. rewrite clicks_not_listening by reflexivity. auto.
  - unfold applyTheme. cbn [toggleBtn]. cbn [fst snd].
    rewrite clicks_not_listening by reflexivity. auto.
Qed.

Lemma theme_without_button_or_icon_witness :
  data_theme (clicks 2 (snd (constructor
     {| bibliodrift_theme := Some "night";
        toggleBtn := None;
        data_theme := Some "day";
        currentTheme := EmptyString;
        listening := false |}))) = Some "day" /\
  fst (constructor
     {| bibliodrift_theme := Some "night";
        toggleBtn := Some None;
        data_theme := Some "day";
        currentTheme := EmptyString;
        listening := false |}) = Throw TypeError.
Proof.
  split.
  - apply (proj1 (theme_without_button_or_icon
                    {| bibliodrift_theme := Some "night";
                       toggleBtn := None;
                       data_theme := Some "day";
                       currentTheme := EmptyString;
                       listening := false |} 2)).
    reflexivity.
  - apply (proj2 (theme_without_button_or_icon
                    {| bibliodrift_theme := Some "night";
                       toggleBtn := Some None;
                       data_theme := Some "day";
                       currentTheme := EmptyString;
                       listening := false |} 2)).
    reflexivity.
Defined.

(* ------------------------------------------------------------------ *)
(** ** The export button *)

Import ExportButton.

(** X15.  Once the library has been saved, the export button always
    downloads: after any history of clicks, slider moves and syncs on a
    page whose store mirrors the manager's library, a click on it gives
    a file named after the day that holds the library the manager has
    now, also when every shelf of it is empty.  "Your library is empty!"
    is shown exactly when the store has no item or an empty one. *)
Theorem export_after_history (events : list event) (today : string)
  (s : state) :
  mirrored s ->
  (exists o,
     library (run_page events s) = Some o /\
     on_export_click today (run_page events s) =
       Download (Stringified (Some o))
         ("bibliodrift_library_" ++ today ++ ".json")%string) /\
  (forall s', on_export_click today s' = AlertEmpty <->
              bibliodrift_library s' = None \/
              bibliodrift_library s' = Some EmptyText).
Proof.
  intros Mi. split.
  - assert (Mn : mirrored (run_page events s)).
    { revert s Mi. unfold run_page.
      induction events as [|e events IH]; intros s Mi; [exact Mi|].
      simpl. apply IH. apply step_event_mirrored. exact Mi. }
    destruct Mn as [P [o [L _]]]. exists o. split; [exact L|].
    unfold on_export_click. rewrite P, L. reflexivity.
  - intros s'. unfold on_export_click.
    destruct (bibliodrift_library s') as [[v| |]|]; split;
      try discriminate; auto; intros [E|E]; discriminate E.
Qed.

Lemma export_after_history_witness :
  on_export_click "2026-01-01"
    (run_page [ AddClick PostRejected DeleteRejected true (sample_book "B1") ]
       (page_with "want" (sample_book "B1"))) =
  Download (Stringified (Some empty_shelves))
    "bibliodrift_library_2026-01-01.json".
Proof.
  destruct (proj1 (export_after_history
                     [ AddClick PostRejected DeleteRejected true
                         (sample_book "B1") ]
                     "2026-01-01" (page_with "want" (sample_book "B1"))
                     (conj eq_refl
                        (ex_intro _ _ (conj eq_refl eq_refl)))))
    as [o [L E]].
  rewrite E. vm_compute in L. inversion L. reflexivity.
Defined.

(* ------------------------------------------------------------------ *)
(** ** The regular expression of [handleAuth] *)

Import Regex Auth.

Lemma matches_cat_inv (r1 r2 : re) (s : list N) :
  Matches (Cat r1 r2) s ->
  exists s1 s2, s = s1 ++ s2 /\ Matches r1 s1 /\ Matches r2 s2.
Proof. intros H. inversion H; subst. eauto. Qed.

Lemma matches_alt_inv (r1 r2 : re) (s : list N) :
  Matches (Alt r1 r2) s -> Matches r1 s \/ Matches r2 s.
Proof. intros H. inversion H; subst; auto. Qed.

Lemma matches_class_inv (p : N -> bool) (s : list N) :
  Matches (Class p) s -> exists u, s = [u] /\ p u = true.
Proof. intros H. inversion H; subst. eauto. Qed.

Lemma nullable_matches (r : re) : nullable r = true <-> Matches r [].
Proof.
  induction r as [| |p|r1 IH1 r2 IH2|r1 IH1 r2 IH2|r IH]; simpl.
  - split; [discriminate|]. intros H. inversion H.
  - split; [constructor|reflexivity].
  - split; [discriminate|]. intros H. inversion H.
  - rewrite andb_true_iff, IH1, IH2. split.
    + intros [H1 H2]. change (@nil N) with (@nil N ++ []).
      constructor; assumption.
    + intros H. apply matches_cat_inv in H as [s1 [s2 [E [H1 H2]]]].
      symmetry in E. apply app_eq_nil in E as [-> ->]. auto.
  - rewrite orb_true_iff, IH1, IH2. split.
    + intros [H|H]; [apply MAltL|apply MAltR]; exact H.
    + apply matches_alt_inv.
  - split; [constructor|reflexivity].
Qed.

Lemma deriv_sound (c : N) (r : re) (s : list N) :
  Matches (deriv c r) s -> Matches r (c :: s).
Proof.
  revert s.
  induction r as [| |p|r1 IH1 r2 IH2|r1 IH1 r2 IH2|r IH]; simpl; intros s H.
  - inversion H.
  - inversion H.
  - destruct (p c) eqn:P; inversion H; subst. constructor. exact P.
  - assert (C : Matches (Cat (deriv c r1) r2) s -> Matches (Cat r1 r2) (c :: s)).
    { intros H1. apply matches_cat_inv in H1 as [s1 [s2 [E [Ha Hb]]]].
      subst s. change (c :: s1 ++ s2) with ((c :: s1) ++ s2).
      constructor; auto. }
    destruct (nullable r1) eqn:Nu; [|auto].
    apply matches_alt_inv in H as [H|H]; [auto|].
    change (c :: s) with ([] ++ c :: s).
    constructor; auto. apply nullable_matches. exact Nu.
  - apply matches_alt_inv in H as [H|H]; [apply MAltL|apply MAltR]; auto.
  - apply matches_cat_inv in H as [s1 [s2 [E [Ha Hb]]]]. subst s.
    change (c :: s1 ++ s2) with ((c :: s1) ++ s2).
    apply MStarApp; auto.
Qed.

Lemma deriv_complete (c : N) (r : re) (w : list N) :
  Matches r w -> forall s, w = c :: s -> Matches (deriv c r) s.
Proof.
  induction 1 as [|p c0 P|r1 r2 s1 s2 H1 IH1 H2 IH2|r1 r2 w H IH|r1 r2 w H IH
                 |r|r s1 s2 H1 IH1 H2 IH2]; intros s E; simpl.
  - discriminate E.
  - inversion E; subst. rewrite P. constructor.
  - destruct s1 as [|c1 s1]; simpl in E.
    + apply nullable_matches in H1. rewrite H1. apply MAltR. auto.
    + inversion E; subst.
      destruct (nullable r1); [apply MAltL|]; constructor; auto.
  - apply MAltL. auto.
  - apply MAltR. auto.
  - discriminate E.
  - destruct s1 as [|c1 s1]; simpl in E.
    + apply (IH2 s E).
    + inversion E; subst. constructor; auto.
Qed.

Lemma test_matches (r : re) (s : list N) :
  test r s = true <-> Matches r s.
Proof.
  unfold test. revert r. induction s as [|c s IH]; intros r; simpl.
  - apply nullable_matches.
  - rewrite IH. split.
    + apply deriv_sound.
    + intros H. apply (deriv_complete c r (c :: s) H s eq_refl).
Qed.

Lemma star_class (p : N -> bool) (s : list N) :
  Matches (Star (Class p)) s <-> Forall (fun u => p u = true) s.
Proof.
  split.
  - intros H. remember (Star (Class p)) as r eqn:R.
    induction H as [| | | | | |r s1 s2 H1 _ H2 IH2]; try discriminate R.
    + constructor.
    + inversion R; subst.
      apply matches_class_inv in H1 as [u [-> P]]. simpl.
      constructor; auto.
  - induction 1 as [|u s P _ IH]; [constructor|].
    change (u :: s) with ([u] ++ s). constructor; [|exact IH].
    constructor. exact P.
Qed.

Lemma plus_class (p : N -> bool) (s : list N) :
  Matches (Plus (Class p)) s <->
  s <> [] /\ Forall (fun u => p u = true) s.
Proof.
  unfold Plus. split.
  - intros H. apply matches_cat_inv in H as [s1 [s2 [E [H1 H2]]]].
    apply matches_class_inv in H1 as [u [-> P]]. subst s. simpl.
    split; [discriminate|].
    constructor; [assumption|]. apply star_class. exact H2.
  - intros [Ne F]. destruct s as [|u s]; [contradiction|].
    inversion F; subst. change (u :: s) with ([u] ++ s).
    constructor; [constructor; assumption|]. apply star_class. assumption.
Qed.

Lemma class_unit (u : N) (s : list N) :
  Matches (Class (N.eqb u)) s <-> s = [u].
Proof.
  split.
  - intros H. apply matches_class_inv in H as [v [-> P]].
    apply N.eqb_eq in P. subst v. reflexivity.
  - intros ->. constructor. apply N.eqb_refl.
Qed.

Lemma emailRegex_matches (email : list N) :
  Matches emailRegex email <-> email_shaped email.
Proof.
  unfold emailRegex, email_shaped. split.
  - intros H.
    apply matches_cat_inv in H as [a [s1 [E1 [Ha H]]]].
    apply matches_cat_inv in H as [x [s2 [E2 [Hx H]]]].
    apply matches_cat_inv in H as [b [s3 [E3 [Hb H]]]].
    apply matches_cat_inv in H as [y [c [E4 [Hy Hc]]]].
    apply class_unit in Hx, Hy. subst.
    apply plus_class in Ha as [Na Fa].
    apply plus_class in Hb as [Nb Fb].
    apply plus_class in Hc as [Nc Fc].
    exists a, b, c. repeat split; auto.
    apply Forall_app. split; [exact Fa|].
    apply Forall_app. split; assumption.
  - intros [a [b [c [E [Na [Nb [Nc F]]]]]]]. subst email.
    apply Forall_app in F as [Fa F]. apply Forall_app in F as [Fb Fc].
    constructor; [apply plus_class; auto|].
    constructor; [apply class_unit; reflexivity|].
    constructor; [apply plus_class; auto|].
    constructor; [apply class_unit; reflexivity|].
    apply plus_class; auto.
Qed.

Lemma count_at_free (l : list N) :
  Forall (fun u => not_space_or_at u = true) l ->
  count_occ N.eq_dec l at_sign = 0.
Proof.
  induction 1 as [|u l P _ IH]; [reflexivity|].
  simpl. destruct (N.eq_dec u at_sign) as [E|E]; [|exact IH].
  subst u. discriminate P.
Qed.

(** X16.  [handleAuth] goes on to library.html exactly for the inputs of
    the form a@b.c in which a, b and c are non-empty and hold neither
    white space nor an at sign; every other input gets the alert and
    stays on the page.  An accepted input has exactly one at sign.  The
    input is tested as typed: nothing is trimmed. *)
Theorem handleAuth_accepts (email : list N) :
  (handleAuth email = Navigate "library.html" <-> email_shaped email) /\
  (handleAuth email = Alert "Enter a valid email address" <->
   ~ email_shaped email) /\
  (handleAuth email = Navigate "library.html" ->
   count_occ N.eq_dec email at_sign = 1).
Proof.
  assert (A : handleAuth email = Navigate "library.html" <->
              email_shaped email).
  { rewrite <- emailRegex_matches, <- test_matches. unfold handleAuth.
    destruct (test emailRegex email); simpl; split; auto; discriminate. }
  split; [exact A|]. split.
  - rewrite <- A. unfold handleAuth.
    destruct (test emailRegex email); simpl; split; auto;
      try discriminate.
    intros H. exfalso. apply H. reflexivity.
  - intros H. apply A in H as [a [b [c [E [_ [_ [_ F]]]]]]]. subst email.
    apply Forall_app in F as [Fa F]. apply Forall_app in F as [Fb Fc].
    rewrite !count_occ_app. rewrite (count_at_free a Fa),
      (count_at_free b Fb), (count_at_free c Fc). reflexivity.
Qed.

Lemma handleAuth_accepts_witness :
  handleAuth (units "reader@example.com") = Navigate "library.html" /\
  handleAuth (units " reader@example.com") =
    Alert "Enter a valid email address" /\
  handleAuth (units "reader@example") =
    Alert "Enter a valid email address" /\
  count_occ N.eq_dec (units "reader@example.com") at_sign = 1.
Proof.
  split; [reflexivity|]. split; [reflexivity|]. split; [reflexivity|].
  apply (proj2 (proj2 (handleAuth_accepts (units "reader@example.com")))).
  reflexivity.
Defined.

(* ------------------------------------------------------------------ *)
(** ** [addToLibrary] of the 3D shelf *)

Import BookshelfRenderer3D.

Lemma existsb_concat (A : Type) (f : A -> bool) (ls : list (list A)) :
  existsb f (List.concat ls) = existsb (existsb f) ls.
Proof.
  induction ls as [|l ls IH]; simpl; [reflexivity|].
  rewrite existsb_app, IH. reflexivity.
Qed.

Lemma exists_is_findBook (o : shelves) (id0 : string) :
  existsb (fun x => String.eqb (id x) id0) (List.concat (map snd o)) =
  findBook (Some o) id0.
Proof.
  rewrite existsb_concat. simpl. induction o as [|[k a] o IH]; simpl;
    [reflexivity|]. rewrite IH. reflexivity.
Qed.

Lemma hydrate_parsed (item : option (json_text shelves)) (o : shelves) :
  hydrate item = Ok o ->
  exists parsed,
    JSON_parse item = Ok parsed /\
    match parsed with Some o' => o' | None => empty_shelves end = o.
Proof.
  unfold hydrate. destruct (JSON_parse item) as [[o'|]|e]; intros H;
    inversion H; subst; eauto.
Qed.

Lemma findBook_after_push (o : shelves) (shelf : string) (arr : list book)
  (e : book) (id0 : string) :
  own o shelf = Some arr ->
  findBook (Some (set o shelf (arr ++ [e]))) id0 =
  String.eqb (id e) id0 || findBook (Some o) id0.
Proof.
  intros O.
  destruct (String.eqb (id e) id0 || findBook (Some o) id0) eqn:E.
  - apply findBook_In.
    apply (Permutation_in _ (Permutation_sym (all_ids_push o shelf arr e O))).
    apply orb_true_iff in E as [E|E].
    + left. apply String.eqb_eq. exact E.
    + right. apply findBook_In. exact E.
  - apply orb_false_iff in E as [E1 E2]. apply findBook_not_In.
    intros I.
    apply (Permutation_in _ (all_ids_push o shelf arr e O)) in I.
    destruct I as [I|I].
    + apply String.eqb_eq in I. congruence.
    + apply findBook_In in I. congruence.
Qed.

Lemma addToLibrary_cases (b : sample) (s : state) (o : shelves)
  (want : list book) :
  hydrate (bibliodrift_library s) = Ok o ->
  own o "want" = Some want ->
  addToLibrary b s =
  (Ok tt,
   if findBook (Some o) (sample_id b) then s
   else set_stored
          (Stringified (Some (set o "want" (want ++ [entry_of b])))) s).
Proof.
  intros H W. destruct (hydrate_parsed _ _ H) as [parsed [P E]].
  unfold addToLibrary. rewrite P, E, exists_is_findBook.
  destruct (findBook (Some o) (sample_id b)); [reflexivity|].
  unfold get. rewrite W. reflexivity.
Qed.

(** X17.  [addToLibrary] on a store that holds a library with a [want]
    shelf, or holds nothing: it never throws and never touches a
    manager's library or the network.  A book whose id is on some shelf
    of the stored library changes nothing; any other is appended to the
    stored [want] shelf, the rest of the stored library staying as it
    is, and ids that were unique stay unique.  Either way a manager
    built from the store afterwards finds the book, and a second call
    changes nothing. *)
Theorem addToLibrary_round_trip (b : sample) (s : state) (o : shelves)
  (want : list book) :
  hydrate (bibliodrift_library s) = Ok o ->
  own o "want" = Some want ->
  let s' := snd (addToLibrary b s) in
  fst (addToLibrary b s) = Ok tt /\
  library s' = library s /\ requests s' = requests s /\
  (findBook (Some o) (sample_id b) = true -> s' = s) /\
  (findBook (Some o) (sample_id b) = false ->
   hydrate (bibliodrift_library s') =
     Ok (set o "want" (want ++ [entry_of b])) /\
   (unique_ids o -> unique_ids (set o "want" (want ++ [entry_of b])))) /\
  (exists o', hydrate (bibliodrift_library s') = Ok o' /\
              findBook (Some o') (sample_id b) = true) /\
  addToLibrary b s' = (Ok tt, s').
Proof.
  intros H W s'. unfold s'. rewrite (addToLibrary_cases b s o want H W).
  cbn [fst snd].
  destruct (findBook (Some o) (sample_id b)) eqn:F.
  - repeat split; auto; try discriminate.
    + exists o. auto.
    + rewrite (addToLibrary_cases b s o want H W), F. reflexivity.
  - assert (F' : findBook (Some (set o "want" (want ++ [entry_of b])))
                   (sample_id b) = true).
    { rewrite (findBook_after_push o "want" want (entry_of b) _ W).
      simpl. rewrite String.eqb_refl. reflexivity. }
    repeat split; auto; try discriminate.
    + intros U. unfold unique_ids in *.
      apply (Permutation_NoDup
               (Permutation_sym (all_ids_push o "want" want (entry_of b) W))).
      constructor; [|exact U]. apply findBook_not_In. exact F.
    + eexists. split; [reflexivity|exact F'].
    + rewrite (addToLibrary_cases b
                 (set_stored
                    (Stringified (Some (set o "want" (want ++ [entry_of b]))))
                    s)
                 (set o "want" (want ++ [entry_of b]))
                 (want ++ [entry_of b]) eq_refl)
        by apply own_set_same.
      match goal with
      | |- context [if ?c then _ else _] =>
          replace c with true by (symmetry; exact F')
      end.
      reflexivity.
Qed.

Lemma addToLibrary_round_trip_witness :
  hydrate (bibliodrift_library
             (snd (addToLibrary
                     {| sample_id := "S1"; sample_title := "Dune";
                        sample_author := "Frank Herbert";
                        sample_cover := "dune.jpg" |}
                     (page None None None)))) =
  Ok (set empty_shelves "want"
        [entry_of {| sample_id := "S1"; sample_title := "Dune";
                     sample_author := "Frank Herbert";
                     sample_cover := "dune.jpg" |}]).
Proof.
  apply (addToLibrary_round_trip
           {| sample_id := "S1"; sample_title := "Dune";
              sample_author := "Frank Herbert";
              sample_cover := "dune.jpg" |}
           (page None None None) empty_shelves []);
    reflexivity.
Defined.

(** X18.  [addToLibrary] writes the store behind the back of a manager
    that is already running.  On a page whose store mirrors the
    manager's library, after [addToLibrary] of a book the library lacks
    the store has the book and the manager does not; when the manager
    then adds another new book to one of its shelves it saves its own
    library over the store, and the book of [addToLibrary] is gone from
    the store as well.  A slider move, which reads the store first,
    keeps it and hands it to the manager. *)
Theorem addToLibrary_lost_by_running_manager (b : sample) (c : book)
  (reply : post_reply) (shelf id0 : string) (value : Z) (s : state)
  (o : shelves) :
  persisted s -> library s = Some o -> shelf_state o ->
  findBook (Some o) (sample_id b) = false ->
  findBook (Some o) (id c) = false ->
  id c <> sample_id b ->
  In shelf shelf_names ->
  let s1 := snd (addToLibrary b s) in
  let s2 := snd (addBook reply c shelf s1) in
  let s3 := snd (BookRenderer.on_progress_input id0 value s1) in
  (findBook (stored_shelves s1) (sample_id b) = true /\
   findBook (library s1) (sample_id b) = false) /\
  (findBook (stored_shelves s2) (sample_id b) = false /\
   findBook (library s2) (sample_id b) = false /\
   findBook (library s2) (id c) = true) /\
  (findBook (stored_shelves s3) (sample_id b) = true /\
   findBook (library s3) (sample_id b) = true).
Proof.
  intros P L S Fb Fc Ne I s1 s2 s3.
  assert (W : exists want, own o "want" = Some want).
  { apply own_of_key. rewrite S. simpl. auto. }
  destruct W as [want W].
  assert (H : hydrate (bibliodrift_library s) = Ok o).
  { rewrite P, L. reflexivity. }
  assert (E1 : s1 = set_stored
                 (Stringified (Some (set o "want" (want ++ [entry_of b])))) s).
  { unfold s1. rewrite (addToLibrary_cases b s o want H W), Fb.
    reflexivity. }
  assert (F' : findBook (Some (set o "want" (want ++ [entry_of b])))
                 (sample_id b) = true).
  { rewrite (findBook_after_push o "want" want (entry_of b) _ W).
    simpl. rewrite String.eqb_refl. reflexivity. }
  split; [|split].
  - rewrite E1. unfold stored_shelves. simpl. rewrite L. auto.
  - assert (O : exists arr, own o shelf = Some arr).
    { apply own_of_key. rewrite S. exact I. }
    destruct O as [arr O].
    assert (L1 : library s1 = Some o) by (rewrite E1; exact L).
    assert (Fc1 : findBook (library s1) (id c) = false)
      by (rewrite L1; exact Fc).
    destruct (addBook_pushed reply c shelf s1 o arr Fc1 L1 O)
      as [L2 [P2 _]].
    fold s2 in L2, P2.
    assert (Ia : forall session, id (added_entry session reply c shelf) = id c)
      by (intros session; apply added_entry_id).
    unfold stored_shelves. rewrite P2, L2.
    rewrite !(findBook_after_push o shelf arr _ _ O), !Ia.
    rewrite Fb, Fc, String.eqb_refl.
    destruct (String.eqb (id c) (sample_id b)) eqn:E;
      [apply String.eqb_eq in E; contradiction|]. auto.
  - unfold s3, BookRenderer.on_progress_input, bind, modify.
    rewrite E1. simpl. unfold stored_shelves. simpl.
    assert (G : findBook
                  (Some (BookRenderer.update_progress
                           (set o "want" (want ++ [entry_of b])) id0 value))
                  (sample_id b) = true).
    { apply findBook_In. rewrite all_ids_update_progress.
      apply findBook_In. exact F'. }
    split; exact G.
Qed.

Lemma addToLibrary_lost_by_running_manager_witness :
  findBook
    (stored_shelves
       (snd (addBook PostRejected (sample_book "B2") "current"
               (snd (addToLibrary
                       {| sample_id := "S1"; sample_title := "Dune";
                          sample_author := "Frank Herbert";
                          sample_cover := "dune.jpg" |}
                       (page_with "want" (sample_book "B1")))))))
    "S1" = false.
Proof.
  apply (addToLibrary_lost_by_running_manager
           {| sample_id := "S1"; sample_title := "Dune";
              sample_author := "Frank Herbert";
              sample_cover := "dune.jpg" |}
           (sample_book "B2") PostRejected "current" "B1" 10
           (page_with "want" (sample_book "B1"))
           (set empty_shelves "want" [sample_book "B1"]));
    try reflexivity.
  - discriminate.
  - simpl. auto.
Defined.

(* ------------------------------------------------------------------ *)
(** ** The shelves of the library page *)

Lemma cards_of_shelf (k shelf : string) (l : list book) :
  map fst (filter (fun c : book * string => String.eqb (snd c) shelf)
             (map (fun b => (b, k)) l)) =
  if String.eqb k shelf then l else [].
Proof.
  induction l as [|b l IH]; simpl.
  - destruct (String.eqb k shelf); reflexivity.
  - destruct (String.eqb k shelf) eqn:E; simpl; [f_equal|]; exact IH.
Qed.

Lemma map_fst_cards (k : string) (l : list book) :
  map fst (map (fun b => (b, k)) l) = l.
Proof. induction l as [|b l IH]; simpl; [reflexivity|f_equal; exact IH]. Qed.

(** X19.  The library page gives every book of the manager's library
    exactly one card: with the three shelves in place the three
    [renderShelf] calls of the page start-up return, the cards made for
    a shelf are the books of that shelf in their order, each made with
    that shelf's name, and all cards together are the books of the
    library.  When the library has no [want] shelf the first call throws
    a TypeError and no card is made. *)
Theorem render_library_cards (s : state) (o : shelves) :
  library s = Some o ->
  (shelf_state o ->
   exists cards,
     render_library s = (Ok cards, s) /\
     (forall shelf arr,
         own o shelf = Some arr ->
         map fst (filter (fun c : book * string => String.eqb (snd c) shelf)
                    cards) = arr) /\
     Permutation (map fst cards) (all_books o)) /\
  (own o "want" = None -> render_library s = (Throw TypeError, s)).
Proof.
  intros L. split.
  - intros S. destruct (shelf_state_inv o S) as [a1 [a2 [a3 E]]]. subst o.
    eexists. split; [|split].
    + assert (G1 : get [("current", a1); ("want", a2); ("finished", a3)]
                     "want" = Own a2) by reflexivity.
      assert (G2 : get [("current", a1); ("want", a2); ("finished", a3)]
                     "current" = Own a1) by reflexivity.
      assert (G3 : get [("current", a1); ("want", a2); ("finished", a3)]
                     "finished" = Own a3) by reflexivity.
      unfold render_library, renderShelf, bind, ret. cbn [negb].
      rewrite L, G1. cbn iota beta. rewrite L, G2. cbn iota beta.
      rewrite L, G3. reflexivity.
    + intros shelf arr O. rewrite !filter_app, !map_app, !cards_of_shelf.
      change (own [("current", a1); ("want", a2); ("finished", a3)] shelf)
        with (if String.eqb "current" shelf then Some a1
              else if String.eqb "want" shelf then Some a2
                   else if String.eqb "finished" shelf then Some a3
                        else None) in O.
      destruct (String.eqb "current" shelf) eqn:E1.
      * apply String.eqb_eq in E1. subst shelf. inversion O; subst.
        simpl. apply app_nil_r.
      * destruct (String.eqb "want" shelf) eqn:E2.
        -- apply String.eqb_eq in E2. subst shelf. inversion O; subst.
           simpl. apply app_nil_r.
        -- destruct (String.eqb "finished" shelf) eqn:E3;
             [|discriminate O].
           inversion O; subst. reflexivity.
    + rewrite !map_app, !map_fst_cards. unfold all_books. simpl.
      rewrite app_nil_r, !app_assoc.
      apply Permutation_app_tail. apply Permutation_app_comm.
  - intros W. unfold render_library, renderShelf, bind. simpl.
    rewrite L. unfold get. rewrite W. reflexivity.
Qed.

Lemma render_library_cards_witness :
  exists cards,
    render_library (page_with "current" (sample_book "B1")) =
      (Ok cards, page_with "current" (sample_book "B1")) /\
    map fst cards = [sample_book "B1"].
Proof.
  destruct (proj1 (render_library_cards
                     (page_with "current" (sample_book "B1"))
                     (set empty_shelves "current" [sample_book "B1"])
                     eq_refl) eq_refl)
    as [cards [R [C _]]].
  exists cards. split; [exact R|].
  vm_compute in R. inversion R. reflexivity.
Defined.

(* ------------------------------------------------------------------ *)
(** ** The two versions of [addBook] *)

Lemma legacy_addBook_cases (b : book) (shelf : string) (s : state) :
  Legacy.addBook b shelf s =
  if findBook (library s) (id b) then (Ok tt, s)
  else
    match library s with
    | None => (Throw TypeError, s)
    | Some o =>
        match own o shelf with
        | Some arr =>
            (Ok tt,
             set_stored (Stringified (Some (set o shelf (arr ++ [b]))))
               (set_library (Some (set o shelf (arr ++ [b]))) s))
        | None => (Throw TypeError, s)
        end
    end.
Proof.
  unfold Legacy.addBook, Legacy.save, push, bind, gets, ret, modify.
  destruct (findBook (library s) (id b)); [reflexivity|].
  destruct (library s) as [o|]; [|reflexivity].
  unfold get. destruct (own o shelf) as [arr|]; [reflexivity|].
  destruct (inherited shelf); reflexivity.
Qed.

(** X20.  The [addBook] of app.js and the later asynchronous one leave
    the same ids, in the same order, on every shelf, whatever the
    session and the reply.  The older one sends nothing, keeps the store
    equal to the library, and a second call for the same book changes
    nothing; where the stored session marker can be read, both end the
    same way (both return, or both throw on a missing shelf). *)
Theorem addBook_versions_agree (reply : post_reply) (b : book)
  (shelf shelf' : string) (s : state) :
  let old := Legacy.addBook b shelf s in
  let new := addBook reply b shelf s in
  (forall k, ids_on (snd new) k = ids_on (snd old) k) /\
  requests (snd old) = requests s /\
  (persisted s -> persisted (snd old)) /\
  (fst old = Ok tt ->
   Legacy.addBook b shelf' (snd old) = (Ok tt, snd old)) /\
  (forall u, parse_user (bibliodrift_user s) = Ok u -> fst new = fst old).
Proof.
  intros old new. unfold old, new. rewrite legacy_addBook_cases.
  destruct (findBook (library s) (id b)) eqn:F.
  - rewrite addBook_duplicate by exact F. cbn [fst snd].
    repeat split; auto.
    intros _. rewrite legacy_addBook_cases, F. reflexivity.
  - destruct (library s) as [o|] eqn:L.
    + destruct (own o shelf) as [arr|] eqn:O.
      * destruct (addBook_pushed reply b shelf s o arr)
          as [L2 [P2 [_ [_ [_ [_ R]]]]]];
          [rewrite L; exact F|exact L|exact O|].
        cbn [fst snd]. split; [|split; [|split; [|split]]].
        -- intros k. unfold ids_on. rewrite L2. simpl.
           destruct (String.eqb shelf k) eqn:E.
           ++ apply String.eqb_eq in E. subst k.
              rewrite !own_set_same, !map_app. simpl.
              rewrite added_entry_id. reflexivity.
           ++ assert (N : shelf <> k).
              { intros X. subst k. rewrite String.eqb_refl in E.
                discriminate. }
              rewrite !own_set_other by exact N. reflexivity.
        -- reflexivity.
        -- intros _. reflexivity.
        -- intros _. rewrite legacy_addBook_cases.
           match goal with
           | |- context [if ?c then _ else _] =>
               replace c with true; [reflexivity|]
           end.
           symmetry.
           change (findBook (Some (set o shelf (arr ++ [b]))) (id b) = true).
           rewrite (findBook_after_push o shelf arr b (id b) O).
           rewrite String.eqb_refl. reflexivity.
        -- intros u U. rewrite R, U. reflexivity.
      * rewrite addBook_no_shelf;
          [|rewrite L; exact F
           |intros o' L'; rewrite L in L'; inversion L'; subst; exact O].
        cbn [fst snd]. unfold ids_on. repeat split; auto.
        intros X. discriminate X.
    + rewrite addBook_no_shelf;
        [|rewrite L; exact F|intros o' L'; rewrite L in L'; discriminate L'].
      cbn [fst snd]. repeat split; auto.
      intros X. discriminate X.
Qed.

Lemma addBook_versions_agree_witness :
  Legacy.addBook (sample_book "B1") "finished"
    (snd (Legacy.addBook (sample_book "B1") "want"
            (page (Some empty_shelves) None None))) =
  (Ok tt,
   snd (Legacy.addBook (sample_book "B1") "want"
          (page (Some empty_shelves) None None))).
Proof.
  apply (proj1 (proj2 (proj2 (proj2
           (addBook_versions_agree PostRejected (sample_book "B1")
              "want" "finished" (page (Some empty_shelves) None None)))))).
  reflexivity.
Defined.

(* ------------------------------------------------------------------ *)
(** ** The star rating of the 3D shelf *)

Section StarFacts.
Import QArith_base Qround Lqa Stars.
Local Open Scope Q_scope.

Lemma floor_bounds (x : Q) :
  inject_Z (Qfloor x) <= x /\ x < inject_Z (Qfloor x) + 1.
Proof.
  split; [apply Qfloor_le|].
  pose proof (Qlt_floor x) as H. rewrite inject_Z_plus in H. exact H.
Qed.

Lemma floor_sign (x : Q) : (0 <= Qfloor x)%Z <-> 0 <= x.
Proof.
  destruct (floor_bounds x) as [L U]. split; intros H.
  - rewrite Zle_Qle in H. change (0 <= inject_Z (Qfloor x)) in H. lra.
  - rewrite <- (Qfloor_Z 0). apply Qfloor_resp_le. exact H.
Qed.

Lemma count_repeat_same (x : symbol) (n : nat) :
  count_occ symbol_eq_dec (repeat x n) x = n.
Proof.
  induction n; simpl; [reflexivity|].
  destruct (symbol_eq_dec x x); congruence.
Qed.

Lemma count_repeat_other (x y : symbol) (n : nat) :
  x <> y -> count_occ symbol_eq_dec (repeat x n) y = 0%nat.
Proof.
  intros N. induction n; simpl; [reflexivity|].
  destruct (symbol_eq_dec x y); congruence.
Qed.

(** X21.  [getStarRating] returns exactly for the ratings from 0 up to,
    not including, 5.5, and then gives five symbols: as many full stars
    as the whole part of the rating, the half sign when the fraction is
    at least one half, and empty stars for the rest (so a rating above 5
    and below 5.5 shows five full stars).  For a negative rating and for
    one of 5.5 or more [repeat] gets a negative count and throws a
    RangeError. *)
Theorem getStarRating_five_symbols (rating : Q) :
  (0 <= rating /\ rating < 11 # 2 ->
   exists l,
     getStarRating rating = Some l /\
     List.length l = 5%nat /\
     count_occ symbol_eq_dec l full_star = Z.to_nat (Qfloor rating) /\
     count_occ symbol_eq_dec l half_sign =
       (if Qle_bool (1 # 2) (rating - inject_Z (Qfloor rating))
        then 1%nat else 0%nat)) /\
  (rating < 0 \/ 11 # 2 <= rating -> getStarRating rating = None).
Proof.
  destruct (floor_bounds rating) as [L U].
  pose proof (floor_sign rating) as Sg.
  unfold getStarRating, repeat_symbol, rem1. split.
  - intros [P H]. pose proof (proj2 Sg P) as F0.
    rewrite (proj2 (Qle_bool_iff 0 rating) P).
    destruct (Z.ltb_spec (Qfloor rating) 0) as [C|_]; [lia|].
    assert (F5 : (Qfloor rating <= 5)%Z).
    { apply Z.lt_succ_r. rewrite Zlt_Qlt.
      change (inject_Z (Qfloor rating) < 6). lra. }
    destruct (Qle_bool (1 # 2) (rating - inject_Z (Qfloor rating))) eqn:Hh.
    + apply Qle_bool_iff in Hh.
      assert (F4 : (Qfloor rating <= 4)%Z).
      { apply Z.lt_succ_r. rewrite Zlt_Qlt.
        change (inject_Z (Qfloor rating) < 5). lra. }
      destruct (Z.ltb_spec (5 - Qfloor rating - 1) 0) as [C|_]; [lia|].
      eexists. split; [reflexivity|].
      rewrite !length_app, !repeat_length, !count_occ_app,
        !count_repeat_same.
      rewrite !count_repeat_other by discriminate.
      change (count_occ symbol_eq_dec [half_sign] full_star) with 0%nat.
      change (count_occ symbol_eq_dec [half_sign] half_sign) with 1%nat.
      cbn [List.length]. lia.
    + destruct (Z.ltb_spec (5 - Qfloor rating - 0) 0) as [C|_]; [lia|].
      eexists. split; [reflexivity|].
      rewrite !length_app, !repeat_length, !count_occ_app,
        !count_repeat_same.
      rewrite !count_repeat_other by discriminate.
      change (count_occ symbol_eq_dec [] full_star) with 0%nat.
      change (count_occ symbol_eq_dec [] half_sign) with 0%nat.
      cbn [List.length]. lia.
  - intros [N|H].
    + destruct (Z.ltb_spec (Qfloor rating) 0) as [_|C]; [reflexivity|].
      apply Sg in C. lra.
    + destruct (Z.ltb_spec (Qfloor rating) 0) as [_|C]; [reflexivity|].
      assert (P : 0 <= rating) by lra.
      rewrite (proj2 (Qle_bool_iff 0 rating) P).
      assert (F5 : (5 <= Qfloor rating)%Z).
      { rewrite <- (Qfloor_Z 5). apply Qfloor_resp_le.
        change (5 <= rating). lra. }
      destruct (Qle_bool (1 # 2) (rating - inject_Z (Qfloor rating))) eqn:Hh.
      * destruct (Z.ltb_spec (5 - Qfloor rating - 1) 0) as [_|C'];
          [reflexivity|lia].
      * destruct (Z.ltb_spec (5 - Qfloor rating - 0) 0) as [_|C'];
          [reflexivity|].
        assert (E : Qfloor rating = 5%Z) by lia.
        assert (Hn : ~ (1 # 2 <= rating - inject_Z (Qfloor rating))).
        { intros X. apply Qle_bool_iff in X. congruence. }
        exfalso. apply Hn. rewrite E in *.
        change (inject_Z 5) with 5 in *. lra.
Qed.

Lemma getStarRating_five_symbols_witness :
  getStarRating (9 # 2) =
    Some [full_star; full_star; full_star; full_star; half_sign] /\
  getStarRating (11 # 2) = None.
Proof.
  split.
  - destruct (proj1 (getStarRating_five_symbols (9 # 2)))
      as [l [E _]]; [split; [discriminate|reflexivity]|].
    rewrite E. vm_compute in E. inversion E. reflexivity.
  - apply (proj2 (getStarRating_five_symbols (11 # 2))).
    right. discriminate.
Defined.

End StarFacts.
